(** * chat-history.js: the message-to-fragment layer of nechaevka_bot

    A shallow embedding of [static/js/chat-history.js] and the properties of
    its cell builders, reply preview, gallery adapter and row assemblers.

    The repository carries the module in two layouts that share every cell
    builder verbatim and differ in the gallery fallback and in the row
    assemblers: the card layout (first listing) and the table layout (second
    listing).  The shared builders are embedded once at top level, the
    layout-specific code lives in [Module Card] and [Module Table]. *)

From stdpp Require Import gmap strings list fin_maps.
From Stdlib Require Import ZArith DecimalString DecimalPos DecimalZ Ascii.

Set Default Proof Using "Type".
Set Warnings "-register-all".

(** ** JavaScript strings

    A JS string is a sequence of UTF-16 code units.  Literals are written in
    this file as UTF-8 text and decoded by [str]; [html] additionally turns
    every apostrophe of the literal into the double quote of the source, so
    that markup can be written [<span class='x'>] here for
    [<span class="x">] there (no literal of the module contains an
    apostrophe). *)

Abbreviation jsstring := (list N).

Fixpoint bytes_of (s : string) : list N :=
  match s with
  | EmptyString => []
  | String a rest => N_of_ascii a :: bytes_of rest
  end.

Definition surrogates (cp : N) : list N :=
  let c := (cp - 65536)%N in [(55296 + c / 1024)%N; (56320 + c mod 1024)%N].

Fixpoint utf16 (bs : list N) : jsstring :=
  match bs with
  | [] => []
  | b :: rest =>
    if (b <? 128)%N then b :: utf16 rest
    else match rest with
    | [] => [b]
    | c :: rest1 =>
      if (b <? 224)%N then ((b - 192) * 64 + (c - 128))%N :: utf16 rest1
      else match rest1 with
      | [] => [b; c]
      | d :: rest2 =>
        if (b <? 240)%N
        then ((b - 224) * 4096 + (c - 128) * 64 + (d - 128))%N :: utf16 rest2
        else match rest2 with
        | [] => [b; c; d]
        | e :: rest3 =>
          surrogates ((b - 240) * 262144 + (c - 128) * 4096
                      + (d - 128) * 64 + (e - 128))%N ++ utf16 rest3
        end
      end
    end
  end.

Definition str (s : string) : jsstring := utf16 (bytes_of s).

Definition requote (c : N) : N := if (c =? 39)%N then 34%N else c.

Definition html (s : string) : jsstring := requote <$> str s.

(** ** JavaScript values

    The records handled by the layer are JSON data: [undefined] (also the
    value of an absent property), [null], booleans, numbers, strings, arrays
    and plain objects.  Numbers are the integers that identifiers and counts
    are; an object is a finite map from property names to values. *)

Inductive value : Type :=
  | VUndef
  | VNull
  | VBool (b : bool)
  | VNum (z : Z)
  | VStr (s : jsstring)
  | VArr (xs : list value)
  | VObj (o : gmap string value).

Abbreviation obj := (gmap string value).

(** [message.name] on a record. *)
Definition field (o : obj) (name : string) : value := default VUndef (o !! name).

(** [v.name] on a value that is neither [undefined] nor [null]: primitives
    and arrays have none of the properties the module reads. *)
Definition prop (v : value) (name : string) : value :=
  match v with
  | VObj o => field o name
  | _ => VUndef
  end.

(** ToBoolean. *)
Definition truthy (v : value) : bool :=
  match v with
  | VUndef | VNull => false
  | VBool b => b
  | VNum z => negb (z =? 0)%Z
  | VStr s => match s with [] => false | _ => true end
  | VArr _ | VObj _ => true
  end.

(** [a || b], [a && b], [a ?? b] and [v !== false]. *)
Definition or_ (a b : value) : value := if truthy a then a else b.
Definition and_ (a b : value) : value := if truthy a then b else a.
Definition coalesce (a b : value) : value :=
  match a with
  | VUndef | VNull => b
  | _ => a
  end.
Definition not_false (v : value) : bool :=
  match v with
  | VBool false => false
  | _ => true
  end.

(** [v === 'literal']. *)
Definition is_str (v : value) (s : jsstring) : bool :=
  match v with
  | VStr t => bool_decide (t = s)
  | _ => false
  end.

(** ToString of an integer, for the integers JS prints in plain decimal. *)
Definition num_str (z : Z) : jsstring :=
  str (NilZero.string_of_int (Z.to_int z)).

(** ToString, as applied by a template literal to each substitution, on the
    values that print: a plain object prints as '[object Object]'.  An object
    with a property of its own named [toString] makes the template raise
    instead; [printable], below, tells these values apart. *)
Fixpoint toString (v : value) : jsstring :=
  match v with
  | VUndef => str "undefined"
  | VNull => str "null"
  | VBool true => str "true"
  | VBool false => str "false"
  | VNum z => num_str z
  | VStr s => s
  | VArr xs =>
    let elt x := match x with VUndef | VNull => [] | _ => toString x end in
    (fix join (l : list value) : jsstring :=
       match l with
       | [] => []
       | [x] => elt x
       | x :: rest => elt x ++ str "," ++ join rest
       end) xs
  | VObj _ => str "[object Object]"
  end.

(** Exceptions: the only one the module can raise on JSON data is the
    TypeError of calling a method that the receiver does not have. *)
Inductive result (A : Type) : Type :=
  | Ok (a : A)
  | TypeError.
Arguments Ok {A} a.
Arguments TypeError {A}.

(** [v.slice(0, 120)]: strings and arrays have the method. *)
Definition slice120 (v : value) : result value :=
  match v with
  | VStr s => Ok (VStr (take 120 s))
  | VArr xs => Ok (VArr (take 120 xs))
  | _ => TypeError
  end.

(** ** The shared cell builders *)

Definition placeholder : jsstring := html "<span class='text-secondary'>—</span>".

Definition botBadgeHtml : jsstring := html "<span class='sender-badge'>Бот</span>".

Definition avatarSpan (avatarUrl safeLabel : value) : jsstring :=
  html "<span class='d-inline-flex align-items-center gap-2'><img src='"
  ++ toString avatarUrl
  ++ html "' alt='Аватар' class='avatar-inline' loading='lazy' /> <span>"
  ++ toString safeLabel ++ html "</span></span>".

Definition buildAvatarLabel (label avatarUrl : value) : value :=
  let safeLabel := or_ label (VStr (str "—")) in
  if truthy avatarUrl then VStr (avatarSpan avatarUrl safeLabel)
  else safeLabel.

Definition peerLink (peer_id inner : value) : jsstring :=
  html "<a href='/chat/" ++ toString peer_id
  ++ html "' target='_blank' class='text-decoration-none text-light d-inline-flex align-items-center gap-2'>"
  ++ toString inner ++ html "</a>".

Definition buildPeerCell (message options : obj) : value :=
  let chatName := or_ (field message "peer_title") (VStr (str "Чат без названия")) in
  let avatarUrl := field message "peer_avatar" in
  let allowLink := not_false (field options "allowLink") in
  let hasId := truthy (field message "peer_id") in
  if allowLink && hasId
  then VStr (peerLink (field message "peer_id") (buildAvatarLabel chatName avatarUrl))
  else buildAvatarLabel chatName avatarUrl.

Definition senderLink (from_id baseLabel : value) : jsstring :=
  html "<a href='/user/" ++ toString from_id
  ++ html "' target='_blank' class='text-decoration-none text-light d-inline-flex align-items-center gap-2'>"
  ++ toString baseLabel ++ html "</a>".

Definition senderDiv (inner botBadge : jsstring) : jsstring :=
  html "<div class='d-flex align-items-center gap-2 flex-wrap'>"
  ++ inner ++ botBadge ++ html "</div>".

Definition buildSenderCell (message options : obj) : jsstring :=
  let senderName := or_ (field message "from_name") (VStr (str "Неизвестный отправитель")) in
  let avatarUrl := field message "from_avatar" in
  let allowLink := not_false (field options "allowLink") in
  let showBotBadge := not_false (field options "showBotBadge") in
  let botBadge :=
    if truthy (and_ (field message "is_bot") (VBool showBotBadge))
    then botBadgeHtml else [] in
  let baseLabel := buildAvatarLabel senderName avatarUrl in
  let hasId := truthy (field message "from_id") in
  if allowLink && hasId
  then senderDiv (senderLink (field message "from_id") baseLabel) botBadge
  else senderDiv (toString baseLabel) botBadge.

(** ** Reply preview *)

Definition bind_result {A B} (r : result A) (k : A → result B) : result B :=
  match r with
  | Ok a => k a
  | TypeError => TypeError
  end.

Notation "'let!' x := r 'in' k" := (bind_result r (λ x, k))
  (at level 10, x name, r at level 100, k at level 200).

(** [reply.text ? reply.text.slice(0, 120) : 'Без текста'], the expression
    both branches of [buildReplyPreview] bind to [replyText]. *)
Definition replyTextOf (reply : value) : result value :=
  if truthy (prop reply "text") then slice120 (prop reply "text")
  else Ok (VStr (str "Без текста")).

Definition replyAuthorLabelOf (reply : value) : value :=
  if truthy (prop reply "from_name")
  then VStr (toString (prop reply "from_name") ++ str " (ID: "
             ++ toString (coalesce (prop reply "from_id") (VStr (str "—")))
             ++ str ")")
  else if truthy (prop reply "from_id")
  then VStr (str "ID: " ++ toString (prop reply "from_id"))
  else VStr (str "Автор неизвестен").

Definition replyLinkOf (reply peerId replyId : value) : jsstring :=
  if truthy (and_ (prop reply "id") peerId)
  then html "<a href='https://vk.com/im?sel=" ++ toString peerId
       ++ html "&msgid=" ++ toString (prop reply "id")
       ++ html "' target='_blank' rel='noopener noreferrer'>#"
       ++ toString (prop reply "id") ++ html "</a>"
  else str "#" ++ toString replyId.

Definition replyAttachmentsLabelOf (reply : value) : jsstring :=
  let replyAttachmentsCount :=
    match prop reply "attachments" with
    | VArr xs => Z.of_nat (length xs)
    | _ => 0%Z
    end in
  if truthy (VNum replyAttachmentsCount)
  then toString (VNum replyAttachmentsCount) ++ str " влож."
  else str "Без вложений".

Definition detailedBlock (replyLink replyAttachmentsLabel replyText replyAuthorCell : jsstring)
    : jsstring :=
  html "<div class='d-flex flex-column gap-1'><div class='d-flex align-items-center gap-2'>"
  ++ replyLink ++ html "<span class='text-secondary small'>" ++ replyAttachmentsLabel
  ++ html "</span></div><div class='text-secondary small'>" ++ replyText
  ++ html "</div><div class='text-secondary small'>" ++ replyAuthorCell
  ++ html "</div></div>".

Definition compactBlock (replyText replyAuthorName replyBotBadge : jsstring) : jsstring :=
  html "<div class='d-flex flex-column gap-1'><div class='text-secondary small'>Ответ на предыдущее сообщение</div><div class='text-light small'>"
  ++ replyText
  ++ html "</div><div class='d-flex align-items-center gap-2 text-secondary small'>"
  ++ replyAuthorName ++ replyBotBadge ++ html "</div></div>".

Definition buildReplyPreview (reply : value) (options : obj) : result jsstring :=
  if negb (truthy reply) then Ok placeholder
  else
    let mode := or_ (field options "mode") (VStr (str "compact")) in
    if is_str mode (str "detailed") then
      if negb (truthy (prop reply "id")) && negb (truthy (prop reply "text"))
         && negb (truthy (prop reply "from_id"))
      then Ok placeholder
      else
        let replyId := coalesce (prop reply "id") (VStr (str "—")) in
        let! replyText := replyTextOf reply in
        let replyAuthorLabel := replyAuthorLabelOf reply in
        let replyAuthorCell := buildAvatarLabel replyAuthorLabel (prop reply "from_avatar") in
        let peerId := field options "peerId" in
        let replyLink := replyLinkOf reply peerId replyId in
        let replyAttachmentsLabel := replyAttachmentsLabelOf reply in
        Ok (detailedBlock replyLink replyAttachmentsLabel (toString replyText)
              (toString replyAuthorCell))
    else
      let hasReadableData := or_ (prop reply "text") (prop reply "from_name") in
      if negb (truthy hasReadableData) then Ok placeholder
      else
        let! replyText := replyTextOf reply in
        let replyAuthorName := or_ (prop reply "from_name") (VStr (str "Автор не указан")) in
        let replyBotBadge := if truthy (prop reply "is_bot") then botBadgeHtml else [] in
        Ok (compactBlock (toString replyText) (toString replyAuthorName) replyBotBadge).

(** ** The object store and the gallery collaborator

    Records are passed by reference.  The store maps a reference to the
    record it denotes; next to it the world holds the state of the gallery
    subsystem, whose type [G] is the collaborator's own business. *)

Abbreviation loc := positive.

Record world (G : Type) : Type := World {
  heap : gmap loc obj;
  gallery : G;
}.
Arguments World {G} heap gallery.
Arguments heap {G} w.
Arguments gallery {G} w.

(** Modelled from the spec: the gallery module is not among the sources; its
    consumed interface is the four optional operations of the specification's
    section 6.  The two extraction operations compute a sequence from the
    message's data.  Registration is handed a record and a key: it may change
    that record and the gallery state, so it maps the record's content and
    the gallery state to their new values.  The content cell is rendered from
    the two sequences and the key, with the gallery state in view. *)
Record GalleryApi (G : Type) : Type := {
  extractAttachments : option (obj → list value);
  extractCopyHistory : option (obj → list value);
  registerMessageGallery : option (obj → value → G → obj * G);
  buildContentCell : option (G → list value → list value → value → value);
}.
Arguments extractAttachments {G} g.
Arguments extractCopyHistory {G} g.
Arguments registerMessageGallery {G} g.
Arguments buildContentCell {G} g.

(** Operations that read and allocate records and call the collaborator. *)
Definition M (G A : Type) : Type := world G → result (A * world G).

Definition ret {G A} (a : A) : M G A := λ w, Ok (a, w).

Definition bind {G A B} (c : M G A) (k : A → M G B) : M G B :=
  λ w, match c w with
       | Ok (a, w') => k a w'
       | TypeError => TypeError
       end.

Notation "'do' x <- c ; k" := (bind c (λ x, k))
  (at level 10, x name, c at level 100, k at level 200).

Definition lift {G A} (r : result A) : M G A :=
  λ w, match r with Ok a => Ok (a, w) | TypeError => TypeError end.

(** Reading a record through its reference; a reference handed to the layer
    always denotes a record, an unknown one reads as the empty record. *)
Definition deref {G} (l : loc) : M G obj :=
  λ w, Ok (default ∅ (heap w !! l), w).

(** An object literal allocates a record at a reference not yet in use. *)
Definition alloc {G} (o : obj) : M G loc :=
  λ w, let l := fresh (dom (heap w)) in
       Ok (l, World (<[l := o]> (heap w)) (gallery w)).

(** Calling a collaborator operation on the record at [l]. *)
Definition callOn {G} (f : obj → G → obj * G) (l : loc) : M G unit :=
  λ w, let '(o, g) := f (default ∅ (heap w !! l)) (gallery w) in
       Ok (tt, World (<[l := o]> (heap w)) g).

Definition getGallery {G} : M G G := λ w, Ok (gallery w, w).

(** [galleryApi?.op]: the operation when the collaborator and the operation
    both exist. *)
Definition capability {G A} (galleryApi : option (GalleryApi G))
    (op : GalleryApi G → option A) : option A :=
  galleryApi ≫= op.

(** [prepareGalleryContent], up to the fragment returned when the
    collaborator cannot build a content cell, in which the layouts differ. *)
Definition prepareGalleryContentWith {G} (fallback : value)
    (message : loc) (galleryApi : option (GalleryApi G)) (galleryKey : value)
    : M G (value * list value * list value) :=
  do m <- deref message;
  let normalizedAttachments :=
    match capability galleryApi extractAttachments with
    | Some extract => extract m
    | None => []
    end in
  let normalizedCopyHistory :=
    match capability galleryApi extractCopyHistory with
    | Some extract => extract m
    | None => []
    end in
  do _ <- match capability galleryApi registerMessageGallery with
          | Some register =>
            do copy <- alloc (<["copy_history" := VArr normalizedCopyHistory]>
                               (<["attachments" := VArr normalizedAttachments]> m));
            callOn (λ o, register o galleryKey) copy
          | None => ret tt
          end;
  do g <- getGallery;
  let contentCell :=
    match capability galleryApi buildContentCell with
    | Some build => build g normalizedAttachments normalizedCopyHistory galleryKey
    | None => fallback
    end in
  ret (contentCell, normalizedAttachments, normalizedCopyHistory).

(** ** Row assemblers: shared pieces *)

(** The element made by [document.createElement]. *)
Record element : Type := Element {
  tagName : string;
  classList : list string;
  innerHTML : jsstring;
}.

(** [classList.add]. *)
Definition classList_add (c : string) (cs : list string) : list string :=
  if bool_decide (c ∈ cs) then cs else cs ++ [c].

Record RowOptions : Type := {
  isNew : value;
  formatDate : option (value → value);
  showChatColumn : value;
  showSenderColumn : value;
}.

(** [options.formatDate || ((value) => value || '—')]. *)
Definition formatDateOf (options : RowOptions) : value → value :=
  match formatDate options with
  | Some f => f
  | None => λ v, or_ v (VStr (str "—"))
  end.

Definition allowLinkOptions : obj := {[ "allowLink" := VBool true ]}.
Definition senderOptions : obj :=
  <["showBotBadge" := VBool true]> {[ "allowLink" := VBool true ]}.
Definition compactOptions : obj := {[ "mode" := VStr (str "compact") ]}.
Definition detailedOptions (peerId : value) : obj :=
  <["peerId" := peerId]> {[ "mode" := VStr (str "detailed") ]}.

(** [Boolean(reply && (reply.text || reply.from_name || reply.from_id))]. *)
Definition hasReplyOf (reply : value) : bool :=
  truthy (and_ reply (or_ (or_ (prop reply "text") (prop reply "from_name"))
                          (prop reply "from_id"))).

(** [(a?.length || 0) > 0 || (c?.length || 0) > 0] on two sequences. *)
Definition hasAttachmentsOf (normalizedAttachments normalizedCopyHistory : list value) : bool :=
  (0 <? length normalizedAttachments) || (0 <? length normalizedCopyHistory).

Definition deleteButtonOf (log : obj) : jsstring :=
  html "<button type='button' class='btn btn-sm btn-outline-danger delete-log-btn' data-log-id='"
  ++ toString (field log "id") ++ html "'>Удалить</button>".

(** [log.is_bot ? 'Да' : 'Нет']. *)
Definition botFlagOf (log : obj) : jsstring :=
  if truthy (field log "is_bot") then str "Да" else str "Нет".

Definition nl : jsstring := [10%N].

(** [chunks.join(sep)] on an array of strings. *)
Fixpoint joinWith (sep : jsstring) (chunks : list jsstring) : jsstring :=
  match chunks with
  | [] => []
  | [c] => c
  | c :: rest => c ++ sep ++ joinWith sep rest
  end.

(** The label of the avatar column:
    [buildAvatarLabel(m.from_name || m.peer_title, m.from_avatar || m.peer_avatar)]. *)
Definition avatarColOf (m : obj) : jsstring :=
  toString (buildAvatarLabel (or_ (field m "from_name") (field m "peer_title"))
                             (or_ (field m "from_avatar") (field m "peer_avatar"))).

(** Status classes shared by the assemblers. *)
Definition markNew (options : RowOptions) (cs : list string) : list string :=
  if truthy (isNew options) then classList_add "message-row-new" cs else cs.
Definition markDeleted (m : obj) (cs : list string) : list string :=
  if truthy (field m "is_deleted") then classList_add "message-deleted" cs else cs.

(** ** The card layout *)

Module Card.
Section Card.
Context {G : Type}.

Definition prepareGalleryContent :=
  @prepareGalleryContentWith G (VStr []).

Definition replyBlock (hasReply : bool) (replyCell : jsstring) : jsstring :=
  if hasReply then html "<div class='chat-bubble-reply'>" ++ replyCell ++ html "</div>"
  else [].

Definition attachmentsBlock (hasAttachments : bool) (contentCell : value) : jsstring :=
  if hasAttachments
  then html "<div class='chat-bubble-attachments'>" ++ toString contentCell ++ html "</div>"
  else [].

Definition dashboardHtml (avatar peerCell createdAt authorCell reply attachments body : jsstring)
    : jsstring :=
  nl ++ html "      <div class='chat-avatar-col'>" ++ avatar ++ html "</div>" ++ nl
  ++ html "      <div class='chat-bubble'>" ++ nl
  ++ html "        <div class='chat-bubble-header'>" ++ nl
  ++ html "          <div class='chat-bubble-meta'>" ++ peerCell ++ html "</div>" ++ nl
  ++ html "          <div class='chat-bubble-time text-secondary'>" ++ createdAt
  ++ html "</div>" ++ nl
  ++ html "        </div>" ++ nl
  ++ html "        <div class='chat-bubble-author'>" ++ authorCell ++ html "</div>" ++ nl
  ++ html "        " ++ reply ++ nl
  ++ html "        " ++ attachments ++ nl
  ++ html "        <div class='chat-bubble-text'>" ++ body ++ html "</div>" ++ nl
  ++ html "      </div>" ++ nl
  ++ html "    ".

(** The record is read through [message] before and after the collaborator
    has run, as the source reads it. *)
Definition buildDashboardRow (message : loc) (galleryApi : option (GalleryApi G))
    (galleryKey : value) (options : RowOptions) : M G element :=
  do m <- deref message;
  let classes := markDeleted m (markNew options (classList_add "chat-item" [])) in
  let createdAt := formatDateOf options (field m "created_at") in
  let peerCell := buildPeerCell m allowLinkOptions in
  let authorCell := buildSenderCell m senderOptions in
  do replyCell <- lift (buildReplyPreview (field m "reply") compactOptions);
  let hasReply := hasReplyOf (field m "reply") in
  do prepared <- prepareGalleryContent message galleryApi galleryKey;
  let '(contentCell, normalizedAttachments, normalizedCopyHistory) := prepared in
  let hasAttachments := hasAttachmentsOf normalizedAttachments normalizedCopyHistory in
  do m <- deref message;
  let textCell := coalesce (field m "text") (VStr []) in
  ret (Element "div" classes
         (dashboardHtml (avatarColOf m) (toString peerCell) (toString createdAt) authorCell
            (replyBlock hasReply replyCell) (attachmentsBlock hasAttachments contentCell)
            (toString (or_ textCell (VStr placeholder))))).

Definition logsHtml (avatar peerCell createdAt authorCell botBadge reply attachments body
                       messageIdCell logIdCell deleteButton : jsstring) : jsstring :=
  nl ++ html "      <div class='chat-avatar-col'>" ++ avatar ++ html "</div>" ++ nl
  ++ html "      <div class='chat-bubble'> " ++ nl
  ++ html "        <div class='chat-bubble-header'>" ++ nl
  ++ html "          <div class='chat-bubble-meta'>" ++ peerCell ++ html "</div>" ++ nl
  ++ html "          <div class='chat-bubble-time text-secondary'>" ++ createdAt
  ++ html "</div>" ++ nl
  ++ html "        </div>" ++ nl
  ++ html "        <div class='chat-bubble-author'>" ++ authorCell ++ html "</div>" ++ nl
  ++ html "        <div class='chat-bubble-flags'>Бот: " ++ botBadge ++ html "</div>" ++ nl
  ++ html "        " ++ reply ++ nl
  ++ html "        " ++ attachments ++ nl
  ++ html "        <div class='chat-bubble-text'>" ++ body ++ html "</div>" ++ nl
  ++ html "        <div class='chat-bubble-footer'>" ++ nl
  ++ html "          <span class='badge bg-dark'>VK ID: " ++ messageIdCell
  ++ html "</span>" ++ nl
  ++ html "          <span class='badge bg-secondary'>Запись: " ++ logIdCell
  ++ html "</span> " ++ nl
  ++ html "          " ++ deleteButton ++ html " " ++ nl
  ++ html "        </div> " ++ nl
  ++ html "      </div>" ++ nl
  ++ html "    ".

Definition buildLogsRow (log : loc) (galleryApi : option (GalleryApi G))
    (galleryKey : value) (options : RowOptions) : M G element :=
  do m <- deref log;
  let classes := markDeleted m (classList_add "chat-item" []) in
  let createdAt := formatDateOf options (field m "created_at") in
  let peerCell := buildPeerCell m allowLinkOptions in
  let authorCell := buildSenderCell m senderOptions in
  let botBadge := botFlagOf m in
  do replyCell <- lift (buildReplyPreview (field m "reply")
                          (detailedOptions (field m "peer_id")));
  let hasReply := hasReplyOf (field m "reply") in
  do prepared <- prepareGalleryContent log galleryApi galleryKey;
  let '(contentCell, normalizedAttachments, normalizedCopyHistory) := prepared in
  let hasAttachments := hasAttachmentsOf normalizedAttachments normalizedCopyHistory in
  do m <- deref log;
  let textCell := coalesce (field m "text") (VStr []) in
  let messageIdCell := coalesce (field m "message_id") (VStr (str "—")) in
  let logIdCell := coalesce (field m "id") (VStr (str "—")) in
  let deleteButton := deleteButtonOf m in
  ret (Element "div" classes
         (logsHtml (avatarColOf m) (toString peerCell) (toString createdAt) authorCell
            botBadge (replyBlock hasReply replyCell)
            (attachmentsBlock hasAttachments contentCell)
            (toString (or_ textCell (VStr placeholder)))
            (toString messageIdCell) (toString logIdCell) deleteButton)).

Definition entityHtml (avatar header attachments textCell : jsstring) : jsstring :=
  nl ++ html "      <div class='chat-avatar-col'>" ++ avatar ++ html "</div>" ++ nl
  ++ html "      <div class='chat-bubble'>" ++ nl
  ++ html "        <div class='chat-bubble-header'>" ++ header ++ html "</div>" ++ nl
  ++ html "        " ++ attachments ++ nl
  ++ html "        <div class='chat-bubble-text'>" ++ textCell ++ html "</div>" ++ nl
  ++ html "      </div>" ++ nl
  ++ html "    ".

Definition buildEntityRow (message : loc) (galleryApi : option (GalleryApi G))
    (galleryKey : value) (options : RowOptions) : M G element :=
  do m <- deref message;
  let classes := markDeleted m (classList_add "chat-item" []) in
  let showChatColumn := truthy (showChatColumn options) in
  let showSenderColumn := truthy (showSenderColumn options) in
  let createdAtCell := formatDateOf options (field m "created_at") in
  let peerCell := buildPeerCell m allowLinkOptions in
  let authorCell := buildSenderCell m senderOptions in
  do prepared <- prepareGalleryContent message galleryApi galleryKey;
  let '(contentCell, normalizedAttachments, normalizedCopyHistory) := prepared in
  let hasAttachments := hasAttachmentsOf normalizedAttachments normalizedCopyHistory in
  do m <- deref message;
  let textCell := coalesce (field m "text") (VStr (str "—")) in
  let metaChunks :=
    [html "<span class='chat-bubble-time text-secondary'>" ++ toString createdAtCell
     ++ html "</span>"]
    ++ (if showChatColumn
        then [html "<span class='chat-bubble-meta'>" ++ toString peerCell ++ html "</span>"]
        else [])
    ++ (if showSenderColumn
        then [html "<span class='chat-bubble-author'>" ++ authorCell ++ html "</span>"]
        else []) in
  ret (Element "div" classes
         (entityHtml (avatarColOf m) (joinWith (str " · ") metaChunks)
            (attachmentsBlock hasAttachments contentCell) (toString textCell))).
End Card.
End Card.

(** ** The table layout *)

Module Table.
Section Table.
Context {G : Type}.

Definition prepareGalleryContent :=
  @prepareGalleryContentWith G (VStr placeholder).

Definition dashboardHtml (createdAt peerCell authorCell replyCell contentCell textCell : jsstring)
    : jsstring :=
  html "<td class='text-secondary small text-nowrap'>" ++ createdAt
  ++ html "</td><td class='text-nowrap'>" ++ peerCell
  ++ html "</td><td class='text-nowrap'>" ++ authorCell
  ++ html "</td><td>" ++ replyCell
  ++ html "</td><td>" ++ contentCell
  ++ html "</td><td>" ++ textCell ++ html "</td>".

Definition buildDashboardRow (message : loc) (galleryApi : option (GalleryApi G))
    (galleryKey : value) (options : RowOptions) : M G element :=
  do m <- deref message;
  let classes := markDeleted m (markNew options []) in
  let createdAt := formatDateOf options (field m "created_at") in
  let peerCell := buildPeerCell m allowLinkOptions in
  let authorCell := buildSenderCell m senderOptions in
  do replyCell <- lift (buildReplyPreview (field m "reply") compactOptions);
  do prepared <- prepareGalleryContent message galleryApi galleryKey;
  let '(contentCell, _, _) := prepared in
  do m <- deref message;
  let textCell := coalesce (field m "text") (VStr []) in
  ret (Element "tr" classes
         (dashboardHtml (toString createdAt) (toString peerCell) authorCell replyCell
            (toString contentCell) (toString textCell))).

Definition logsHtml (createdAt peerCell authorCell botBadge replyCell contentCell textCell
                       messageIdCell logIdCell deleteButton : jsstring) : jsstring :=
  html "<td class='text-nowrap'>" ++ createdAt
  ++ html "</td><td class='text-nowrap'>" ++ peerCell
  ++ html "</td><td class='text-nowrap'>" ++ authorCell
  ++ html "</td><td class='text-nowrap'>" ++ botBadge
  ++ html "</td><td>" ++ replyCell
  ++ html "</td><td>" ++ contentCell
  ++ html "</td><td>" ++ textCell
  ++ html "</td><td class='text-nowrap'>" ++ messageIdCell
  ++ html "</td><td class='text-nowrap'>" ++ logIdCell
  ++ html "</td><td>" ++ deleteButton ++ html "</td>".

Definition buildLogsRow (log : loc) (galleryApi : option (GalleryApi G))
    (galleryKey : value) (options : RowOptions) : M G element :=
  do m <- deref log;
  let classes := markDeleted m [] in
  let createdAt := formatDateOf options (field m "created_at") in
  let peerCell := buildPeerCell m allowLinkOptions in
  let authorCell := buildSenderCell m senderOptions in
  let botBadge := botFlagOf m in
  do replyCell <- lift (buildReplyPreview (field m "reply")
                          (detailedOptions (field m "peer_id")));
  do prepared <- prepareGalleryContent log galleryApi galleryKey;
  let '(contentCell, _, _) := prepared in
  do m <- deref log;
  let textCell := coalesce (field m "text") (VStr []) in
  let messageIdCell := coalesce (field m "message_id") (VStr (str "—")) in
  let logIdCell := coalesce (field m "id") (VStr (str "—")) in
  let deleteButton := deleteButtonOf m in
  ret (Element "tr" classes
         (logsHtml (toString createdAt) (toString peerCell) authorCell botBadge replyCell
            (toString contentCell) (toString textCell) (toString messageIdCell)
            (toString logIdCell) deleteButton)).

Definition buildEntityRow (message : loc) (galleryApi : option (GalleryApi G))
    (galleryKey : value) (options : RowOptions) : M G element :=
  do m <- deref message;
  let classes := markDeleted m [] in
  let showChatColumn := truthy (showChatColumn options) in
  let showSenderColumn := truthy (showSenderColumn options) in
  let createdAtCell := formatDateOf options (field m "created_at") in
  let peerCell := buildPeerCell m allowLinkOptions in
  let authorCell := buildSenderCell m senderOptions in
  do prepared <- prepareGalleryContent message galleryApi galleryKey;
  let '(contentCell, _, _) := prepared in
  do m <- deref message;
  let textCell := coalesce (field m "text") (VStr (str "—")) in
  let cells :=
    [html "<td class='text-nowrap'>" ++ toString createdAtCell ++ html "</td>"]
    ++ (if showChatColumn
        then [html "<td class='text-nowrap'>" ++ toString peerCell ++ html "</td>"]
        else [])
    ++ (if showSenderColumn
        then [html "<td class='text-nowrap'>" ++ authorCell ++ html "</td>"]
        else [])
    ++ [html "<td>" ++ toString contentCell ++ html "</td>"]
    ++ [html "<td>" ++ toString textCell ++ html "</td>"] in
  ret (Element "tr" classes (joinWith [] cells)).
End Table.
End Table.

(** * Vocabulary of the statements *)

(** A text field of its documented type: absent, [null] or a string. *)
Definition textOk (reply : value) : bool :=
  match prop reply "text" with
  | VUndef | VNull | VStr _ => true
  | _ => false
  end.

(** A message record whose reply, if any, has a text of its documented type. *)
Definition messageOk (m : obj) : bool := textOk (field m "reply").

(** [mode === 'detailed'] for [mode = options.mode || 'compact']. *)
Definition detailedMode (options : obj) : bool :=
  is_str (or_ (field options "mode") (VStr (str "compact"))) (str "detailed").

(** The text segment of a preview. *)
Definition textSegment (reply : value) : jsstring :=
  match prop reply "text" with
  | VStr (c :: s) => take 120 (c :: s)
  | _ => str "Без текста"
  end.

(** The three situations in which a preview is the placeholder. *)
Definition previewEmpty (reply : value) (options : obj) : bool :=
  negb (truthy reply)
  || (if detailedMode options
      then negb (truthy (prop reply "id")) && negb (truthy (prop reply "text"))
           && negb (truthy (prop reply "from_id"))
      else negb (truthy (prop reply "text")) && negb (truthy (prop reply "from_name"))).

(** The fragment a preview is, when the text has its documented type. *)
Definition previewOf (reply : value) (options : obj) : jsstring :=
  if previewEmpty reply options then placeholder
  else if detailedMode options
  then detailedBlock
         (replyLinkOf reply (field options "peerId")
            (coalesce (prop reply "id") (VStr (str "—"))))
         (replyAttachmentsLabelOf reply) (textSegment reply)
         (toString (buildAvatarLabel (replyAuthorLabelOf reply)
                                     (prop reply "from_avatar")))
  else compactBlock (textSegment reply)
         (toString (or_ (prop reply "from_name") (VStr (str "Автор не указан"))))
         (if truthy (prop reply "is_bot") then botBadgeHtml else []).

(** Occurrence of one string inside another, decided. *)
Fixpoint prefixb (p l : jsstring) : bool :=
  match p, l with
  | [], _ => true
  | x :: p', y :: l' => (x =? y)%N && prefixb p' l'
  | _ :: _, [] => false
  end.

Fixpoint containsb (p l : jsstring) : bool :=
  prefixb p l || match l with [] => false | _ :: l' => containsb p l' end.

(** The class name by which the bot badge is recognized. *)
Definition badgeClass : jsstring := str "sender-badge".

(** An operation keeps the records of the store: it returns, and every
    record of the store before the call is the same record after it. *)
Definition keepsRecords {G A} (c : M G A) (w : world G) : Prop :=
  ∃ a w', c w = Ok (a, w') ∧ ∀ l o, heap w !! l = Some o → heap w' !! l = Some o.

(** A value that is [undefined] or [null]. *)
Definition nullish (v : value) : bool :=
  match v with
  | VUndef | VNull => true
  | _ => false
  end.

Section GalleryVocabulary.
Context {G : Type}.
Implicit Types (w : world G) (galleryApi : option (GalleryApi G)) (m : obj).

(** What [prepareGalleryContent] computes and leaves behind, named for the
    statements. *)
Definition attachmentsOf galleryApi m : list value :=
  match capability galleryApi extractAttachments with
  | Some extract => extract m
  | None => []
  end.

Definition copyHistoryOf galleryApi m : list value :=
  match capability galleryApi extractCopyHistory with
  | Some extract => extract m
  | None => []
  end.

Definition normalizedCopy galleryApi m : obj :=
  <["copy_history" := VArr (copyHistoryOf galleryApi m)]>
    (<["attachments" := VArr (attachmentsOf galleryApi m)]> m).

Definition afterRegistration galleryApi (galleryKey : value) m w : world G :=
  match capability galleryApi registerMessageGallery with
  | Some register =>
    let copy := fresh (dom (heap w)) in
    World (<[copy := (register (normalizedCopy galleryApi m) galleryKey (gallery w)).1]>
             (heap w))
          (register (normalizedCopy galleryApi m) galleryKey (gallery w)).2
  | None => w
  end.

Definition contentCellOf (fallback : value) galleryApi (g : G)
    (galleryKey : value) m : value :=
  match capability galleryApi buildContentCell with
  | Some build =>
    build g (attachmentsOf galleryApi m) (copyHistoryOf galleryApi m) galleryKey
  | None => fallback
  end.

End GalleryVocabulary.

(** ** The gallery registry *)

(** Modelled from the spec: the gallery module is not among the sources.  Its
    registration is keyed by the gallery key, and registering again under the
    same key replaces the prior entry without accumulation.  The registry is a
    finite map from the key (as the property name it is used as) to the
    registered record; registration leaves the record it is handed as it
    is. *)
Definition specRegister (o : obj) (galleryKey : value) (g : gmap jsstring obj)
    : obj * gmap jsstring obj :=
  (o, <[toString galleryKey := o]> g).

(** A collaborator with this registry; extraction and rendering are left
    arbitrary. *)
Definition specGallery
    (extractA extractC : option (obj → list value))
    (build : option (gmap jsstring obj → list value → list value → value → value))
    : GalleryApi (gmap jsstring obj) :=
  {| extractAttachments := extractA;
     extractCopyHistory := extractC;
     registerMessageGallery := Some specRegister;
     buildContentCell := build |}.

(** ** Sample records *)

Definition sampleReply : value :=
  VObj (<["text" := VStr (str "hi")]> (<["id" := VNum 7]> (<["is_bot" := VBool true]> ∅))).

Definition sampleBotReply : obj :=
  <["text" := VStr (str "hi")]> {[ "is_bot" := VBool true ]}.

Definition sampleMessage : obj :=
  <["peer_title" := VStr (str "Team")]> (<["peer_id" := VNum 5]>
  (<["from_name" := VStr (str "Bot1")]> (<["from_id" := VNum 9]>
  (<["is_bot" := VBool true]> (<["text" := VNull]>
  (<["created_at" := VStr (str "2024-01-01")]> (<["reply" := VNull]> ∅))))))).

Definition sampleOptions : RowOptions :=
  {| isNew := VUndef; formatDate := None;
     showChatColumn := VUndef; showSenderColumn := VUndef |}.

Definition sampleWorld : world (gmap jsstring obj) :=
  World {[ 1%positive := sampleMessage ]} ∅.

(** A value that is absent, [null] or a string. *)
Definition textual (v : value) : bool :=
  match v with
  | VUndef | VNull | VStr _ => true
  | _ => false
  end.

(** A log record whose reply is known by its id alone. *)
Definition sampleIdOnlyLog : obj :=
  <["reply" := VObj {[ "id" := VNum 7 ]}]> sampleMessage.

(** A message whose text is the empty string. *)
Definition sampleEmptyText : obj := <["text" := VStr []]> sampleMessage.

(** ** Printable values

    ToString with its exception.  Printing an object calls its [toString]:
    the inherited one gives '[object Object]', while a property of its own
    named [toString], which in JSON data is never a function, leaves no
    method that returns a primitive ([valueOf] returns the object itself), so
    that a TypeError is raised.  An array is printed through its elements,
    [undefined] and [null] among them as the empty string. *)
Fixpoint toStringJS (v : value) : result jsstring :=
  match v with
  | VObj o =>
    if bool_decide (o !! "toString" = None) then Ok (str "[object Object]")
    else TypeError
  | VArr xs =>
    let elt x := match x with VUndef | VNull => Ok [] | _ => toStringJS x end in
    (fix join (l : list value) : result jsstring :=
       match l with
       | [] => Ok []
       | [x] => elt x
       | x :: rest =>
         match elt x, join rest with
         | Ok a, Ok b => Ok (a ++ str "," ++ b)
         | _, _ => TypeError
         end
       end) xs
  | _ => Ok (toString v)
  end.

(** The values that print without raising. *)
Fixpoint printable (v : value) : bool :=
  match v with
  | VObj o => bool_decide (o !! "toString" = None)
  | VArr xs =>
    (fix all (l : list value) : bool :=
       match l with
       | [] => true
       | x :: rest => printable x && all rest
       end) xs
  | _ => true
  end.

(** The fields of a message, and of a reply, that the layer prints. *)
Definition printedFields : list string :=
  ["peer_title"; "peer_avatar"; "peer_id"; "from_name"; "from_avatar"; "from_id";
   "created_at"; "text"; "message_id"; "id"].

Definition printedReplyFields : list string :=
  ["id"; "text"; "from_id"; "from_name"; "from_avatar"].

(** A reply the layer can render: its text is absent, [null] or a string, and
    the fields that are printed are printable. *)
Definition replyOk (reply : value) : bool :=
  textOk reply && forallb (λ name, printable (prop reply name)) printedReplyFields.

(** A message record the layer can render. *)
Definition recordOk (m : obj) : bool :=
  forallb (λ name, printable (field m name)) printedFields
  && replyOk (field m "reply").

(** Data that does not carry the class name of the bot badge. *)
Definition badgeFree (v : value) : bool := negb (containsb badgeClass (toString v)).

(** ** Further samples *)

(** A reply whose text is the markup of the bot badge. *)
Definition sampleBadgeTextReply : value :=
  VObj {[ "text" := VStr (html "<span class='sender-badge'>Бот</span>") ]}.

(** The world of one record without any field. *)
Definition bareWorld : world unit := World {[ 1%positive := ∅ ]} tt.

(** ** Batch registration *)

(** [messages.forEach((msg, idx) => body(msg, idx))], from index [idx] on. *)
Fixpoint forEachFrom {G} (idx : nat) (messages : list loc)
    (body : loc → nat → M G unit) : M G unit :=
  match messages with
  | [] => ret tt
  | msg :: rest => do _ <- body msg idx; forEachFrom (S idx) rest body
  end.

(** The gallery key [`entity-msg-${idx}`]. *)
Definition entityKey (idx : nat) : value :=
  VStr (str "entity-msg-" ++ toString (VNum (Z.of_nat idx))).

(** [registerEntityGalleries], the same in both listings up to the fallback
    of the [prepareGalleryContent] it calls, whose result it drops.  The
    argument is [None] when it is not an array, and the array of the
    messages' references otherwise. *)
Definition registerEntityGalleriesWith {G} (fallback : value)
    (messages : option (list loc)) (galleryApi : option (GalleryApi G)) : M G unit :=
  match messages with
  | None => ret tt
  | Some msgs =>
    forEachFrom 0 msgs (λ msg idx,
      let galleryKey := entityKey idx in
      do _ <- prepareGalleryContentWith fallback msg galleryApi galleryKey;
      ret tt)
  end.

(** * Properties *)

(** Literals are decoded by evaluation only, never by unification. *)
Opaque str html.

Lemma Ok_inj {A} (a b : A) : Ok a = Ok b → a = b.
Proof. intros H. by injection H. Qed.

(** Closed goals are settled by evaluation. *)
Ltac evaluate := vm_compute; reflexivity.

Lemma sampleWorld_message : heap sampleWorld !! 1%positive = Some sampleMessage.
Proof. apply lookup_singleton_eq. Qed.

Lemma sampleMessage_ok : messageOk sampleMessage = true.
Proof. evaluate. Qed.

(** ** Strings *)

Lemma length_ne {A} (a b : list A) : length a ≠ length b → a ≠ b.
Proof. intros Hlen ->. by apply Hlen. Qed.

Ltac html_lengths :=
  rewrite ?length_app;
  repeat match goal with
  | |- context [length (html ?s)] =>
    let n := eval vm_compute in (length (html s)) in
    change (length (html s)) with n
  end.

(** The closing quote of the [href] attribute and the attributes after it. *)
Lemma link_attributes_split :
  html "' target='_blank' class='text-decoration-none text-light d-inline-flex align-items-center gap-2'>"
  = html "'"
    ++ html " target='_blank' class='text-decoration-none text-light d-inline-flex align-items-center gap-2'>".
Proof. evaluate. Qed.

Lemma peerLink_longer (peer_id inner : value) :
  length (toString inner) < length (peerLink peer_id inner).
Proof. unfold peerLink. html_lengths. lia. Qed.





Lemma detailedBlock_ne_placeholder (a b c d : jsstring) :
  detailedBlock a b c d ≠ placeholder.
Proof.
  unfold detailedBlock. intros H.
  apply (f_equal (take 2)) in H. vm_compute in H. discriminate.
Qed.

Lemma compactBlock_ne_placeholder (a b c : jsstring) :
  compactBlock a b c ≠ placeholder.
Proof.
  unfold compactBlock. intros H.
  apply (f_equal (take 2)) in H. vm_compute in H. discriminate.
Qed.

(** ** Values *)

Lemma truthy_and_ (a b : value) : truthy (and_ a b) = truthy a && truthy b.
Proof. unfold and_. by destruct (truthy a) eqn:E. Qed.

Lemma truthy_or_ (a b : value) : truthy (or_ a b) = truthy a || truthy b.
Proof. unfold or_. by destruct (truthy a) eqn:E. Qed.

Lemma or_falsy (a b : value) : truthy a = false → or_ a b = b.
Proof. unfold or_. by intros ->. Qed.

Lemma or_truthy (a b : value) : truthy a = true → or_ a b = a.
Proof. unfold or_. by intros ->. Qed.

Lemma field_insert_eq (o : obj) (k : string) (v : value) : field (<[k := v]> o) k = v.
Proof. unfold field. by rewrite lookup_insert_eq. Qed.

Lemma field_insert_ne (o : obj) (k k' : string) (v : value) :
  k ≠ k' → field (<[k := v]> o) k' = field o k'.
Proof. unfold field. intros. by rewrite lookup_insert_ne. Qed.

(** ** Reply preview *)

Lemma replyTextOf_ok (reply : value) :
  textOk reply = true → replyTextOf reply = Ok (VStr (textSegment reply)).
Proof.
  unfold textOk, replyTextOf, textSegment.
  destruct (prop reply "text") as [| |b|z|s|xs|o]; try done.
  by destruct s.
Qed.

Lemma buildReplyPreview_eq (reply : value) (options : obj) :
  textOk reply = true →
  buildReplyPreview reply options = Ok (previewOf reply options).
Proof.
  intros Hok. unfold buildReplyPreview, previewOf, previewEmpty, detailedMode.
  rewrite (replyTextOf_ok _ Hok), truthy_or_.
  destruct (truthy reply); [|done]. cbn [negb orb].
  destruct (is_str _ _); cbn [bind_result toString];
    by destruct (truthy (prop reply "id")), (truthy (prop reply "text")),
       (truthy (prop reply "from_id")), (truthy (prop reply "from_name")).
Qed.

Lemma previewEmpty_cases (reply : value) (options : obj) :
  previewEmpty reply options = true ↔
    truthy reply = false
    ∨ (truthy reply = true ∧ detailedMode options = true
       ∧ truthy (prop reply "id") = false ∧ truthy (prop reply "text") = false
       ∧ truthy (prop reply "from_id") = false)
    ∨ (truthy reply = true ∧ detailedMode options = false
       ∧ truthy (prop reply "text") = false
       ∧ truthy (prop reply "from_name") = false).
Proof.
  unfold previewEmpty.
  destruct (truthy reply), (detailedMode options),
    (truthy (prop reply "id")), (truthy (prop reply "text")),
    (truthy (prop reply "from_id")), (truthy (prop reply "from_name"));
    cbn [negb andb orb]; intuition congruence.
Qed.

(** ** Occurrences *)

Lemma prefixb_spec (p l : jsstring) : prefixb p l = true ↔ ∃ b, l = p ++ b.
Proof.
  revert l. induction p as [|x p IH]; intros l; cbn [prefixb].
  - split; [by exists l|done].
  - destruct l as [|y l]; [split; [done|by intros [b Hb]]|].
    rewrite andb_true_iff, N.eqb_eq, IH. split.
    + intros [-> [b ->]]. by exists b.
    + intros [b [= -> ->]]. split; [done|by exists b].
Qed.

Lemma containsb_spec (p l : jsstring) :
  containsb p l = true ↔ ∃ a b, l = a ++ p ++ b.
Proof.
  induction l as [|y l IH]; cbn [containsb]; rewrite orb_true_iff, prefixb_spec.
  - split.
    + intros [[b Hb]|]; [|done]. by exists [], b.
    + intros (a & b & Hab). left. destruct a; [by exists b|done].
  - rewrite IH. split.
    + intros [[b Hb]|(a & b & ->)]; [by exists [], b|by exists (y :: a), b].
    + intros (a & b & Hab). destruct a as [|z a].
      * left. by exists b.
      * right. cbn [app] in Hab. injection Hab as Hy Hl. by exists a, b.
Qed.

(** A character foreign to [p] separates the occurrences of [p]. *)
Lemma containsb_app_sep (p a b : jsstring) (c : N) :
  c ∉ p → containsb p a = false → containsb p b = false →
  containsb p (a ++ c :: b) = false.
Proof.
  intros Hc Ha Hb. apply not_true_iff_false. rewrite containsb_spec.
  intros (u & v & Heq).
  apply not_true_iff_false in Ha, Hb. rewrite containsb_spec in Ha, Hb.
  apply app_eq_app in Heq as [l [[-> Heq]|[-> Heq]]].
  - symmetry in Heq. apply app_eq_app in Heq as [l' [[-> Heq]|[-> Heq]]].
    + apply Ha. exists u, l'. by rewrite <- ?app_assoc.
    + destruct l' as [|z l'].
      * apply Ha. exists u, []. by rewrite ?app_nil_r.
      * cbn [app] in Heq. injection Heq as Hz _. apply Hc. set_solver.
  - destruct l as [|z l].
    + destruct p as [|x p].
      * apply Ha. exists a, []. by rewrite ?app_nil_r.
      * cbn [app] in Heq. injection Heq as Hz _. apply Hc. set_solver.
    + cbn [app] in Heq. injection Heq as _ Hb'. apply Hb. by exists l, v.
Qed.

Lemma containsb_mono (p q l : jsstring) :
  containsb p q = true → containsb p l = false → containsb q l = false.
Proof.
  intros Hpq Hpl. apply not_true_iff_false. apply not_true_iff_false in Hpl.
  rewrite containsb_spec in *. destruct Hpq as (a & b & ->).
  intros (u & v & ->). apply Hpl. exists (u ++ a), (b ++ v).
  by rewrite <- ?app_assoc.
Qed.

Lemma lt_notin_badgeClass : 60%N ∉ badgeClass.
Proof. intros H. apply list_elem_of_In in H. vm_compute in H. intuition discriminate. Qed.

Lemma gt_notin_badgeClass : 62%N ∉ badgeClass.
Proof. intros H. apply list_elem_of_In in H. vm_compute in H. intuition discriminate. Qed.

Lemma badge_has_class : containsb badgeClass botBadgeHtml = true.
Proof. evaluate. Qed.

(** Markup literals, cut at their outer angle brackets. *)
Ltac cut_literal lit inner :=
  replace (html lit) with inner by evaluate.

Ltac split_at_brackets :=
  repeat first [rewrite <- app_assoc | progress cbn [app]];
  repeat (apply containsb_app_sep;
          [ first [exact lt_notin_badgeClass | exact gt_notin_badgeClass]
          | first [assumption | evaluate]
          | ]);
  first [assumption | evaluate].

Lemma detailedBlock_no_badge (replyLink label text author : jsstring) :
  containsb badgeClass replyLink = false →
  containsb badgeClass label = false →
  containsb badgeClass text = false →
  containsb badgeClass author = false →
  containsb botBadgeHtml (detailedBlock replyLink label text author) = false.
Proof.
  intros Hlink Hlabel Htext Hauthor.
  apply (containsb_mono badgeClass); [exact badge_has_class|].
  unfold detailedBlock.
  cut_literal "<div class='d-flex flex-column gap-1'><div class='d-flex align-items-center gap-2'>"
    (html "<div class='d-flex flex-column gap-1'><div class='d-flex align-items-center gap-2'"
     ++ [62%N]).
  cut_literal "<span class='text-secondary small'>"
    (60%N :: html "span class='text-secondary small'" ++ [62%N]).
  cut_literal "</span></div><div class='text-secondary small'>"
    (60%N :: html "/span></div><div class='text-secondary small'" ++ [62%N]).
  cut_literal "</div><div class='text-secondary small'>"
    (60%N :: html "/div><div class='text-secondary small'" ++ [62%N]).
  cut_literal "</div></div>" (60%N :: html "/div></div>").
  split_at_brackets.
Qed.

Lemma compactBlock_no_badge (text author : jsstring) :
  containsb badgeClass text = false →
  containsb badgeClass author = false →
  containsb botBadgeHtml (compactBlock text author []) = false.
Proof.
  intros Htext Hauthor.
  apply (containsb_mono badgeClass); [exact badge_has_class|].
  unfold compactBlock.
  cut_literal "<div class='d-flex flex-column gap-1'><div class='text-secondary small'>Ответ на предыдущее сообщение</div><div class='text-light small'>"
    (html "<div class='d-flex flex-column gap-1'><div class='text-secondary small'>Ответ на предыдущее сообщение</div><div class='text-light small'"
     ++ [62%N]).
  cut_literal "</div><div class='d-flex align-items-center gap-2 text-secondary small'>"
    (60%N :: html "/div><div class='d-flex align-items-center gap-2 text-secondary small'"
     ++ [62%N]).
  cut_literal "</div></div>" (60%N :: html "/div></div>").
  split_at_brackets.
Qed.

Lemma compactBlock_has_badge (text author : jsstring) :
  containsb botBadgeHtml (compactBlock text author botBadgeHtml) = true.
Proof.
  apply containsb_spec. unfold compactBlock.
  exists (html "<div class='d-flex flex-column gap-1'><div class='text-secondary small'>Ответ на предыдущее сообщение</div><div class='text-light small'>"
          ++ text
          ++ html "</div><div class='d-flex align-items-center gap-2 text-secondary small'>"
          ++ author),
         (html "</div></div>").
  by rewrite <- !app_assoc.
Qed.

(** ** Claims on the reply preview *)

(** C2: [buildReplyPreview] returns the placeholder exactly when the reply is
    null or absent (in either mode), when in detailed mode none of [id],
    [text], [from_id] is present, or when in compact mode neither [text] nor
    [from_name] is present; in every other case it returns the block of its
    mode, written out below, which is not the placeholder.  Presence of a
    field is its truthiness, and the text has its documented type. *)
Theorem buildReplyPreview_placeholder_cases (reply : value) (options : obj) :
  textOk reply = true →
  let placeholderHtml := html "<span class='text-secondary'>—</span>" in
  let text :=
    match prop reply "text" with
    | VStr (c :: s) => take 120 (c :: s)
    | _ => str "Без текста"
    end in
  let detailedHtml :=
    html "<div class='d-flex flex-column gap-1'><div class='d-flex align-items-center gap-2'>"
    ++ replyLinkOf reply (field options "peerId")
         (coalesce (prop reply "id") (VStr (str "—")))
    ++ html "<span class='text-secondary small'>" ++ replyAttachmentsLabelOf reply
    ++ html "</span></div><div class='text-secondary small'>" ++ text
    ++ html "</div><div class='text-secondary small'>"
    ++ toString (buildAvatarLabel (replyAuthorLabelOf reply) (prop reply "from_avatar"))
    ++ html "</div></div>" in
  let compactHtml :=
    html "<div class='d-flex flex-column gap-1'><div class='text-secondary small'>Ответ на предыдущее сообщение</div><div class='text-light small'>"
    ++ text
    ++ html "</div><div class='d-flex align-items-center gap-2 text-secondary small'>"
    ++ toString (or_ (prop reply "from_name") (VStr (str "Автор не указан")))
    ++ (if truthy (prop reply "is_bot")
        then html "<span class='sender-badge'>Бот</span>" else [])
    ++ html "</div></div>" in
  ∃ fragment, buildReplyPreview reply options = Ok fragment ∧
    (fragment = placeholderHtml ↔
       truthy reply = false
       ∨ (truthy reply = true ∧ detailedMode options = true
          ∧ truthy (prop reply "id") = false ∧ truthy (prop reply "text") = false
          ∧ truthy (prop reply "from_id") = false)
       ∨ (truthy reply = true ∧ detailedMode options = false
          ∧ truthy (prop reply "text") = false
          ∧ truthy (prop reply "from_name") = false))
    ∧ (fragment ≠ placeholderHtml →
       fragment = if detailedMode options then detailedHtml else compactHtml)
    ∧ detailedHtml ≠ placeholderHtml
    ∧ compactHtml ≠ placeholderHtml.
Proof.
  intros Hok placeholderHtml text detailedHtml compactHtml.
  assert (detailedHtml ≠ placeholderHtml) as Hdetailed.
  { intros H. apply (f_equal (take 2)) in H. vm_compute in H. discriminate H. }
  assert (compactHtml ≠ placeholderHtml) as Hcompact.
  { intros H. apply (f_equal (take 2)) in H. vm_compute in H. discriminate H. }
  assert (previewOf reply options =
          if previewEmpty reply options then placeholderHtml
          else if detailedMode options then detailedHtml else compactHtml) as Hrun
    by reflexivity.
  exists (previewOf reply options). split; [by apply buildReplyPreview_eq|].
  rewrite Hrun, <- previewEmpty_cases.
  destruct (previewEmpty reply options).
  - split; [done|]. split; [intros H; by destruct H|]. by split.
  - split; [|split; [reflexivity|by split]].
    split; [|discriminate]. intros H.
    destruct (detailedMode options); [by apply Hdetailed in H|by apply Hcompact in H].
Qed.

Lemma buildReplyPreview_placeholder_cases_witness :
  textOk sampleReply = true
  ∧ buildReplyPreview sampleReply compactOptions =
      Ok (html "<div class='d-flex flex-column gap-1'><div class='text-secondary small'>Ответ на предыдущее сообщение</div><div class='text-light small'>hi</div><div class='d-flex align-items-center gap-2 text-secondary small'>Автор не указан<span class='sender-badge'>Бот</span></div></div>")
  ∧ buildReplyPreview VNull compactOptions = Ok (html "<span class='text-secondary'>—</span>").
Proof.
  split; [evaluate|].
  destruct (buildReplyPreview_placeholder_cases sampleReply compactOptions)
    as (fragment & Hrun & Hiff & Hblock & _); [evaluate|].
  destruct (buildReplyPreview_placeholder_cases VNull compactOptions)
    as (absent & Habsent & Hplaceholder & _); [evaluate|].
  split.
  - rewrite Hrun, Hblock; [evaluate|].
    intros Heq. apply Hiff in Heq.
    destruct Heq as [H|[(_ & H & _)|(_ & _ & H & _)]]; vm_compute in H; discriminate H.
  - rewrite Habsent. apply (f_equal Ok), Hplaceholder. left. evaluate.
Defined.

(** C3: in both modes the text segment of the preview of a reply whose text
    is present is the first 120 code units of that text, set between the
    opening tag of the text block and its closing tag with nothing added and
    no regard for words; a text of at most 120 code units appears unchanged;
    when the text is absent the segment is the literal 'Без текста'.  The
    fragment determines its segment. *)
Theorem buildReplyPreview_text_segment (reply : value) (options : obj) :
  textOk reply = true →
  let rendered (segment : jsstring) :=
    if detailedMode options
    then html "<div class='d-flex flex-column gap-1'><div class='d-flex align-items-center gap-2'>"
         ++ replyLinkOf reply (field options "peerId")
              (coalesce (prop reply "id") (VStr (str "—")))
         ++ html "<span class='text-secondary small'>" ++ replyAttachmentsLabelOf reply
         ++ html "</span></div><div class='text-secondary small'>" ++ segment
         ++ html "</div><div class='text-secondary small'>"
         ++ toString (buildAvatarLabel (replyAuthorLabelOf reply)
                                       (prop reply "from_avatar"))
         ++ html "</div></div>"
    else html "<div class='d-flex flex-column gap-1'><div class='text-secondary small'>Ответ на предыдущее сообщение</div><div class='text-light small'>"
         ++ segment
         ++ html "</div><div class='d-flex align-items-center gap-2 text-secondary small'>"
         ++ toString (or_ (prop reply "from_name") (VStr (str "Автор не указан")))
         ++ (if truthy (prop reply "is_bot")
             then html "<span class='sender-badge'>Бот</span>" else [])
         ++ html "</div></div>" in
  (∀ text, prop reply "text" = VStr text → text ≠ [] →
     buildReplyPreview reply options = Ok (rendered (take 120 text))
     ∧ take 120 text `prefix_of` text
     ∧ length (take 120 text) = Nat.min 120 (length text)
     ∧ (length text ≤ 120 → take 120 text = text))
  ∧ (truthy (prop reply "text") = false →
     previewEmpty reply options = false →
     buildReplyPreview reply options = Ok (rendered (str "Без текста")))
  ∧ (∀ segment segment', rendered segment = rendered segment' → segment = segment').
Proof.
  intros Hok rendered.
  assert (previewEmpty reply options = false →
          previewOf reply options = rendered (textSegment reply)) as Hrun.
  { intros Hfull. unfold previewOf. rewrite Hfull. unfold rendered.
    by destruct (detailedMode options). }
  rewrite (buildReplyPreview_eq _ _ Hok).
  split; [|split].
  - intros text Htext Hne.
    assert (previewEmpty reply options = false) as Hfull.
    { unfold previewEmpty. rewrite Htext.
      destruct reply as [| |b|z|t|xs|o]; try discriminate Htext.
      destruct text; [done|]. cbn [truthy negb orb].
      by destruct (detailedMode options), (truthy (prop (VObj o) "id")). }
    assert (textSegment reply = take 120 text) as Hsegment.
    { unfold textSegment. rewrite Htext. by destruct text. }
    split; [by rewrite (Hrun Hfull), Hsegment|].
    split; [apply prefix_take|].
    split; [apply length_take|]. intros Hlen. by apply take_ge.
  - intros Htext Hfull.
    assert (textSegment reply = str "Без текста") as Hsegment.
    { unfold textSegment. destruct (prop reply "text") as [| |b|z|s|xs|o]; try done.
      by destruct s. }
    by rewrite (Hrun Hfull), Hsegment.
  - intros segment segment' H. unfold rendered in H.
    destruct (detailedMode options).
    + do 5 apply app_inv_head in H. by apply app_inv_tail in H.
    + apply app_inv_head in H. by apply app_inv_tail in H.
Qed.

Lemma buildReplyPreview_text_segment_witness :
  textOk (VObj {[ "text" := VStr (replicate 200 97%N) ]}) = true
  ∧ buildReplyPreview (VObj {[ "text" := VStr (replicate 200 97%N) ]}) compactOptions =
      Ok (html "<div class='d-flex flex-column gap-1'><div class='text-secondary small'>Ответ на предыдущее сообщение</div><div class='text-light small'>"
          ++ replicate 120 97%N
          ++ html "</div><div class='d-flex align-items-center gap-2 text-secondary small'>Автор не указан</div></div>")
  ∧ buildReplyPreview (VObj {[ "text" := VStr (replicate 200 97%N) ]})
      (detailedOptions VUndef) =
      Ok (html "<div class='d-flex flex-column gap-1'><div class='d-flex align-items-center gap-2'>#—<span class='text-secondary small'>Без вложений</span></div><div class='text-secondary small'>"
          ++ replicate 120 97%N
          ++ html "</div><div class='text-secondary small'>Автор неизвестен</div></div>").
Proof.
  split; [evaluate|].
  destruct (buildReplyPreview_text_segment
              (VObj {[ "text" := VStr (replicate 200 97%N) ]}) compactOptions)
    as (Hcompact & _); [evaluate|].
  destruct (buildReplyPreview_text_segment
              (VObj {[ "text" := VStr (replicate 200 97%N) ]}) (detailedOptions VUndef))
    as (Hdetailed & _); [evaluate|].
  split.
  - destruct (Hcompact (replicate 200 97%N)) as [Hrun _];
      [evaluate|vm_compute; discriminate|].
    rewrite Hrun. evaluate.
  - destruct (Hdetailed (replicate 200 97%N)) as [Hrun _];
      [evaluate|vm_compute; discriminate|].
    rewrite Hrun. evaluate.
Defined.

(** ** Claims on the peer and sender cells *)

(** C4: [buildPeerCell] wraps the label in a link to [/chat/{peer_id}]
    exactly when [allowLink] is not [false] and the peer identifier is
    present (truthy); otherwise it returns the label itself, unlinked.  The
    cell, written out, shows the peer title, and 'Чат без названия' whenever
    the title is absent, next to the avatar if there is one: the text of the
    link is never empty then. *)
Theorem buildPeerCell_link_iff (message options : obj) :
  let title := field message "peer_title" in
  let avatar := field message "peer_avatar" in
  let peer_id := field message "peer_id" in
  let label :=
    buildAvatarLabel (or_ title (VStr (str "Чат без названия"))) avatar in
  let linked := not_false (field options "allowLink") && truthy peer_id in
  let shown (name : jsstring) :=
    if truthy avatar
    then html "<span class='d-inline-flex align-items-center gap-2'><img src='"
         ++ toString avatar
         ++ html "' alt='Аватар' class='avatar-inline' loading='lazy' /> <span>"
         ++ name ++ html "</span></span>"
    else name in
  let cell (name : jsstring) :=
    if linked
    then html "<a href='/chat/" ++ toString peer_id
         ++ html "' target='_blank' class='text-decoration-none text-light d-inline-flex align-items-center gap-2'>"
         ++ shown name ++ html "</a>"
    else shown name in
  (buildPeerCell message options = VStr (peerLink peer_id label) ↔ linked = true)
  ∧ (buildPeerCell message options = label ↔ linked = false)
  ∧ (html "<a href='/chat/" ++ toString peer_id ++ html "'")
      `prefix_of` peerLink peer_id label
  ∧ (truthy title = true →
       toString (buildPeerCell message options) = cell (toString title))
  ∧ (truthy title = false →
       toString (buildPeerCell message options) = cell (str "Чат без названия")
       ∧ shown (str "Чат без названия") ≠ [])
  ∧ (∀ name name', cell name = cell name' → name = name').
Proof.
  intros title avatar peer_id label linked shown cell.
  assert (label ≠ VStr (peerLink peer_id label)) as Hne.
  { intros Heq. apply (f_equal toString) in Heq. cbn [toString] in Heq.
    pose proof (peerLink_longer peer_id label) as Hlen.
    rewrite <- Heq in Hlen. lia. }
  assert (buildPeerCell message options =
          if linked then VStr (peerLink peer_id label) else label)
    as Hrun by reflexivity.
  assert (∀ name, toString (buildAvatarLabel name avatar)
                  = shown (toString (or_ name (VStr (str "—"))))) as Hlabel.
  { intros name. unfold buildAvatarLabel, shown. by destruct (truthy avatar). }
  assert (∀ name, truthy (VStr name) = true →
            toString (if linked then VStr (peerLink peer_id
                                             (buildAvatarLabel (VStr name) avatar))
                      else buildAvatarLabel (VStr name) avatar)
            = cell name) as Hcell.
  { intros name Hname. unfold cell, peerLink.
    destruct linked; cbn [toString]; by rewrite Hlabel, or_truthy. }
  rewrite Hrun. split; [|split; [|split; [|split; [|split]]]].
  - destruct linked; [done|]. split; [|done]. intros H. by apply Hne in H.
  - destruct linked; [|done]. split; [|done].
    intros H. symmetry in H. by apply Hne in H.
  - unfold peerLink. rewrite link_attributes_split.
    exists (html " target='_blank' class='text-decoration-none text-light d-inline-flex align-items-center gap-2'>"
            ++ toString label ++ html "</a>").
    by rewrite <- !app_assoc.
  - intros Htitle. unfold cell, label, peerLink.
    destruct linked; cbn [toString]; rewrite Hlabel, !or_truthy; try done.
    + by rewrite or_truthy.
    + by rewrite or_truthy.
  - intros Htitle. split.
    + unfold label. rewrite (or_falsy _ _ Htitle). apply Hcell. evaluate.
    + unfold shown. destruct (truthy avatar).
      * intros H. apply (f_equal length) in H. revert H. html_lengths.
        cbn [length]. lia.
      * vm_compute. discriminate.
  - intros name name' H. unfold cell, shown in H.
    destruct linked, (truthy avatar); try exact H.
    + do 3 apply app_inv_head in H. apply app_inv_tail in H.
      do 3 apply app_inv_head in H. by apply app_inv_tail in H.
    + do 3 apply app_inv_head in H. by apply app_inv_tail in H.
    + do 3 apply app_inv_head in H. by apply app_inv_tail in H.
Qed.


(** ** The gallery adapter *)

Section Gallery.
Context {G : Type}.
Implicit Types (w : world G) (galleryApi : option (GalleryApi G)) (m : obj).

Lemma bind_run {A B} (c : M G A) (k : A → M G B) w a w' :
  c w = Ok (a, w') → bind c k w = k a w'.
Proof. unfold bind. by intros ->. Qed.

Lemma deref_run (l : loc) w m : heap w !! l = Some m → deref l w = Ok (m, w).
Proof. unfold deref. by intros ->. Qed.

Lemma lift_run {A} (a : A) w : lift (Ok a) w = Ok (a, w).
Proof. reflexivity. Qed.

Lemma fresh_ne (l : loc) w m : heap w !! l = Some m → fresh (dom (heap w)) ≠ l.
Proof.
  intros Hl Heq. apply (is_fresh (dom (heap w))).
  rewrite Heq. apply elem_of_dom. by exists m.
Qed.

Lemma prepare_run_default (fallback : value) (message : loc) galleryApi galleryKey w :
  let m := default ∅ (heap w !! message) in
  prepareGalleryContentWith fallback message galleryApi galleryKey w =
    Ok ((contentCellOf fallback galleryApi
           (gallery (afterRegistration galleryApi galleryKey m w)) galleryKey m,
         attachmentsOf galleryApi m, copyHistoryOf galleryApi m),
        afterRegistration galleryApi galleryKey m w).
Proof.
  intros m. unfold prepareGalleryContentWith.
  rewrite (bind_run _ _ _ m w) by reflexivity.
  unfold afterRegistration, contentCellOf, attachmentsOf, copyHistoryOf,
    normalizedCopy.
  destruct (capability galleryApi registerMessageGallery) as [register|].
  - unfold bind, alloc, callOn, getGallery, ret. cbn [heap gallery].
    rewrite lookup_insert_eq. cbn [default].
    destruct (register _ _ _) as [o g] eqn:Hreg. cbn [fst snd heap gallery].
    by rewrite insert_insert_eq.
  - reflexivity.
Qed.

Lemma prepare_run (fallback : value) (message : loc) galleryApi galleryKey w m :
  heap w !! message = Some m →
  prepareGalleryContentWith fallback message galleryApi galleryKey w =
    Ok ((contentCellOf fallback galleryApi
           (gallery (afterRegistration galleryApi galleryKey m w)) galleryKey m,
         attachmentsOf galleryApi m, copyHistoryOf galleryApi m),
        afterRegistration galleryApi galleryKey m w).
Proof.
  intros Hm. rewrite prepare_run_default. by rewrite Hm.
Qed.

(** Registration leaves every record already in the store as it was. *)
Lemma afterRegistration_frame galleryApi galleryKey m w (l : loc) (o : obj) :
  heap w !! l = Some o →
  heap (afterRegistration galleryApi galleryKey m w) !! l = Some o.
Proof.
  intros Hl. unfold afterRegistration.
  destruct (capability galleryApi registerMessageGallery); [|done].
  cbn [heap]. rewrite lookup_insert_ne; [done|]. by eapply fresh_ne.
Qed.

(** C7: [prepareGalleryContent] takes the empty sequence for attachments
    and for copy history when the collaborator lacks the extraction, leaves
    the world untouched when there is no registration operation and calls
    it once, on the normalized copy, when there is one; without
    [buildContentCell] the content cell is the empty string in the card
    layout and the placeholder in the table layout. *)
Theorem prepareGalleryContent_capabilities (message : loc) galleryApi
    (galleryKey : value) w :
  ∃ cardCell tableCell attachments copyHistory w',
    Card.prepareGalleryContent message galleryApi galleryKey w
      = Ok ((cardCell, attachments, copyHistory), w')
    ∧ Table.prepareGalleryContent message galleryApi galleryKey w
      = Ok ((tableCell, attachments, copyHistory), w')
    ∧ (capability galleryApi extractAttachments = None → attachments = [])
    ∧ (capability galleryApi extractCopyHistory = None → copyHistory = [])
    ∧ (capability galleryApi registerMessageGallery = None → w' = w)
    ∧ (∀ register, capability galleryApi registerMessageGallery = Some register →
         gallery w' =
           (register (<["copy_history" := VArr copyHistory]>
                        (<["attachments" := VArr attachments]>
                           (default ∅ (heap w !! message))))
                     galleryKey (gallery w)).2)
    ∧ (capability galleryApi buildContentCell = None →
         cardCell = VStr [] ∧ tableCell = VStr placeholder).
Proof.
  set (m := default ∅ (heap w !! message)).
  exists (contentCellOf (VStr []) galleryApi
            (gallery (afterRegistration galleryApi galleryKey m w)) galleryKey m),
         (contentCellOf (VStr placeholder) galleryApi
            (gallery (afterRegistration galleryApi galleryKey m w)) galleryKey m),
         (attachmentsOf galleryApi m), (copyHistoryOf galleryApi m),
         (afterRegistration galleryApi galleryKey m w).
  split; [apply prepare_run_default|]. split; [apply prepare_run_default|].
  unfold attachmentsOf, copyHistoryOf, afterRegistration, contentCellOf.
  split; [by intros ->|]. split; [by intros ->|]. split; [by intros ->|].
  split; [by intros register ->|].
  intros Hnone. by rewrite Hnone.
Qed.
End Gallery.

(** C8: with the registry of the specification, preparing the same message
    under the same key twice yields the same content fragment (and the same
    normalized sequences) both times, and the second registration replaces
    the entry of the first: the registry after the second call is the
    registry after the first, holding the normalized copy under the key. *)
Theorem prepareGalleryContent_idempotent (fallback : value) (message : loc)
    (galleryKey : value) (extractA extractC : option (obj → list value))
    (build : option (gmap jsstring obj → list value → list value → value → value))
    (w : world (gmap jsstring obj)) (m : obj) :
  let galleryApi := Some (specGallery extractA extractC build) in
  heap w !! message = Some m →
  ∃ prepared w1 w2,
    prepareGalleryContentWith fallback message galleryApi galleryKey w
      = Ok (prepared, w1)
    ∧ prepareGalleryContentWith fallback message galleryApi galleryKey w1
      = Ok (prepared, w2)
    ∧ gallery w2 = gallery w1
    ∧ gallery w1 = <[toString galleryKey := normalizedCopy galleryApi m]> (gallery w)
    ∧ heap w2 !! message = Some m.
Proof.
  intros galleryApi Hm.
  pose proof (afterRegistration_frame galleryApi galleryKey m w _ _ Hm) as Hm1.
  pose proof (afterRegistration_frame galleryApi galleryKey m _ _ _ Hm1) as Hm2.
  assert (∀ w0 : world (gmap jsstring obj),
            gallery (afterRegistration galleryApi galleryKey m w0)
            = <[toString galleryKey := normalizedCopy galleryApi m]> (gallery w0))
    as Hreg by reflexivity.
  eexists _, _, _.
  split; [by apply prepare_run|]. split; [|split; [|split; [by apply Hreg|exact Hm2]]].
  - rewrite (prepare_run _ _ _ _ _ _ Hm1).
    by rewrite !Hreg, insert_insert_eq.
  - by rewrite !Hreg, insert_insert_eq.
Qed.

Lemma prepareGalleryContent_idempotent_witness :
  heap sampleWorld !! 1%positive = Some sampleMessage
  ∧ ∃ w1 w2,
      Table.prepareGalleryContent 1%positive (Some (specGallery None None None))
        (VStr (str "msg-1")) sampleWorld
        = Ok ((VStr placeholder, [], []), w1)
      ∧ Table.prepareGalleryContent 1%positive (Some (specGallery None None None))
          (VStr (str "msg-1")) w1
        = Ok ((VStr placeholder, [], []), w2)
      ∧ gallery w2 = gallery w1.
Proof.
  split; [exact sampleWorld_message|].
  destruct (prepareGalleryContent_idempotent (VStr placeholder) 1%positive
              (VStr (str "msg-1")) None None None sampleWorld sampleMessage)
    as (prepared & w1 & w2 & Hrun1 & Hrun2 & Hsame & _); [exact sampleWorld_message|].
  exists w1, w2.
  assert (prepared = (VStr placeholder, [], [])) as ->.
  { rewrite (prepare_run _ _ _ _ _ sampleMessage) in Hrun1 by exact sampleWorld_message.
    apply Ok_inj in Hrun1. by injection Hrun1 as <- _. }
  done.
Defined.

(** ** The row assemblers, run *)

Section Rows.
Context {G : Type}.
Implicit Types (w : world G) (galleryApi : option (GalleryApi G)) (m : obj).

Ltac run_row Hm :=
  rewrite (bind_run _ _ _ _ _ (deref_run _ _ _ Hm)); cbv beta zeta;
  repeat match goal with
  | Hok : textOk _ = true |- _ =>
    rewrite (buildReplyPreview_eq _ _ Hok), (bind_run _ _ _ _ _ (lift_run _ _));
    cbv beta zeta; clear Hok
  end;
  rewrite (bind_run _ _ _ _ _ (prepare_run _ _ _ _ _ _ Hm)); cbv beta iota zeta;
  rewrite (bind_run _ _ _ _ _
             (deref_run _ _ _ (afterRegistration_frame _ _ _ _ _ _ Hm)));
  reflexivity.

Lemma card_buildDashboardRow_run (message : loc) galleryApi (galleryKey : value)
    (options : RowOptions) w m :
  heap w !! message = Some m → messageOk m = true →
  let w' := afterRegistration galleryApi galleryKey m w in
  Card.buildDashboardRow message galleryApi galleryKey options w =
    Ok (Element "div" (markDeleted m (markNew options (classList_add "chat-item" [])))
          (Card.dashboardHtml (avatarColOf m)
             (toString (buildPeerCell m allowLinkOptions))
             (toString (formatDateOf options (field m "created_at")))
             (buildSenderCell m senderOptions)
             (Card.replyBlock (hasReplyOf (field m "reply"))
                (previewOf (field m "reply") compactOptions))
             (Card.attachmentsBlock
                (hasAttachmentsOf (attachmentsOf galleryApi m) (copyHistoryOf galleryApi m))
                (contentCellOf (VStr []) galleryApi (gallery w') galleryKey m))
             (toString (or_ (coalesce (field m "text") (VStr [])) (VStr placeholder)))),
        w').
Proof.
  intros Hm Hok w'. unfold messageOk in Hok.
  unfold Card.buildDashboardRow, Card.prepareGalleryContent. run_row Hm.
Qed.

Lemma card_buildLogsRow_run (log : loc) galleryApi (galleryKey : value)
    (options : RowOptions) w m :
  heap w !! log = Some m → messageOk m = true →
  let w' := afterRegistration galleryApi galleryKey m w in
  Card.buildLogsRow log galleryApi galleryKey options w =
    Ok (Element "div" (markDeleted m (classList_add "chat-item" []))
          (Card.logsHtml (avatarColOf m)
             (toString (buildPeerCell m allowLinkOptions))
             (toString (formatDateOf options (field m "created_at")))
             (buildSenderCell m senderOptions) (botFlagOf m)
             (Card.replyBlock (hasReplyOf (field m "reply"))
                (previewOf (field m "reply") (detailedOptions (field m "peer_id"))))
             (Card.attachmentsBlock
                (hasAttachmentsOf (attachmentsOf galleryApi m) (copyHistoryOf galleryApi m))
                (contentCellOf (VStr []) galleryApi (gallery w') galleryKey m))
             (toString (or_ (coalesce (field m "text") (VStr [])) (VStr placeholder)))
             (toString (coalesce (field m "message_id") (VStr (str "—"))))
             (toString (coalesce (field m "id") (VStr (str "—"))))
             (deleteButtonOf m)),
        w').
Proof.
  intros Hm Hok w'. unfold messageOk in Hok.
  unfold Card.buildLogsRow, Card.prepareGalleryContent. run_row Hm.
Qed.

Lemma card_buildEntityRow_run (message : loc) galleryApi (galleryKey : value)
    (options : RowOptions) w m :
  heap w !! message = Some m →
  let w' := afterRegistration galleryApi galleryKey m w in
  Card.buildEntityRow message galleryApi galleryKey options w =
    Ok (Element "div" (markDeleted m (classList_add "chat-item" []))
          (Card.entityHtml (avatarColOf m)
             (joinWith (str " · ")
                ([html "<span class='chat-bubble-time text-secondary'>"
                  ++ toString (formatDateOf options (field m "created_at"))
                  ++ html "</span>"]
                 ++ (if truthy (showChatColumn options)
                     then [html "<span class='chat-bubble-meta'>"
                           ++ toString (buildPeerCell m allowLinkOptions)
                           ++ html "</span>"]
                     else [])
                 ++ (if truthy (showSenderColumn options)
                     then [html "<span class='chat-bubble-author'>"
                           ++ buildSenderCell m senderOptions ++ html "</span>"]
                     else [])))
             (Card.attachmentsBlock
                (hasAttachmentsOf (attachmentsOf galleryApi m) (copyHistoryOf galleryApi m))
                (contentCellOf (VStr []) galleryApi (gallery w') galleryKey m))
             (toString (coalesce (field m "text") (VStr (str "—"))))),
        w').
Proof.
  intros Hm w'. unfold Card.buildEntityRow, Card.prepareGalleryContent. run_row Hm.
Qed.

Lemma table_buildDashboardRow_run (message : loc) galleryApi (galleryKey : value)
    (options : RowOptions) w m :
  heap w !! message = Some m → messageOk m = true →
  let w' := afterRegistration galleryApi galleryKey m w in
  Table.buildDashboardRow message galleryApi galleryKey options w =
    Ok (Element "tr" (markDeleted m (markNew options []))
          (Table.dashboardHtml
             (toString (formatDateOf options (field m "created_at")))
             (toString (buildPeerCell m allowLinkOptions))
             (buildSenderCell m senderOptions)
             (previewOf (field m "reply") compactOptions)
             (toString (contentCellOf (VStr placeholder) galleryApi (gallery w')
                          galleryKey m))
             (toString (coalesce (field m "text") (VStr [])))),
        w').
Proof.
  intros Hm Hok w'. unfold messageOk in Hok.
  unfold Table.buildDashboardRow, Table.prepareGalleryContent. run_row Hm.
Qed.

Lemma table_buildLogsRow_run (log : loc) galleryApi (galleryKey : value)
    (options : RowOptions) w m :
  heap w !! log = Some m → messageOk m = true →
  let w' := afterRegistration galleryApi galleryKey m w in
  Table.buildLogsRow log galleryApi galleryKey options w =
    Ok (Element "tr" (markDeleted m [])
          (Table.logsHtml
             (toString (formatDateOf options (field m "created_at")))
             (toString (buildPeerCell m allowLinkOptions))
             (buildSenderCell m senderOptions) (botFlagOf m)
             (previewOf (field m "reply") (detailedOptions (field m "peer_id")))
             (toString (contentCellOf (VStr placeholder) galleryApi (gallery w')
                          galleryKey m))
             (toString (coalesce (field m "text") (VStr [])))
             (toString (coalesce (field m "message_id") (VStr (str "—"))))
             (toString (coalesce (field m "id") (VStr (str "—"))))
             (deleteButtonOf m)),
        w').
Proof.
  intros Hm Hok w'. unfold messageOk in Hok.
  unfold Table.buildLogsRow, Table.prepareGalleryContent. run_row Hm.
Qed.

Lemma table_buildEntityRow_run (message : loc) galleryApi (galleryKey : value)
    (options : RowOptions) w m :
  heap w !! message = Some m →
  let w' := afterRegistration galleryApi galleryKey m w in
  Table.buildEntityRow message galleryApi galleryKey options w =
    Ok (Element "tr" (markDeleted m [])
          (joinWith []
             ([html "<td class='text-nowrap'>"
               ++ toString (formatDateOf options (field m "created_at"))
               ++ html "</td>"]
              ++ (if truthy (showChatColumn options)
                  then [html "<td class='text-nowrap'>"
                        ++ toString (buildPeerCell m allowLinkOptions) ++ html "</td>"]
                  else [])
              ++ (if truthy (showSenderColumn options)
                  then [html "<td class='text-nowrap'>"
                        ++ buildSenderCell m senderOptions ++ html "</td>"]
                  else [])
              ++ [html "<td>"
                  ++ toString (contentCellOf (VStr placeholder) galleryApi (gallery w')
                                 galleryKey m)
                  ++ html "</td>"]
              ++ [html "<td>" ++ toString (coalesce (field m "text") (VStr (str "—")))
                  ++ html "</td>"])),
        w').
Proof.
  intros Hm w'. unfold Table.buildEntityRow, Table.prepareGalleryContent. run_row Hm.
Qed.
End Rows.

(** ** Claims on the gallery adapter and the row assemblers *)

(** C9: no operation of the layer changes its input message.  The cell
    builders and the reply preview are functions of the record's content;
    [prepareGalleryContent] and the six row assemblers, which act on the
    store, leave the message (and every other record of the store) as it was.
    Registration is handed a record at a reference not in use before the
    call, different from the message's, whose [attachments] and
    [copy_history] are the normalized sequences and whose other fields are
    the message's. *)
Theorem message_not_mutated {G} (message : loc) (galleryApi : option (GalleryApi G))
    (galleryKey fallback : value) (options : RowOptions) (w : world G) (m : obj) :
  heap w !! message = Some m →
  messageOk m = true →
  keepsRecords (prepareGalleryContentWith fallback message galleryApi galleryKey) w
  ∧ keepsRecords (Card.buildDashboardRow message galleryApi galleryKey options) w
  ∧ keepsRecords (Card.buildLogsRow message galleryApi galleryKey options) w
  ∧ keepsRecords (Card.buildEntityRow message galleryApi galleryKey options) w
  ∧ keepsRecords (Table.buildDashboardRow message galleryApi galleryKey options) w
  ∧ keepsRecords (Table.buildLogsRow message galleryApi galleryKey options) w
  ∧ keepsRecords (Table.buildEntityRow message galleryApi galleryKey options) w
  ∧ ∀ register, capability galleryApi registerMessageGallery = Some register →
      ∃ contentCell attachments copyHistory w',
        prepareGalleryContentWith fallback message galleryApi galleryKey w
          = Ok ((contentCell, attachments, copyHistory), w')
        ∧ let copy := fresh (dom (heap w)) in
          let handed :=
            <["copy_history" := VArr copyHistory]> (<["attachments" := VArr attachments]> m) in
          copy ≠ message
          ∧ heap w !! copy = None
          ∧ heap w' = <[copy := (register handed galleryKey (gallery w)).1]> (heap w)
          ∧ gallery w' = (register handed galleryKey (gallery w)).2
          ∧ handed !! "attachments" = Some (VArr attachments)
          ∧ handed !! "copy_history" = Some (VArr copyHistory)
          ∧ ∀ name, name ≠ "attachments" → name ≠ "copy_history" →
              handed !! name = m !! name.
Proof.
  intros Hm Hok.
  pose proof (afterRegistration_frame galleryApi galleryKey m w) as Hframe.
  split; [eexists _, _; split; [by apply prepare_run|exact Hframe]|].
  split; [eexists _, _; split; [by apply card_buildDashboardRow_run|exact Hframe]|].
  split; [eexists _, _; split; [by apply card_buildLogsRow_run|exact Hframe]|].
  split; [eexists _, _; split; [by apply card_buildEntityRow_run|exact Hframe]|].
  split; [eexists _, _; split; [by apply table_buildDashboardRow_run|exact Hframe]|].
  split; [eexists _, _; split; [by apply table_buildLogsRow_run|exact Hframe]|].
  split; [eexists _, _; split; [by apply table_buildEntityRow_run|exact Hframe]|].
  intros register Hreg. eexists _, _, _, _. split; [by apply prepare_run|].
  cbv zeta. unfold afterRegistration. rewrite Hreg. cbn [heap gallery].
  split; [by eapply fresh_ne|].
  split; [apply not_elem_of_dom, is_fresh|].
  do 2 (split; [reflexivity|]).
  split; [by rewrite lookup_insert_ne, lookup_insert_eq|].
  split; [by rewrite lookup_insert_eq|].
  intros name Ha Hc. by rewrite !lookup_insert_ne.
Qed.

Lemma message_not_mutated_witness :
  heap sampleWorld !! 1%positive = Some sampleMessage
  ∧ messageOk sampleMessage = true
  ∧ ∃ el w', Card.buildLogsRow 1%positive (Some (specGallery None None None))
               (VStr (str "log-1")) sampleOptions sampleWorld = Ok (el, w')
             ∧ heap w' !! 1%positive = Some sampleMessage.
Proof.
  split; [exact sampleWorld_message|]. split; [exact sampleMessage_ok|].
  destruct (message_not_mutated 1%positive (Some (specGallery None None None))
              (VStr (str "log-1")) (VStr []) sampleOptions sampleWorld sampleMessage)
    as (_ & _ & (el & w' & Hrun & Hkeep) & _);
    [exact sampleWorld_message|exact sampleMessage_ok|].
  exists el, w'. split; [exact Hrun|]. apply Hkeep. exact sampleWorld_message.
Defined.




(** ** The end-to-end example of the specification *)

(** The message with peer "Team" (5), sender "Bot1" (9, a bot), text "hi" and
    no reply, as a card of the dashboard: a link to [/chat/5], a link to
    [/user/9] followed by the bot badge, no reply block, no attachment block,
    and "hi" as the body. *)
Example dashboard_end_to_end :
  Card.buildDashboardRow 1%positive None VUndef sampleOptions
    (World {[ 1%positive := <["text" := VStr (str "hi")]> sampleMessage ]} tt)
  = Ok (Element "div" ["chat-item"]
          (Card.dashboardHtml (str "Bot1")
             (html "<a href='/chat/5' target='_blank' class='text-decoration-none text-light d-inline-flex align-items-center gap-2'>Team</a>")
             (str "2024-01-01")
             (html "<div class='d-flex align-items-center gap-2 flex-wrap'><a href='/user/9' target='_blank' class='text-decoration-none text-light d-inline-flex align-items-center gap-2'>Bot1</a><span class='sender-badge'>Бот</span></div>")
             [] [] (str "hi")),
        World {[ 1%positive := <["text" := VStr (str "hi")]> sampleMessage ]} tt).
Proof.
  rewrite (card_buildDashboardRow_run _ _ _ _ _
             (<["text" := VStr (str "hi")]> sampleMessage));
    [|apply lookup_singleton_eq|evaluate].
  evaluate.
Qed.

(** * Further properties of the module *)

(** ** Gallery keys *)

Lemma utf16_ascii (bs : list N) : Forall (λ b, (b < 128)%N) bs → utf16 bs = bs.
Proof.
  induction 1 as [|b bs Hb _ IH]; [reflexivity|].
  cbn [utf16]. apply N.ltb_lt in Hb. by rewrite Hb, IH.
Qed.

Lemma bytes_of_inj (s t : string) : bytes_of s = bytes_of t → s = t.
Proof.
  revert t. induction s as [|a s IH]; intros [|b t] Heq; try done.
  cbn [bytes_of] in Heq. injection Heq as Hab Hst.
  f_equal; [|by apply IH].
  by rewrite <- (ascii_N_embedding a), <- (ascii_N_embedding b), Hab.
Qed.

Lemma string_of_uint_ascii (d : Decimal.uint) :
  Forall (λ b, (b < 128)%N) (bytes_of (NilEmpty.string_of_uint d)).
Proof.
  induction d; cbn [NilEmpty.string_of_uint bytes_of];
    first [apply Forall_nil_2 | apply Forall_cons; split; [by vm_compute|done]].
Qed.

Lemma string_of_int_ascii (d : Decimal.int) :
  Forall (λ b, (b < 128)%N) (bytes_of (NilZero.string_of_int d)).
Proof.
  assert (∀ u, Forall (λ b, (b < 128)%N) (bytes_of (NilZero.string_of_uint u))) as Hu.
  { intros u. destruct u; try apply string_of_uint_ascii.
    apply Forall_cons; split; [by vm_compute|apply Forall_nil_2]. }
  destruct d; cbn [NilZero.string_of_int bytes_of]; [apply Hu|].
  apply Forall_cons; split; [by vm_compute|apply Hu].
Qed.

Lemma to_int_nonnil (z : Z) :
  Z.to_int z ≠ Decimal.Pos Decimal.Nil ∧ Z.to_int z ≠ Decimal.Neg Decimal.Nil.
Proof.
  destruct z as [|p|p]; split; cbn [Z.to_int]; try discriminate;
    intros [= H]; by apply (DecimalPos.Unsigned.to_uint_nonnil p).
Qed.

Lemma num_str_inj (a b : Z) : num_str a = num_str b → a = b.
Proof.
  unfold num_str. intros Heq.
  with_strategy transparent [str] unfold str in Heq.
  rewrite !utf16_ascii in Heq by apply string_of_int_ascii.
  apply bytes_of_inj in Heq.
  apply DecimalZ.to_int_inj.
  destruct (to_int_nonnil a) as [Ha1 Ha2], (to_int_nonnil b) as [Hb1 Hb2].
  pose proof (NilZero.isi _ Ha1 Ha2) as Ha. rewrite Heq, NilZero.isi in Ha by done.
  by injection Ha.
Qed.

Lemma VStr_inj (s t : jsstring) : VStr s = VStr t → s = t.
Proof. intros H. by injection H. Qed.

Lemma entityKey_inj (i j : nat) : entityKey i = entityKey j → i = j.
Proof.
  unfold entityKey. intros H. apply VStr_inj, app_inv_head in H.
  cbn [toString] in H. apply num_str_inj in H. lia.
Qed.

Lemma entityKey_string_inj (i j : nat) :
  toString (entityKey i) = toString (entityKey j) → i = j.
Proof. intros H. apply entityKey_inj. unfold entityKey in *. by f_equal. Qed.

(** ** Batch registration *)

Section Batch.
Context {G : Type}.
Implicit Types (w : world G) (galleryApi : option (GalleryApi G)).

Lemma registerOne_run (fallback : value) galleryApi (msg : loc) (idx : nat) w :
  (do _ <- prepareGalleryContentWith fallback msg galleryApi (entityKey idx); ret tt) w
  = Ok (tt, afterRegistration galleryApi (entityKey idx)
              (default ∅ (heap w !! msg)) w).
Proof. by rewrite (bind_run _ _ _ _ _ (prepare_run_default _ _ _ _ _)). Qed.

Lemma forEach_registration (fallback : value) galleryApi (msgs : list loc) :
  ∀ (idx : nat) w,
    ∃ w', (∀ fallback',
             forEachFrom idx msgs (λ msg idx,
               let galleryKey := entityKey idx in
               do _ <- prepareGalleryContentWith fallback' msg galleryApi galleryKey;
               ret tt) w = Ok (tt, w'))
          ∧ (∀ l o, heap w !! l = Some o → heap w' !! l = Some o)
          ∧ (capability galleryApi registerMessageGallery = None → w' = w).
Proof.
  induction msgs as [|msg rest IH]; intros idx w.
  - exists w. by repeat split.
  - destruct (IH (S idx) (afterRegistration galleryApi (entityKey idx)
                            (default ∅ (heap w !! msg)) w))
      as (w' & Hrun & Hkeep & Hnone).
    exists w'. split; [|split].
    + intros fallback'. cbn [forEachFrom]. cbv zeta.
      rewrite (bind_run _ _ _ _ _ (registerOne_run _ _ _ _ _)). apply Hrun.
    + intros l o Hl. by apply Hkeep, afterRegistration_frame.
    + intros Hcap. rewrite (Hnone Hcap). unfold afterRegistration. by rewrite Hcap.
Qed.
End Batch.

(** X1: [registerEntityGalleries] does nothing when its argument is not an
    array, and nothing either when the collaborator has no registration
    operation: the world after the call is the world before it. *)
Theorem registerEntityGalleries_no_effect {G} (fallback : value)
    (messages : option (list loc)) (galleryApi : option (GalleryApi G)) (w : world G) :
  messages = None ∨ capability galleryApi registerMessageGallery = None →
  registerEntityGalleriesWith fallback messages galleryApi w = Ok (tt, w).
Proof.
  intros Hcase. unfold registerEntityGalleriesWith.
  destruct messages as [msgs|]; [|reflexivity].
  destruct Hcase as [Hnone|Hcap]; [discriminate Hnone|].
  destruct (forEach_registration fallback galleryApi msgs 0 w) as (w' & Hrun & _ & Hsame).
  by rewrite Hrun, (Hsame Hcap).
Qed.

Lemma registerEntityGalleries_no_effect_witness :
  (Some [1%positive] = None
   ∨ capability (G:=gmap jsstring obj) None registerMessageGallery = None)
  ∧ registerEntityGalleriesWith (VStr []) (Some [1%positive]) None sampleWorld
    = Ok (tt, sampleWorld).
Proof.
  split; [by right|].
  apply (registerEntityGalleries_no_effect (VStr []) (Some [1%positive]) None sampleWorld).
  by right.
Defined.

(** X2: for every collaborator and every argument, [registerEntityGalleries]
    returns, the world it leaves is the same in both layouts (it does not
    depend on the fallback of the content cell), and every record of the
    store, the messages among them, is as it was. *)
Theorem registerEntityGalleries_keeps_records {G} (messages : option (list loc))
    (galleryApi : option (GalleryApi G)) (w : world G) :
  ∃ w', (∀ fallback,
           registerEntityGalleriesWith fallback messages galleryApi w = Ok (tt, w'))
        ∧ ∀ l o, heap w !! l = Some o → heap w' !! l = Some o.
Proof.
  destruct messages as [msgs|].
  - destruct (forEach_registration (VStr []) galleryApi msgs 0 w)
      as (w' & Hrun & Hkeep & _).
    exists w'. split; [exact Hrun|exact Hkeep].
  - exists w. by split.
Qed.

(** X3: distinct positions give distinct gallery keys. *)
Theorem entityKey_distinct (i j : nat) : i ≠ j → entityKey i ≠ entityKey j.
Proof. intros Hne Heq. by apply Hne, entityKey_inj. Qed.

Lemma entityKey_distinct_witness :
  1 ≠ 10 ∧ entityKey 1 ≠ entityKey 10.
Proof. split; [lia|]. apply (entityKey_distinct 1 10). lia. Defined.

Section BatchRegistry.
Context (extractA extractC : option (obj → list value))
        (build : option (gmap jsstring obj → list value → list value → value → value)).

Local Abbreviation galleryApi := (Some (specGallery extractA extractC build)).

Lemma specGallery_afterRegistration (galleryKey : value) (m : obj)
    (w : world (gmap jsstring obj)) :
  gallery (afterRegistration galleryApi galleryKey m w)
  = <[toString galleryKey := normalizedCopy galleryApi m]> (gallery w).
Proof. reflexivity. Qed.

Lemma forEach_registry (fallback : value) (msgs : list loc) :
  ∀ (idx : nat) (w : world (gmap jsstring obj)),
    ∃ w', forEachFrom idx msgs (λ msg idx,
            let galleryKey := entityKey idx in
            do _ <- prepareGalleryContentWith fallback msg galleryApi galleryKey;
            ret tt) w = Ok (tt, w')
          ∧ (∀ l o, heap w !! l = Some o → heap w' !! l = Some o)
          ∧ (∀ k, (∀ j, j < length msgs → k ≠ toString (entityKey (idx + j))) →
                  gallery w' !! k = gallery w !! k)
          ∧ (∀ j l m, msgs !! j = Some l → heap w !! l = Some m →
                  gallery w' !! toString (entityKey (idx + j))
                  = Some (normalizedCopy galleryApi m)).
Proof.
  induction msgs as [|msg rest IH]; intros idx w.
  - exists w. by repeat split.
  - set (w1 := afterRegistration galleryApi (entityKey idx)
                 (default ∅ (heap w !! msg)) w).
    destruct (IH (S idx) w1) as (w' & Hrun & Hkeep & Hother & Hentry).
    exists w'. split; [|split; [|split]].
    + cbn [forEachFrom]. cbv zeta.
      rewrite (bind_run _ _ _ _ _ (registerOne_run _ _ _ _ _)). apply Hrun.
    + intros l o Hl. by apply Hkeep, afterRegistration_frame.
    + intros k Hk. rewrite Hother.
      * unfold w1. rewrite specGallery_afterRegistration, lookup_insert_ne; [done|].
        specialize (Hk 0). rewrite Nat.add_0_r in Hk.
        intros Heq. apply Hk; [cbn [length]; lia|done].
      * intros j Hj. replace (S idx + j) with (idx + S j) by lia.
        apply Hk. cbn [length]. lia.
    + intros j l m Hj Hl. destruct j as [|j].
      * cbn in Hj. injection Hj as ->. rewrite Nat.add_0_r, Hother.
        -- unfold w1. rewrite specGallery_afterRegistration, lookup_insert_eq.
           by rewrite Hl.
        -- intros j _ Heq. apply entityKey_string_inj in Heq. lia.
      * cbn in Hj. replace (idx + S j) with (S idx + j) by lia.
        apply (Hentry j l m Hj). by apply afterRegistration_frame.
Qed.

(** With the registry of the specification, batch registration files the
    normalized copy of the message at each position under that position's
    key and leaves every other entry of the registry alone. *)
Lemma registerEntityGalleries_registry (fallback : value) (msgs : list loc)
    (w : world (gmap jsstring obj)) :
  ∃ w', registerEntityGalleriesWith fallback (Some msgs) galleryApi w = Ok (tt, w')
        ∧ (∀ l o, heap w !! l = Some o → heap w' !! l = Some o)
        ∧ (∀ k, (∀ j, j < length msgs → k ≠ toString (entityKey j)) →
                gallery w' !! k = gallery w !! k)
        ∧ (∀ j l m, msgs !! j = Some l → heap w !! l = Some m →
                gallery w' !! toString (entityKey j)
                = Some (normalizedCopy galleryApi m)).
Proof. apply (forEach_registry fallback msgs 0 w). Qed.
End BatchRegistry.

(** X4: with the registry of the specification, after
    [registerEntityGalleries] the entry under the key of position [j] is the
    normalized copy of the message at position [j] (its attachments and copy
    history replaced by the extracted sequences), and every entry under
    another key is what it was before the call. *)
Theorem registerEntityGalleries_positional (fallback : value)
    (extractA extractC : option (obj → list value))
    (build : option (gmap jsstring obj → list value → list value → value → value))
    (msgs : list loc) (w : world (gmap jsstring obj)) (j : nat) (l : loc) (m : obj) :
  msgs !! j = Some l →
  heap w !! l = Some m →
  ∃ w', registerEntityGalleriesWith fallback (Some msgs)
          (Some (specGallery extractA extractC build)) w = Ok (tt, w')
        ∧ gallery w' !! (str "entity-msg-" ++ num_str (Z.of_nat j))
          = Some (<["copy_history" :=
                      VArr (match extractC with Some f => f m | None => [] end)]>
                    (<["attachments" :=
                         VArr (match extractA with Some f => f m | None => [] end)]> m))
        ∧ ∀ k, (∀ i, i < length msgs → k ≠ str "entity-msg-" ++ num_str (Z.of_nat i)) →
               gallery w' !! k = gallery w !! k.
Proof.
  intros Hj Hl.
  destruct (registerEntityGalleries_registry extractA extractC build fallback msgs w)
    as (w' & Hrun & _ & Hother & Hentry).
  exists w'. split; [exact Hrun|]. split; [|exact Hother].
  apply (Hentry j l m Hj Hl).
Qed.

Lemma registerEntityGalleries_positional_witness :
  [1%positive; 1%positive] !! 1 = Some 1%positive
  ∧ heap sampleWorld !! 1%positive = Some sampleMessage
  ∧ ∃ w', registerEntityGalleriesWith (VStr []) (Some [1%positive; 1%positive])
            (Some (specGallery None None None)) sampleWorld = Ok (tt, w')
          ∧ gallery w' !! (str "entity-msg-" ++ num_str 1)
            = Some (<["copy_history" := VArr []]> (<["attachments" := VArr []]> sampleMessage)).
Proof.
  split; [reflexivity|]. split; [exact sampleWorld_message|].
  destruct (registerEntityGalleries_positional (VStr []) None None None
              [1%positive; 1%positive] sampleWorld 1 1%positive sampleMessage)
    as (w' & Hrun & Hentry & _); [reflexivity|exact sampleWorld_message|].
  exists w'. split; [exact Hrun|exact Hentry].
Defined.

(** X5: with the registry of the specification, [registerEntityGalleries] is
    idempotent on the registry: called a second time on the same messages it
    leaves the registry that the first call left. *)
Theorem registerEntityGalleries_idempotent (fallback : value)
    (extractA extractC : option (obj → list value))
    (build : option (gmap jsstring obj → list value → list value → value → value))
    (msgs : list loc) (w : world (gmap jsstring obj)) :
  Forall (λ l, is_Some (heap w !! l)) msgs →
  ∃ w1 w2,
    registerEntityGalleriesWith fallback (Some msgs)
      (Some (specGallery extractA extractC build)) w = Ok (tt, w1)
    ∧ registerEntityGalleriesWith fallback (Some msgs)
        (Some (specGallery extractA extractC build)) w1 = Ok (tt, w2)
    ∧ gallery w2 = gallery w1.
Proof.
  intros Hvalid.
  destruct (registerEntityGalleries_registry extractA extractC build fallback msgs w)
    as (w1 & Hrun1 & Hkeep1 & Hother1 & Hentry1).
  destruct (registerEntityGalleries_registry extractA extractC build fallback msgs w1)
    as (w2 & Hrun2 & _ & Hother2 & Hentry2).
  exists w1, w2. split; [exact Hrun1|]. split; [exact Hrun2|].
  apply map_eq. intros k.
  destruct (decide (k ∈ (λ j, toString (entityKey j)) <$> seq 0 (length msgs)))
    as [Hin|Hout].
  - apply list_elem_of_fmap in Hin as (j & -> & Hj).
    apply elem_of_seq in Hj as [_ Hj]. cbn in Hj.
    destruct (lookup_lt_is_Some_2 msgs j Hj) as [l Hl].
    rewrite Forall_lookup in Hvalid. destruct (Hvalid j l Hl) as [m Hm].
    rewrite (Hentry1 j l m Hl Hm). apply (Hentry2 j l m Hl). by apply Hkeep1.
  - apply Hother2. intros j Hj ->. apply Hout.
    apply list_elem_of_fmap. exists j. split; [done|]. apply elem_of_seq. lia.
Qed.

Lemma registerEntityGalleries_idempotent_witness :
  Forall (λ l, is_Some (heap sampleWorld !! l)) [1%positive]
  ∧ ∃ w1 w2,
      registerEntityGalleriesWith (VStr placeholder) (Some [1%positive])
        (Some (specGallery None None None)) sampleWorld = Ok (tt, w1)
      ∧ registerEntityGalleriesWith (VStr placeholder) (Some [1%positive])
          (Some (specGallery None None None)) w1 = Ok (tt, w2)
      ∧ gallery w2 = gallery w1.
Proof.
  assert (Forall (λ l, is_Some (heap sampleWorld !! l)) [1%positive]) as Hvalid.
  { apply Forall_cons. split; [|apply Forall_nil_2].
    exists sampleMessage. exact sampleWorld_message. }
  split; [exact Hvalid|].
  exact (registerEntityGalleries_idempotent (VStr placeholder) None None None
           [1%positive] sampleWorld Hvalid).
Defined.

(** ** Reply preview: options, link and labels *)

(** X6: the preview depends on its options only through whether [mode] is
    exactly the string 'detailed' and, in that case, through [peerId]: every
    other mode (absent, misspelt, not a string) gives the compact preview,
    which reads no option at all. *)
Theorem buildReplyPreview_options (reply : value) (options : obj) :
  buildReplyPreview reply options
  = buildReplyPreview reply
      (if detailedMode options then detailedOptions (field options "peerId") else ∅).
Proof.
  unfold buildReplyPreview. fold (detailedMode options).
  destruct (detailedMode options) eqn:Hmode.
  - fold (detailedMode (detailedOptions (field options "peerId"))).
    assert (detailedMode (detailedOptions (field options "peerId")) = true) as ->.
    { unfold detailedMode, detailedOptions.
      rewrite field_insert_ne by done. evaluate. }
    unfold detailedOptions. by rewrite field_insert_eq.
  - fold (detailedMode ∅). by assert (detailedMode ∅ = false) as -> by evaluate.
Qed.

Lemma avatarSpan_longer (avatarUrl safeLabel : value) :
  length (toString safeLabel) < length (avatarSpan avatarUrl safeLabel).
Proof. unfold avatarSpan. html_lengths. lia. Qed.

(** X7: [buildAvatarLabel] wraps the label in the avatar markup, an image
    whose source is the avatar URL, exactly when the URL is truthy, and
    returns the label value itself otherwise; the label shown is the given
    one when it is truthy and the dash otherwise, so a label that is absent,
    null or a string is never rendered as the empty string. *)
Theorem buildAvatarLabel_cases (label avatarUrl : value) :
  let safeLabel := or_ label (VStr (str "—")) in
  (buildAvatarLabel label avatarUrl = VStr (avatarSpan avatarUrl safeLabel)
     ↔ truthy avatarUrl = true)
  ∧ (buildAvatarLabel label avatarUrl = safeLabel ↔ truthy avatarUrl = false)
  ∧ (html "<span class='d-inline-flex align-items-center gap-2'><img src='"
       ++ toString avatarUrl) `prefix_of` avatarSpan avatarUrl safeLabel
  ∧ safeLabel = (if truthy label then label else VStr (str "—"))
  ∧ (textual label = true → toString (buildAvatarLabel label avatarUrl) ≠ []).
Proof.
  intros safeLabel.
  assert (safeLabel ≠ VStr (avatarSpan avatarUrl safeLabel)) as Hne.
  { intros Heq. apply (f_equal toString) in Heq. cbn [toString] in Heq.
    pose proof (avatarSpan_longer avatarUrl safeLabel) as Hlen.
    rewrite <- Heq in Hlen. lia. }
  assert (buildAvatarLabel label avatarUrl
          = if truthy avatarUrl then VStr (avatarSpan avatarUrl safeLabel) else safeLabel)
    as Hrun by reflexivity.
  rewrite Hrun. split; [|split; [|split; [|split]]].
  - destruct (truthy avatarUrl); [done|]. split; [|done]. intros H. by apply Hne in H.
  - destruct (truthy avatarUrl); [|done]. split; [|done].
    intros H. symmetry in H. by apply Hne in H.
  - unfold avatarSpan. eexists. by rewrite <- !app_assoc.
  - reflexivity.
  - intros Hlabel Hempty.
    destruct (truthy avatarUrl).
    + cbn [toString] in Hempty. apply (f_equal length) in Hempty.
      pose proof (avatarSpan_longer avatarUrl safeLabel). cbn [length] in Hempty. lia.
    + unfold safeLabel, or_ in Hempty.
      destruct label as [| |b|z|s|xs|o]; try discriminate Hlabel;
        cbn [truthy toString] in Hempty;
        try (vm_compute in Hempty; discriminate Hempty).
      destruct s; [vm_compute in Hempty; discriminate Hempty|discriminate Hempty].
Qed.

(** X8: the reference of a detailed preview is a link into the conversation
    at vk.com exactly when the reply's [id] and the [peerId] option are both
    truthy; otherwise it is the bare token [#id], in which a null or absent
    id is shown as the dash, while an id of 0 is shown as [#0]. *)
Theorem detailed_preview_reference (reply : value) (options : obj) :
  textOk reply = true →
  previewEmpty reply options = false →
  detailedMode options = true →
  let id := prop reply "id" in
  let peerId := field options "peerId" in
  ∃ reference,
    buildReplyPreview reply options =
      Ok (detailedBlock reference (replyAttachmentsLabelOf reply) (textSegment reply)
            (toString (buildAvatarLabel (replyAuthorLabelOf reply)
                                        (prop reply "from_avatar"))))
    ∧ reference =
        (if truthy id && truthy peerId
         then html "<a href='https://vk.com/im?sel=" ++ toString peerId
              ++ html "&msgid=" ++ toString id
              ++ html "' target='_blank' rel='noopener noreferrer'>#"
              ++ toString id ++ html "</a>"
         else str "#" ++ (if nullish id then str "—" else toString id))
    ∧ (head reference = Some 60%N ↔ truthy id && truthy peerId = true).
Proof.
  intros Hok Hfull Hmode id peerId. eexists. split; [|split].
  - rewrite (buildReplyPreview_eq _ _ Hok). unfold previewOf.
    by rewrite Hfull, Hmode.
  - unfold replyLinkOf. rewrite truthy_and_. fold id. fold peerId.
    destruct (truthy id && truthy peerId); [reflexivity|].
    by destruct id.
  - unfold replyLinkOf. rewrite truthy_and_. fold id. fold peerId.
    destruct (truthy id && truthy peerId).
    + split; [done|]. intros _. rewrite head_app. evaluate.
    + split; [|done]. rewrite head_app. vm_compute. discriminate.
Qed.

Lemma detailed_preview_reference_witness :
  textOk sampleReply = true
  ∧ previewEmpty sampleReply (detailedOptions (VNum 5)) = false
  ∧ detailedMode (detailedOptions (VNum 5)) = true
  ∧ ∃ rest,
      buildReplyPreview sampleReply (detailedOptions (VNum 5)) =
        Ok (html "<div class='d-flex flex-column gap-1'><div class='d-flex align-items-center gap-2'><a href='https://vk.com/im?sel=5&msgid=7' target='_blank' rel='noopener noreferrer'>#7</a>"
            ++ rest).
Proof.
  split; [evaluate|]. split; [evaluate|]. split; [evaluate|].
  destruct (detailed_preview_reference sampleReply (detailedOptions (VNum 5)))
    as (reference & Hrun & Href & _); [evaluate|evaluate|evaluate|].
  eexists. rewrite Hrun, Href. evaluate.
Defined.

(** X9: the attachment label of a detailed preview counts the reply's own
    attachments: it is 'Без вложений' exactly when [attachments] is not an
    array or is an empty one, and the number of elements followed by
    ' влож.' otherwise. *)
Theorem detailed_preview_attachments (reply : value) (options : obj) :
  textOk reply = true →
  previewEmpty reply options = false →
  detailedMode options = true →
  let count :=
    match prop reply "attachments" with
    | VArr xs => length xs
    | _ => 0
    end in
  ∃ label,
    buildReplyPreview reply options =
      Ok (detailedBlock
            (replyLinkOf reply (field options "peerId")
               (coalesce (prop reply "id") (VStr (str "—"))))
            label (textSegment reply)
            (toString (buildAvatarLabel (replyAuthorLabelOf reply)
                                        (prop reply "from_avatar"))))
    ∧ label = (if bool_decide (count = 0) then str "Без вложений"
               else num_str (Z.of_nat count) ++ str " влож.")
    ∧ (label = str "Без вложений" ↔ count = 0).
Proof.
  intros Hok Hfull Hmode count.
  assert (replyAttachmentsLabelOf reply
          = if bool_decide (count = 0) then str "Без вложений"
            else num_str (Z.of_nat count) ++ str " влож.") as Hlabel.
  { unfold replyAttachmentsLabelOf, count.
    destruct (prop reply "attachments") as [| |b|z|s|xs|o]; try reflexivity.
    destruct xs as [|x xs]; [reflexivity|].
    rewrite bool_decide_eq_false_2 by done.
    cbn [length truthy toString]. by destruct (Z.of_nat (S (length xs))) eqn:E. }
  eexists. split; [|split; [exact Hlabel|]].
  - rewrite (buildReplyPreview_eq _ _ Hok). unfold previewOf.
    by rewrite Hfull, Hmode.
  - rewrite Hlabel. case_bool_decide as Hcount; [done|].
    split; [|done]. intros Heq. apply (f_equal last) in Heq.
    rewrite last_app in Heq. vm_compute in Heq. discriminate Heq.
Qed.

Lemma detailed_preview_attachments_witness :
  textOk sampleReply = true
  ∧ previewEmpty sampleReply (detailedOptions (VNum 5)) = false
  ∧ detailedMode (detailedOptions (VNum 5)) = true
  ∧ buildReplyPreview sampleReply (detailedOptions (VNum 5)) =
      Ok (detailedBlock
            (replyLinkOf sampleReply (VNum 5) (VNum 7))
            (str "Без вложений") (str "hi") (str "Автор неизвестен")).
Proof.
  split; [evaluate|]. split; [evaluate|]. split; [evaluate|].
  destruct (detailed_preview_attachments sampleReply (detailedOptions (VNum 5)))
    as (label & Hrun & Hlabel & _); [evaluate|evaluate|evaluate|].
  rewrite Hrun, Hlabel. evaluate.
Defined.

(** ** The reply block of the card layout *)

Lemma hasReplyOf_eq (reply : value) :
  hasReplyOf reply
  = truthy reply && (truthy (prop reply "text") || truthy (prop reply "from_name")
                     || truthy (prop reply "from_id")).
Proof. unfold hasReplyOf. by rewrite truthy_and_, !truthy_or_. Qed.

Lemma detailedMode_compactOptions : detailedMode compactOptions = false.
Proof. evaluate. Qed.

Lemma detailedMode_detailedOptions (peerId : value) :
  detailedMode (detailedOptions peerId) = true.
Proof.
  unfold detailedMode, detailedOptions. rewrite field_insert_ne by done. evaluate.
Qed.

Lemma previewOf_placeholder (reply : value) (options : obj) :
  previewOf reply options = placeholder ↔ previewEmpty reply options = true.
Proof.
  unfold previewOf. destruct (previewEmpty reply options); [done|].
  destruct (detailedMode options); (split; [intros H|discriminate]).
  - by apply detailedBlock_ne_placeholder in H.
  - by apply compactBlock_ne_placeholder in H.
Qed.

Lemma replyBlock_empty (hasReply : bool) (replyCell : jsstring) :
  Card.replyBlock hasReply replyCell = [] ↔ hasReply = false.
Proof.
  unfold Card.replyBlock. destruct hasReply; [|done]. split; [|done].
  intros H. apply (f_equal head) in H. rewrite head_app in H.
  vm_compute in H. discriminate H.
Qed.

Lemma replyBlock_wraps (hasReply : bool) (replyCell inner : jsstring) :
  Card.replyBlock hasReply replyCell
  = html "<div class='chat-bubble-reply'>" ++ inner ++ html "</div>"
  ↔ hasReply = true ∧ replyCell = inner.
Proof.
  unfold Card.replyBlock. destruct hasReply.
  - split.
    + intros H. apply app_inv_head, app_inv_tail in H. by split.
    + by intros [_ ->].
  - split; [|by intros [? _]]. intros H. symmetry in H.
    apply (f_equal head) in H. rewrite head_app in H. vm_compute in H. discriminate H.
Qed.

(** X10: in the card layout the Dashboard row shows a reply block exactly
    when the reply is present and has a text, an author name or an author id.
    No content is lost by that: whenever the block is left out the compact
    preview is the placeholder.  But a reply known by its author id alone is
    shown as a block around the placeholder. *)
Theorem card_dashboard_reply_block {G} (message : loc) (galleryApi : option (GalleryApi G))
    (galleryKey : value) (options : RowOptions) (w : world G) (m : obj) :
  heap w !! message = Some m →
  messageOk m = true →
  let reply := field m "reply" in
  let w' := afterRegistration galleryApi galleryKey m w in
  ∃ el slot preview,
    Card.buildDashboardRow message galleryApi galleryKey options w = Ok (el, w')
    ∧ buildReplyPreview reply compactOptions = Ok preview
    ∧ innerHTML el =
        Card.dashboardHtml (avatarColOf m) (toString (buildPeerCell m allowLinkOptions))
          (toString (formatDateOf options (field m "created_at")))
          (buildSenderCell m senderOptions) slot
          (Card.attachmentsBlock
             (hasAttachmentsOf (attachmentsOf galleryApi m) (copyHistoryOf galleryApi m))
             (contentCellOf (VStr []) galleryApi (gallery w') galleryKey m))
          (toString (or_ (coalesce (field m "text") (VStr [])) (VStr placeholder)))
    ∧ (slot = [] ↔
         truthy reply && (truthy (prop reply "text") || truthy (prop reply "from_name")
                          || truthy (prop reply "from_id")) = false)
    ∧ (slot = [] → preview = placeholder)
    ∧ (slot = html "<div class='chat-bubble-reply'>" ++ placeholder ++ html "</div>" ↔
         truthy reply && negb (truthy (prop reply "text"))
         && negb (truthy (prop reply "from_name")) && truthy (prop reply "from_id") = true).
Proof.
  intros Hm Hok reply w'.
  exists (Element "div" (markDeleted m (markNew options (classList_add "chat-item" [])))
            (Card.dashboardHtml (avatarColOf m) (toString (buildPeerCell m allowLinkOptions))
               (toString (formatDateOf options (field m "created_at")))
               (buildSenderCell m senderOptions)
               (Card.replyBlock (hasReplyOf reply) (previewOf reply compactOptions))
               (Card.attachmentsBlock
                  (hasAttachmentsOf (attachmentsOf galleryApi m) (copyHistoryOf galleryApi m))
                  (contentCellOf (VStr []) galleryApi (gallery w') galleryKey m))
               (toString (or_ (coalesce (field m "text") (VStr [])) (VStr placeholder))))),
         (Card.replyBlock (hasReplyOf reply) (previewOf reply compactOptions)),
         (previewOf reply compactOptions).
  split; [by apply card_buildDashboardRow_run|].
  split; [by apply buildReplyPreview_eq|].
  split; [reflexivity|].
  rewrite replyBlock_empty, replyBlock_wraps, previewOf_placeholder, hasReplyOf_eq.
  unfold previewEmpty. rewrite detailedMode_compactOptions.
  destruct (truthy reply), (truthy (prop reply "text")),
    (truthy (prop reply "from_name")), (truthy (prop reply "from_id"));
    cbn [andb orb negb]; intuition congruence.
Qed.

Lemma card_dashboard_reply_block_witness :
  heap sampleWorld !! 1%positive = Some sampleMessage
  ∧ messageOk sampleMessage = true
  ∧ ∃ el w',
      Card.buildDashboardRow 1%positive None VUndef sampleOptions sampleWorld
        = Ok (el, w')
      ∧ buildReplyPreview (field sampleMessage "reply") compactOptions = Ok placeholder.
Proof.
  split; [exact sampleWorld_message|]. split; [exact sampleMessage_ok|].
  destruct (card_dashboard_reply_block 1%positive None VUndef sampleOptions
              sampleWorld sampleMessage)
    as (el & slot & preview & Hrun & Hpreview & _ & Hslot & Hlost & _);
    [exact sampleWorld_message|exact sampleMessage_ok|].
  eexists el, _. split; [exact Hrun|].
  rewrite Hpreview. f_equal. apply Hlost, Hslot. evaluate.
Defined.

(** X11: in the card layout the Log row decides on the reply block by the
    same test (text, author name or author id) but fills it with the detailed
    preview, which goes by id, text and author id.  So a reply known by its
    id alone has a detailed preview that is not the placeholder and is left
    out of the card, and a reply known by its author name alone is shown as a
    block around the placeholder. *)
Theorem card_logs_reply_block {G} (log : loc) (galleryApi : option (GalleryApi G))
    (galleryKey : value) (options : RowOptions) (w : world G) (m : obj) :
  heap w !! log = Some m →
  messageOk m = true →
  let reply := field m "reply" in
  let w' := afterRegistration galleryApi galleryKey m w in
  ∃ el slot preview,
    Card.buildLogsRow log galleryApi galleryKey options w = Ok (el, w')
    ∧ buildReplyPreview reply (detailedOptions (field m "peer_id")) = Ok preview
    ∧ innerHTML el =
        Card.logsHtml (avatarColOf m) (toString (buildPeerCell m allowLinkOptions))
          (toString (formatDateOf options (field m "created_at")))
          (buildSenderCell m senderOptions) (botFlagOf m) slot
          (Card.attachmentsBlock
             (hasAttachmentsOf (attachmentsOf galleryApi m) (copyHistoryOf galleryApi m))
             (contentCellOf (VStr []) galleryApi (gallery w') galleryKey m))
          (toString (or_ (coalesce (field m "text") (VStr [])) (VStr placeholder)))
          (toString (coalesce (field m "message_id") (VStr (str "—"))))
          (toString (coalesce (field m "id") (VStr (str "—"))))
          (deleteButtonOf m)
    ∧ (slot = [] ↔
         truthy reply && (truthy (prop reply "text") || truthy (prop reply "from_name")
                          || truthy (prop reply "from_id")) = false)
    ∧ (slot = [] ∧ preview ≠ placeholder ↔
         truthy reply && truthy (prop reply "id") && negb (truthy (prop reply "text"))
         && negb (truthy (prop reply "from_name"))
         && negb (truthy (prop reply "from_id")) = true)
    ∧ (slot = html "<div class='chat-bubble-reply'>" ++ placeholder ++ html "</div>" ↔
         truthy reply && truthy (prop reply "from_name")
         && negb (truthy (prop reply "id")) && negb (truthy (prop reply "text"))
         && negb (truthy (prop reply "from_id")) = true).
Proof.
  intros Hm Hok reply w'.
  exists (Element "div" (markDeleted m (classList_add "chat-item" []))
            (Card.logsHtml (avatarColOf m) (toString (buildPeerCell m allowLinkOptions))
               (toString (formatDateOf options (field m "created_at")))
               (buildSenderCell m senderOptions) (botFlagOf m)
               (Card.replyBlock (hasReplyOf reply)
                  (previewOf reply (detailedOptions (field m "peer_id"))))
               (Card.attachmentsBlock
                  (hasAttachmentsOf (attachmentsOf galleryApi m) (copyHistoryOf galleryApi m))
                  (contentCellOf (VStr []) galleryApi (gallery w') galleryKey m))
               (toString (or_ (coalesce (field m "text") (VStr [])) (VStr placeholder)))
               (toString (coalesce (field m "message_id") (VStr (str "—"))))
               (toString (coalesce (field m "id") (VStr (str "—"))))
               (deleteButtonOf m))),
         (Card.replyBlock (hasReplyOf reply)
            (previewOf reply (detailedOptions (field m "peer_id")))),
         (previewOf reply (detailedOptions (field m "peer_id"))).
  split; [by apply card_buildLogsRow_run|].
  split; [by apply buildReplyPreview_eq|].
  split; [reflexivity|].
  rewrite replyBlock_empty, replyBlock_wraps, previewOf_placeholder, hasReplyOf_eq.
  unfold previewEmpty. rewrite detailedMode_detailedOptions.
  destruct (truthy reply), (truthy (prop reply "id")), (truthy (prop reply "text")),
    (truthy (prop reply "from_name")), (truthy (prop reply "from_id"));
    cbn [andb orb negb]; intuition congruence.
Qed.

Lemma card_logs_reply_block_witness :
  heap (World {[ 1%positive := sampleIdOnlyLog ]} tt) !! 1%positive = Some sampleIdOnlyLog
  ∧ messageOk sampleIdOnlyLog = true
  ∧ ∃ el w' preview,
      Card.buildLogsRow 1%positive None VUndef sampleOptions
        (World {[ 1%positive := sampleIdOnlyLog ]} tt) = Ok (el, w')
      ∧ buildReplyPreview (field sampleIdOnlyLog "reply")
          (detailedOptions (field sampleIdOnlyLog "peer_id")) = Ok preview
      ∧ preview ≠ placeholder.
Proof.
  split; [apply lookup_singleton_eq|]. split; [evaluate|].
  destruct (card_logs_reply_block 1%positive None VUndef sampleOptions
              (World {[ 1%positive := sampleIdOnlyLog ]} tt) sampleIdOnlyLog)
    as (el & slot & preview & Hrun & Hpreview & _ & _ & Hdropped & _);
    [apply lookup_singleton_eq|evaluate|].
  eexists el, _, preview. split; [exact Hrun|]. split; [exact Hpreview|].
  apply Hdropped. evaluate.
Defined.

(** ** Attachments, status classes, columns and body of the rows *)

Lemma attachmentsBlock_empty (hasAttachments : bool) (contentCell : value) :
  Card.attachmentsBlock hasAttachments contentCell = [] ↔ hasAttachments = false.
Proof.
  unfold Card.attachmentsBlock. destruct hasAttachments; [|done]. split; [|done].
  intros H. apply (f_equal head) in H. rewrite head_app in H.
  vm_compute in H. discriminate H.
Qed.

Lemma hasAttachmentsOf_false (a c : list value) :
  hasAttachmentsOf a c = false ↔ a = [] ∧ c = [].
Proof.
  unfold hasAttachmentsOf. destruct a, c; cbn; split; try done; by intros [? ?].
Qed.

(** X12: in the card layout every row shows the attachment container exactly
    when the normalized attachments or the normalized copy history are not
    empty, whatever the content cell is: with a collaborator that extracts
    but cannot build a content cell the container is shown empty, and with
    no collaborator at all it is never shown. *)
Theorem card_attachments_container {G} (message : loc) (galleryApi : option (GalleryApi G))
    (galleryKey : value) (options : RowOptions) (w : world G) (m : obj) :
  heap w !! message = Some m →
  messageOk m = true →
  let w' := afterRegistration galleryApi galleryKey m w in
  let attachments :=
    match capability galleryApi extractAttachments with
    | Some extract => extract m
    | None => []
    end in
  let copyHistory :=
    match capability galleryApi extractCopyHistory with
    | Some extract => extract m
    | None => []
    end in
  ∃ slot,
    (∃ el, Card.buildDashboardRow message galleryApi galleryKey options w = Ok (el, w')
           ∧ innerHTML el =
               Card.dashboardHtml (avatarColOf m)
                 (toString (buildPeerCell m allowLinkOptions))
                 (toString (formatDateOf options (field m "created_at")))
                 (buildSenderCell m senderOptions)
                 (Card.replyBlock (hasReplyOf (field m "reply"))
                    (previewOf (field m "reply") compactOptions))
                 slot
                 (toString (or_ (coalesce (field m "text") (VStr [])) (VStr placeholder))))
    ∧ (∃ el avatar peer time author flag reply body vkId logId button,
         Card.buildLogsRow message galleryApi galleryKey options w = Ok (el, w')
         ∧ innerHTML el =
             Card.logsHtml avatar peer time author flag reply slot body vkId logId button)
    ∧ (∃ el avatar header body,
         Card.buildEntityRow message galleryApi galleryKey options w = Ok (el, w')
         ∧ innerHTML el = Card.entityHtml avatar header slot body)
    ∧ (slot = [] ↔ attachments = [] ∧ copyHistory = [])
    ∧ (capability galleryApi buildContentCell = None → slot ≠ [] →
         slot = html "<div class='chat-bubble-attachments'>" ++ html "</div>")
    ∧ (galleryApi = None → slot = []).
Proof.
  intros Hm Hok w' attachments copyHistory.
  exists (Card.attachmentsBlock
            (hasAttachmentsOf (attachmentsOf galleryApi m) (copyHistoryOf galleryApi m))
            (contentCellOf (VStr []) galleryApi (gallery w') galleryKey m)).
  split; [eexists; split; [by apply card_buildDashboardRow_run|reflexivity]|].
  split; [eexists _, _, _, _, _, _, _, _, _, _, _;
          split; [by apply card_buildLogsRow_run|reflexivity]|].
  split; [eexists _, _, _, _; split; [by apply card_buildEntityRow_run|reflexivity]|].
  split; [by rewrite attachmentsBlock_empty, hasAttachmentsOf_false|].
  split.
  - intros Hnone Hslot. unfold contentCellOf. rewrite Hnone.
    unfold Card.attachmentsBlock in *.
    by destruct (hasAttachmentsOf _ _).
  - intros ->. by apply attachmentsBlock_empty.
Qed.

Lemma card_attachments_container_witness :
  heap sampleWorld !! 1%positive = Some sampleMessage
  ∧ messageOk sampleMessage = true
  ∧ ∃ el w' avatar header body,
      Card.buildEntityRow 1%positive None VUndef sampleOptions sampleWorld = Ok (el, w')
      ∧ innerHTML el = Card.entityHtml avatar header [] body.
Proof.
  split; [exact sampleWorld_message|]. split; [exact sampleMessage_ok|].
  destruct (card_attachments_container 1%positive None VUndef sampleOptions
              sampleWorld sampleMessage)
    as (slot & _ & _ & (el & avatar & header & body & Hrun & Hhtml) & _ & _ & Hnone);
    [exact sampleWorld_message|exact sampleMessage_ok|].
  eexists el, _, avatar, header, body. split; [exact Hrun|].
  rewrite Hhtml, (Hnone eq_refl). reflexivity.
Defined.

(** X13: the status classes of a row.  An element of the card layout is a
    [div] of class [chat-item], one of the table layout a [tr] without it;
    [message-deleted] is added exactly when the message's [is_deleted] is
    truthy; [message-row-new] is added exactly when [isNew] is truthy, and by
    the Dashboard rows only: the Log and Entity rows do not read [isNew]. *)
Theorem row_status_classes {G} (message : loc) (galleryApi : option (GalleryApi G))
    (galleryKey : value) (options : RowOptions) (w : world G) (m : obj) :
  heap w !! message = Some m →
  messageOk m = true →
  let w' := afterRegistration galleryApi galleryKey m w in
  let new := if truthy (isNew options) then ["message-row-new"] else [] in
  let deleted := if truthy (field m "is_deleted") then ["message-deleted"] else [] in
  (∃ el, Card.buildDashboardRow message galleryApi galleryKey options w = Ok (el, w')
         ∧ tagName el = "div" ∧ classList el = ["chat-item"] ++ new ++ deleted)
  ∧ (∃ el, Card.buildLogsRow message galleryApi galleryKey options w = Ok (el, w')
           ∧ tagName el = "div" ∧ classList el = ["chat-item"] ++ deleted)
  ∧ (∃ el, Card.buildEntityRow message galleryApi galleryKey options w = Ok (el, w')
           ∧ tagName el = "div" ∧ classList el = ["chat-item"] ++ deleted)
  ∧ (∃ el, Table.buildDashboardRow message galleryApi galleryKey options w = Ok (el, w')
           ∧ tagName el = "tr" ∧ classList el = new ++ deleted)
  ∧ (∃ el, Table.buildLogsRow message galleryApi galleryKey options w = Ok (el, w')
           ∧ tagName el = "tr" ∧ classList el = deleted)
  ∧ (∃ el, Table.buildEntityRow message galleryApi galleryKey options w = Ok (el, w')
           ∧ tagName el = "tr" ∧ classList el = deleted).
Proof.
  intros Hm Hok w' new deleted.
  split; [eexists; split; [by apply card_buildDashboardRow_run|]|].
  { cbn [tagName classList]. unfold new, deleted, markDeleted, markNew.
    by destruct (truthy (isNew options)), (truthy (field m "is_deleted")). }
  split; [eexists; split; [by apply card_buildLogsRow_run|]|].
  { cbn [tagName classList]. unfold deleted, markDeleted.
    by destruct (truthy (field m "is_deleted")). }
  split; [eexists; split; [by apply card_buildEntityRow_run|]|].
  { cbn [tagName classList]. unfold deleted, markDeleted.
    by destruct (truthy (field m "is_deleted")). }
  split; [eexists; split; [by apply table_buildDashboardRow_run|]|].
  { cbn [tagName classList]. unfold new, deleted, markDeleted, markNew.
    by destruct (truthy (isNew options)), (truthy (field m "is_deleted")). }
  split; [eexists; split; [by apply table_buildLogsRow_run|]|].
  { cbn [tagName classList]. unfold deleted, markDeleted.
    by destruct (truthy (field m "is_deleted")). }
  eexists; split; [by apply table_buildEntityRow_run|].
  cbn [tagName classList]. unfold deleted, markDeleted.
  by destruct (truthy (field m "is_deleted")).
Qed.

Lemma row_status_classes_witness :
  heap sampleWorld !! 1%positive = Some sampleMessage
  ∧ messageOk sampleMessage = true
  ∧ ∃ el w',
      Card.buildLogsRow 1%positive None VUndef
        {| isNew := VBool true; formatDate := None;
           showChatColumn := VUndef; showSenderColumn := VUndef |} sampleWorld
        = Ok (el, w')
      ∧ classList el = ["chat-item"].
Proof.
  split; [exact sampleWorld_message|]. split; [exact sampleMessage_ok|].
  destruct (row_status_classes 1%positive None VUndef
              {| isNew := VBool true; formatDate := None;
                 showChatColumn := VUndef; showSenderColumn := VUndef |}
              sampleWorld sampleMessage)
    as (_ & (el & Hrun & _ & Hclasses) & _);
    [exact sampleWorld_message|exact sampleMessage_ok|].
  eexists el, _. split; [exact Hrun|]. rewrite Hclasses. evaluate.
Defined.

Lemma joinWith_chunks (sep a b c : jsstring) (x y : bool) :
  joinWith sep ([a] ++ (if x then [b] else []) ++ (if y then [c] else []))
  = a ++ (if x then sep ++ b else []) ++ (if y then sep ++ c else []).
Proof.
  destruct x, y; cbn [app joinWith]; by rewrite <- ?app_assoc, ?app_nil_r.
Qed.

Lemma joinWith_cells (a b c d e : jsstring) (x y : bool) :
  joinWith [] ([a] ++ (if x then [b] else []) ++ (if y then [c] else []) ++ [d] ++ [e])
  = a ++ (if x then b else []) ++ (if y then c else []) ++ d ++ e.
Proof. destruct x, y; cbn [app joinWith]; by rewrite ?app_nil_r. Qed.

(** X14: the Entity row shows the time always, the chat only when
    [showChatColumn] is truthy and the sender only when [showSenderColumn] is
    truthy, in that order.  In the card layout the chunks shown are joined by
    ' · ', with no separator before the first or after the last; in the table
    layout the cells shown are followed by the content cell and the text
    cell. *)
Theorem entity_columns {G} (message : loc) (galleryApi : option (GalleryApi G))
    (galleryKey : value) (options : RowOptions) (w : world G) (m : obj) :
  heap w !! message = Some m →
  let w' := afterRegistration galleryApi galleryKey m w in
  let time := toString (formatDateOf options (field m "created_at")) in
  let peerCell := toString (buildPeerCell m allowLinkOptions) in
  let authorCell := buildSenderCell m senderOptions in
  let chat := truthy (showChatColumn options) in
  let sender := truthy (showSenderColumn options) in
  (∃ el, Card.buildEntityRow message galleryApi galleryKey options w = Ok (el, w')
         ∧ innerHTML el =
             Card.entityHtml (avatarColOf m)
               (html "<span class='chat-bubble-time text-secondary'>" ++ time
                ++ html "</span>"
                ++ (if chat
                    then str " · " ++ html "<span class='chat-bubble-meta'>" ++ peerCell
                         ++ html "</span>"
                    else [])
                ++ (if sender
                    then str " · " ++ html "<span class='chat-bubble-author'>"
                         ++ authorCell ++ html "</span>"
                    else []))
               (Card.attachmentsBlock
                  (hasAttachmentsOf (attachmentsOf galleryApi m) (copyHistoryOf galleryApi m))
                  (contentCellOf (VStr []) galleryApi (gallery w') galleryKey m))
               (toString (coalesce (field m "text") (VStr (str "—")))))
  ∧ (∃ el, Table.buildEntityRow message galleryApi galleryKey options w = Ok (el, w')
           ∧ innerHTML el =
               html "<td class='text-nowrap'>" ++ time ++ html "</td>"
               ++ (if chat
                   then html "<td class='text-nowrap'>" ++ peerCell ++ html "</td>"
                   else [])
               ++ (if sender
                   then html "<td class='text-nowrap'>" ++ authorCell ++ html "</td>"
                   else [])
               ++ html "<td>"
               ++ toString (contentCellOf (VStr placeholder) galleryApi (gallery w')
                              galleryKey m)
               ++ html "</td>"
               ++ html "<td>" ++ toString (coalesce (field m "text") (VStr (str "—")))
               ++ html "</td>").
Proof.
  intros Hm. cbv zeta. split.
  - eexists. split; [by apply card_buildEntityRow_run|].
    unfold innerHTML. rewrite joinWith_chunks. by rewrite <- !app_assoc.
  - eexists. split; [by apply table_buildEntityRow_run|].
    unfold innerHTML. rewrite joinWith_cells. by rewrite <- !app_assoc.
Qed.

Lemma entity_columns_witness :
  heap sampleWorld !! 1%positive = Some sampleMessage
  ∧ ∃ el w',
      Table.buildEntityRow 1%positive None VUndef sampleOptions sampleWorld = Ok (el, w')
      ∧ innerHTML el =
          html "<td class='text-nowrap'>2024-01-01</td><td><span class='text-secondary'>—</span></td><td>—</td>".
Proof.
  split; [exact sampleWorld_message|].
  destruct (entity_columns 1%positive None VUndef sampleOptions sampleWorld sampleMessage)
    as (_ & el & Hrun & Hhtml); [exact sampleWorld_message|].
  eexists el, _. split; [exact Hrun|]. rewrite Hhtml. evaluate.
Defined.

(** X15: what the body of a row is when the text is absent, null or a string.
    The card-layout Dashboard row falls back by [||]: its body is never
    empty, and is the text itself when the text is truthy.  The card-layout
    Entity row falls back by [??], to the dash: its body is empty exactly when
    the text is the empty string.  The table-layout Dashboard row falls back
    by [??] to the empty string: its body cell is empty exactly when the text
    is falsy. *)
Theorem row_body_emptiness {G} (message : loc) (galleryApi : option (GalleryApi G))
    (galleryKey : value) (options : RowOptions) (w : world G) (m : obj) :
  heap w !! message = Some m →
  messageOk m = true →
  textual (field m "text") = true →
  let w' := afterRegistration galleryApi galleryKey m w in
  let createdAt := toString (formatDateOf options (field m "created_at")) in
  let peerCell := toString (buildPeerCell m allowLinkOptions) in
  let authorCell := buildSenderCell m senderOptions in
  let cardAttachments :=
    Card.attachmentsBlock
      (hasAttachmentsOf (attachmentsOf galleryApi m) (copyHistoryOf galleryApi m))
      (contentCellOf (VStr []) galleryApi (gallery w') galleryKey m) in
  let tableContent :=
    toString (contentCellOf (VStr placeholder) galleryApi (gallery w') galleryKey m) in
  (∃ el body, Card.buildDashboardRow message galleryApi galleryKey options w = Ok (el, w')
       ∧ innerHTML el =
           Card.dashboardHtml (avatarColOf m) peerCell createdAt authorCell
             (Card.replyBlock (hasReplyOf (field m "reply"))
                (previewOf (field m "reply") compactOptions))
             cardAttachments body
       ∧ body ≠ []
       ∧ (truthy (field m "text") = true → body = toString (field m "text")))
  ∧ (∃ el header body,
       Card.buildEntityRow message galleryApi galleryKey options w = Ok (el, w')
       ∧ innerHTML el = Card.entityHtml (avatarColOf m) header cardAttachments body
       ∧ (body = [] ↔ field m "text" = VStr []))
  ∧ (∃ el body, Table.buildDashboardRow message galleryApi galleryKey options w = Ok (el, w')
       ∧ innerHTML el =
           Table.dashboardHtml createdAt peerCell authorCell
             (previewOf (field m "reply") compactOptions) tableContent body
       ∧ (body = [] ↔ truthy (field m "text") = false)).
Proof.
  intros Hm Hok Htext w' createdAt peerCell authorCell cardAttachments tableContent.
  split; [|split].
  - eexists _, _. split; [by apply card_buildDashboardRow_run|].
    split; [reflexivity|].
    destruct (field m "text") as [| |b|z|s|xs|o]; try discriminate Htext;
      cbn [coalesce or_ truthy toString];
      try (split; [vm_compute; discriminate|discriminate]).
    destruct s as [|c s]; cbn [or_ truthy toString];
      (split; [first [vm_compute; discriminate | discriminate]
              |first [discriminate | reflexivity]]).
  - eexists _, _, _. split; [by apply card_buildEntityRow_run|].
    split; [reflexivity|].
    destruct (field m "text") as [| |b|z|s|xs|o]; try discriminate Htext;
      cbn [coalesce toString];
      try (split; [intros H; vm_compute in H; discriminate H|discriminate]).
    split; [by intros ->|intros H; by apply VStr_inj in H].
  - eexists _, _. split; [by apply table_buildDashboardRow_run|].
    split; [reflexivity|].
    destruct (field m "text") as [| |b|z|s|xs|o]; try discriminate Htext;
      cbn [coalesce truthy toString]; try done.
    by destruct s.
Qed.

Lemma row_body_emptiness_witness :
  heap (World {[ 1%positive := sampleEmptyText ]} tt) !! 1%positive = Some sampleEmptyText
  ∧ messageOk sampleEmptyText = true
  ∧ textual (field sampleEmptyText "text") = true
  ∧ ∃ el w' avatar header attachments,
      Card.buildEntityRow 1%positive None VUndef sampleOptions
        (World {[ 1%positive := sampleEmptyText ]} tt) = Ok (el, w')
      ∧ innerHTML el = Card.entityHtml avatar header attachments [].
Proof.
  split; [apply lookup_singleton_eq|]. split; [evaluate|]. split; [evaluate|].
  destruct (row_body_emptiness 1%positive None VUndef sampleOptions
              (World {[ 1%positive := sampleEmptyText ]} tt) sampleEmptyText)
    as (_ & (el & header & body & Hrun & Hhtml & Hbody) & _);
    [apply lookup_singleton_eq|evaluate|evaluate|].
  assert (body = []) as Hempty by (apply Hbody; evaluate).
  rewrite Hempty in Hhtml.
  eexists el, _, _, header, _. split; [exact Hrun|exact Hhtml].
Defined.

(** ** Author line and identifiers *)

Lemma coalesce_dash (v : value) :
  toString (coalesce v (VStr (str "—"))) = if nullish v then str "—" else toString v.
Proof. by destruct v. Qed.

Lemma replyAuthorLabelOf_eq (reply : value) :
  replyAuthorLabelOf reply
  = VStr (if truthy (prop reply "from_name")
          then toString (prop reply "from_name") ++ str " (ID: "
               ++ (if nullish (prop reply "from_id") then str "—"
                   else toString (prop reply "from_id"))
               ++ str ")"
          else if truthy (prop reply "from_id")
          then str "ID: " ++ toString (prop reply "from_id")
          else str "Автор неизвестен").
Proof.
  unfold replyAuthorLabelOf. rewrite coalesce_dash.
  by destruct (truthy (prop reply "from_name")), (truthy (prop reply "from_id")).
Qed.

Lemma nonempty_truthy (s : jsstring) : s ≠ [] → truthy (VStr s) = true.
Proof. by destruct s. Qed.

(** X16: the author line of a detailed preview.  With an author name it is
    the name followed by the author id in brackets, where only a null or
    absent id is shown as the dash (an id of 0 is printed); without a name it
    is the id alone when the id is truthy, and 'Автор неизвестен' otherwise.
    The line is never empty, so the dash that [buildAvatarLabel] keeps for an
    empty label is never what a detailed preview shows. *)
Theorem detailed_preview_author (reply : value) (options : obj) :
  textOk reply = true →
  previewEmpty reply options = false →
  detailedMode options = true →
  let name := prop reply "from_name" in
  let from_id := prop reply "from_id" in
  let avatar := prop reply "from_avatar" in
  ∃ author,
    buildReplyPreview reply options =
      Ok (detailedBlock
            (replyLinkOf reply (field options "peerId")
               (coalesce (prop reply "id") (VStr (str "—"))))
            (replyAttachmentsLabelOf reply) (textSegment reply)
            (toString (buildAvatarLabel (VStr author) avatar)))
    ∧ author =
        (if truthy name
         then toString name ++ str " (ID: "
              ++ (if nullish from_id then str "—" else toString from_id) ++ str ")"
         else if truthy from_id then str "ID: " ++ toString from_id
         else str "Автор неизвестен")
    ∧ author ≠ []
    ∧ buildAvatarLabel (VStr author) avatar =
        (if truthy avatar then VStr (avatarSpan avatar (VStr author)) else VStr author).
Proof.
  intros Hok Hfull Hmode name from_id avatar.
  eexists. split; [|split; [reflexivity|]].
  - rewrite (buildReplyPreview_eq _ _ Hok). unfold previewOf.
    rewrite Hfull, Hmode, replyAuthorLabelOf_eq. reflexivity.
  - match goal with |- ?a ≠ [] ∧ _ => assert (a ≠ []) as Hne end.
    { intros Hnil. apply (f_equal length) in Hnil.
      destruct (truthy name); [|destruct (truthy from_id)].
      - rewrite !length_app in Hnil. change (length (str ")")) with 1 in Hnil.
        cbn [length] in Hnil. lia.
      - rewrite length_app in Hnil. change (length (str "ID: ")) with 4 in Hnil.
        cbn [length] in Hnil. lia.
      - vm_compute in Hnil. discriminate Hnil. }
    split; [exact Hne|].
    unfold buildAvatarLabel. cbv zeta.
    rewrite (or_truthy _ _ (nonempty_truthy _ Hne)). reflexivity.
Qed.

Lemma detailed_preview_author_witness :
  textOk sampleReply = true
  ∧ previewEmpty sampleReply (detailedOptions (VNum 5)) = false
  ∧ detailedMode (detailedOptions (VNum 5)) = true
  ∧ buildReplyPreview sampleReply (detailedOptions (VNum 5)) =
      Ok (detailedBlock
            (replyLinkOf sampleReply (VNum 5) (VNum 7))
            (replyAttachmentsLabelOf sampleReply) (str "hi") (str "Автор неизвестен")).
Proof.
  split; [evaluate|]. split; [evaluate|]. split; [evaluate|].
  destruct (detailed_preview_author sampleReply (detailedOptions (VNum 5)))
    as (author & Hrun & Hauthor & _); [evaluate|evaluate|evaluate|].
  rewrite Hrun, Hauthor. evaluate.
Defined.

Lemma deleteButton_inj (a b : jsstring) :
  html "<button type='button' class='btn btn-sm btn-outline-danger delete-log-btn' data-log-id='"
    ++ a ++ html "'>Удалить</button>"
  = html "<button type='button' class='btn btn-sm btn-outline-danger delete-log-btn' data-log-id='"
    ++ b ++ html "'>Удалить</button>"
  → a = b.
Proof. intros H. apply app_inv_head in H. by apply app_inv_tail in H. Qed.

Lemma toString_nullish_ne_dash (v : value) : nullish v = true → toString v ≠ str "—".
Proof.
  destruct v; try discriminate; intros _ H; vm_compute in H; discriminate H.
Qed.

(** X17: the identifiers of a Log row, in both layouts.  The message id and
    the record id are each shown as the dash exactly when null or absent (an
    id of 0 is printed), the flag reads 'Да' exactly when [is_bot] is truthy,
    and the delete control always carries the raw record id: it names the
    same id as the record cell exactly when the id is neither null nor
    absent. *)
Theorem logs_identifiers {G} (log : loc) (galleryApi : option (GalleryApi G))
    (galleryKey : value) (options : RowOptions) (w : world G) (m : obj) :
  heap w !! log = Some m →
  messageOk m = true →
  let w' := afterRegistration galleryApi galleryKey m w in
  let shown (v : value) := if nullish v then str "—" else toString v in
  let control (id : jsstring) :=
    html "<button type='button' class='btn btn-sm btn-outline-danger delete-log-btn' data-log-id='"
    ++ id ++ html "'>Удалить</button>" in
  ∃ card row flag vkId recordId button,
    Card.buildLogsRow log galleryApi galleryKey options w = Ok (card, w')
    ∧ Table.buildLogsRow log galleryApi galleryKey options w = Ok (row, w')
    ∧ innerHTML card =
        Card.logsHtml (avatarColOf m) (toString (buildPeerCell m allowLinkOptions))
          (toString (formatDateOf options (field m "created_at")))
          (buildSenderCell m senderOptions) flag
          (Card.replyBlock (hasReplyOf (field m "reply"))
             (previewOf (field m "reply") (detailedOptions (field m "peer_id"))))
          (Card.attachmentsBlock
             (hasAttachmentsOf (attachmentsOf galleryApi m) (copyHistoryOf galleryApi m))
             (contentCellOf (VStr []) galleryApi (gallery w') galleryKey m))
          (toString (or_ (coalesce (field m "text") (VStr [])) (VStr placeholder)))
          vkId recordId button
    ∧ innerHTML row =
        Table.logsHtml (toString (formatDateOf options (field m "created_at")))
          (toString (buildPeerCell m allowLinkOptions))
          (buildSenderCell m senderOptions) flag
          (previewOf (field m "reply") (detailedOptions (field m "peer_id")))
          (toString (contentCellOf (VStr placeholder) galleryApi (gallery w') galleryKey m))
          (toString (coalesce (field m "text") (VStr [])))
          vkId recordId button
    ∧ (flag = str "Да" ↔ truthy (field m "is_bot") = true)
    ∧ (flag = str "Нет" ↔ truthy (field m "is_bot") = false)
    ∧ vkId = shown (field m "message_id")
    ∧ recordId = shown (field m "id")
    ∧ button = control (toString (field m "id"))
    ∧ (button = control recordId ↔ nullish (field m "id") = false).
Proof.
  intros Hm Hok w' shown control.
  eexists _, _, (botFlagOf m), _, _, (deleteButtonOf m).
  split; [by apply card_buildLogsRow_run|].
  split; [by apply table_buildLogsRow_run|].
  split; [reflexivity|]. split; [reflexivity|].
  split; [|split; [|split; [apply coalesce_dash|split; [apply coalesce_dash|]]]].
  - unfold botFlagOf. destruct (truthy (field m "is_bot")); [done|].
    split; [|done]. intros H. vm_compute in H. discriminate H.
  - unfold botFlagOf. destruct (truthy (field m "is_bot")); [|done].
    split; [|done]. intros H. vm_compute in H. discriminate H.
  - split; [reflexivity|].
    unfold deleteButtonOf, control, shown. rewrite coalesce_dash.
    destruct (nullish (field m "id")) eqn:Hid; [|done].
    split; [|done]. intros H. apply deleteButton_inj in H.
    by apply toString_nullish_ne_dash in H.
Qed.

Lemma logs_identifiers_witness :
  heap sampleWorld !! 1%positive = Some sampleMessage
  ∧ messageOk sampleMessage = true
  ∧ ∃ card row w' recordId button,
      Card.buildLogsRow 1%positive None VUndef sampleOptions sampleWorld = Ok (card, w')
      ∧ Table.buildLogsRow 1%positive None VUndef sampleOptions sampleWorld = Ok (row, w')
      ∧ recordId = str "—"
      ∧ button =
          html "<button type='button' class='btn btn-sm btn-outline-danger delete-log-btn' data-log-id='undefined'>Удалить</button>".
Proof.
  split; [exact sampleWorld_message|]. split; [exact sampleMessage_ok|].
  destruct (logs_identifiers 1%positive None VUndef sampleOptions sampleWorld sampleMessage
              sampleWorld_message sampleMessage_ok)
    as (card & row & flag & vkId & recordId & button & Hcard & Hrow & _ & _ & _ & _ & _
        & Hrecord & Hbutton & _).
  eexists card, row, _, recordId, button.
  split; [exact Hcard|]. split; [exact Hrow|].
  split; [rewrite Hrecord; evaluate|rewrite Hbutton; evaluate].
Defined.

(** X18: in the table layout the Log row always has a reply cell, filled with
    the detailed preview built for the log's own [peer_id]: the cell is the
    placeholder exactly when the reply is absent or has neither id, text nor
    author id, so a reply known by its id alone is shown there; and for a
    reply with an id the reference is a link exactly when the log's
    [peer_id] is truthy. *)
Theorem table_logs_reply_cell {G} (log : loc) (galleryApi : option (GalleryApi G))
    (galleryKey : value) (options : RowOptions) (w : world G) (m : obj) :
  heap w !! log = Some m →
  messageOk m = true →
  let reply := field m "reply" in
  let w' := afterRegistration galleryApi galleryKey m w in
  ∃ row preview,
    Table.buildLogsRow log galleryApi galleryKey options w = Ok (row, w')
    ∧ buildReplyPreview reply (detailedOptions (field m "peer_id")) = Ok preview
    ∧ innerHTML row =
        Table.logsHtml (toString (formatDateOf options (field m "created_at")))
          (toString (buildPeerCell m allowLinkOptions))
          (buildSenderCell m senderOptions) (botFlagOf m) preview
          (toString (contentCellOf (VStr placeholder) galleryApi (gallery w') galleryKey m))
          (toString (coalesce (field m "text") (VStr [])))
          (toString (coalesce (field m "message_id") (VStr (str "—"))))
          (toString (coalesce (field m "id") (VStr (str "—"))))
          (deleteButtonOf m)
    ∧ (preview = placeholder ↔
         truthy reply && (truthy (prop reply "id") || truthy (prop reply "text")
                          || truthy (prop reply "from_id")) = false)
    ∧ (truthy reply = true → truthy (prop reply "id") = true →
       ∃ reference,
         preview = detailedBlock reference (replyAttachmentsLabelOf reply)
                     (textSegment reply)
                     (toString (buildAvatarLabel (replyAuthorLabelOf reply)
                                                 (prop reply "from_avatar")))
         ∧ (head reference = Some 60%N ↔ truthy (field m "peer_id") = true)).
Proof.
  intros Hm Hok reply w'.
  exists (Element "tr" (markDeleted m [])
            (Table.logsHtml (toString (formatDateOf options (field m "created_at")))
               (toString (buildPeerCell m allowLinkOptions))
               (buildSenderCell m senderOptions) (botFlagOf m)
               (previewOf reply (detailedOptions (field m "peer_id")))
               (toString (contentCellOf (VStr placeholder) galleryApi (gallery w')
                            galleryKey m))
               (toString (coalesce (field m "text") (VStr [])))
               (toString (coalesce (field m "message_id") (VStr (str "—"))))
               (toString (coalesce (field m "id") (VStr (str "—"))))
               (deleteButtonOf m))),
         (previewOf reply (detailedOptions (field m "peer_id"))).
  split; [by apply table_buildLogsRow_run|].
  split; [by apply buildReplyPreview_eq|].
  split; [reflexivity|]. split.
  - rewrite previewOf_placeholder. unfold previewEmpty.
    rewrite detailedMode_detailedOptions.
    destruct (truthy reply), (truthy (prop reply "id")), (truthy (prop reply "text")),
      (truthy (prop reply "from_id")); cbn [andb orb negb]; intuition congruence.
  - intros Hreply Hid. eexists. split.
    + unfold previewOf, previewEmpty.
      rewrite detailedMode_detailedOptions, Hreply, Hid. cbn [negb andb orb].
      reflexivity.
    + unfold detailedOptions. rewrite field_insert_eq.
      unfold replyLinkOf. rewrite truthy_and_, Hid. cbn [andb].
      destruct (truthy (field m "peer_id")).
      * split; [done|]. intros _. rewrite head_app. evaluate.
      * split; [|done]. rewrite head_app. vm_compute. discriminate.
Qed.

Lemma table_logs_reply_cell_witness :
  heap (World {[ 1%positive := sampleIdOnlyLog ]} tt) !! 1%positive = Some sampleIdOnlyLog
  ∧ messageOk sampleIdOnlyLog = true
  ∧ ∃ row w' preview,
      Table.buildLogsRow 1%positive None VUndef sampleOptions
        (World {[ 1%positive := sampleIdOnlyLog ]} tt) = Ok (row, w')
      ∧ buildReplyPreview (field sampleIdOnlyLog "reply")
          (detailedOptions (field sampleIdOnlyLog "peer_id")) = Ok preview
      ∧ preview ≠ placeholder.
Proof.
  split; [apply lookup_singleton_eq|]. split; [evaluate|].
  destruct (table_logs_reply_cell 1%positive None VUndef sampleOptions
              (World {[ 1%positive := sampleIdOnlyLog ]} tt) sampleIdOnlyLog)
    as (row & preview & Hrun & Hpreview & _ & Hplaceholder & _);
    [apply lookup_singleton_eq|evaluate|].
  eexists row, _, preview. split; [exact Hrun|]. split; [exact Hpreview|].
  intros H. apply Hplaceholder in H. vm_compute in H. discriminate H.
Defined.

(** * The bot badge of the reply preview *)

(** ** Data free of the badge's class name *)

Lemma string_of_uint_small (d : Decimal.uint) :
  Forall (λ b, (b < 64)%N) (bytes_of (NilEmpty.string_of_uint d)).
Proof.
  induction d; cbn [NilEmpty.string_of_uint bytes_of];
    first [apply Forall_nil_2 | apply Forall_cons; split; [by vm_compute|done]].
Qed.

Lemma string_of_int_small (d : Decimal.int) :
  Forall (λ b, (b < 64)%N) (bytes_of (NilZero.string_of_int d)).
Proof.
  assert (∀ u, Forall (λ b, (b < 64)%N) (bytes_of (NilZero.string_of_uint u))) as Hu.
  { intros u. destruct u; try apply string_of_uint_small.
    apply Forall_cons; split; [by vm_compute|apply Forall_nil_2]. }
  destruct d; cbn [NilZero.string_of_int bytes_of]; [apply Hu|].
  apply Forall_cons; split; [by vm_compute|apply Hu].
Qed.

(** A number prints in digits and the minus sign. *)
Lemma num_str_small (z : Z) : Forall (λ c, (c < 64)%N) (num_str z).
Proof.
  unfold num_str. with_strategy transparent [str] unfold str.
  rewrite utf16_ascii by apply string_of_int_ascii. apply string_of_int_small.
Qed.

Lemma containsb_foreign_head (p l : jsstring) (c : N) :
  head p = Some c → c ∉ l → containsb p l = false.
Proof.
  intros Hhead Hc. apply not_true_iff_false. rewrite containsb_spec.
  intros (a & b & ->). destruct p as [|x p]; [discriminate Hhead|].
  cbn [head] in Hhead. injection Hhead as ->. apply Hc. set_solver.
Qed.

Lemma num_str_badgeFree (z : Z) : containsb badgeClass (num_str z) = false.
Proof.
  apply (containsb_foreign_head _ _ 115%N); [evaluate|].
  intros Hin. pose proof (num_str_small z) as Hsmall.
  rewrite Forall_forall in Hsmall. apply Hsmall in Hin. lia.
Qed.

Lemma containsb_take (p l : jsstring) (n : nat) :
  containsb p l = false → containsb p (take n l) = false.
Proof.
  intros Hl. apply not_true_iff_false. apply not_true_iff_false in Hl.
  rewrite containsb_spec in *. intros (a & b & Heq). apply Hl.
  exists a, (b ++ drop n l).
  transitivity (take n l ++ drop n l); [symmetry; apply take_drop|].
  rewrite Heq. by rewrite <- !app_assoc.
Qed.

(** String literals, cut at their outer characters. *)
Ltac cut_string lit inner :=
  replace (str lit) with inner by evaluate.

Ltac foreign_char :=
  let H := fresh in
  intros H; apply list_elem_of_In in H; vm_compute in H; intuition discriminate.

Ltac split_at_chars :=
  repeat first [rewrite <- app_assoc | progress cbn [app]];
  repeat first
    [ apply containsb_app_sep; [foreign_char | first [assumption | evaluate] | ]
    | match goal with
      | |- containsb _ (?c :: ?l) = false =>
        apply (containsb_app_sep _ [] l c); [foreign_char | evaluate | ]
      end ];
  first [assumption | evaluate].

Lemma replyAuthorLine_nonempty (reply : value) :
  (if truthy (prop reply "from_name")
   then toString (prop reply "from_name") ++ str " (ID: "
        ++ (if nullish (prop reply "from_id") then str "—"
            else toString (prop reply "from_id"))
        ++ str ")"
   else if truthy (prop reply "from_id")
   then str "ID: " ++ toString (prop reply "from_id")
   else str "Автор неизвестен") ≠ [].
Proof.
  intros Hnil. apply (f_equal length) in Hnil.
  destruct (truthy (prop reply "from_name")); [|destruct (truthy (prop reply "from_id"))].
  - rewrite !length_app in Hnil. change (length (str ")")) with 1 in Hnil.
    cbn [length] in Hnil. lia.
  - rewrite length_app in Hnil. change (length (str "ID: ")) with 4 in Hnil.
    cbn [length] in Hnil. lia.
  - vm_compute in Hnil. discriminate Hnil.
Qed.

Lemma replyAuthorLabelOf_truthy (reply : value) :
  truthy (replyAuthorLabelOf reply) = true.
Proof.
  rewrite replyAuthorLabelOf_eq. apply nonempty_truthy, replyAuthorLine_nonempty.
Qed.

Section BadgeFree.
Context (reply peerId : value).
Hypothesis Hid : containsb badgeClass (toString (prop reply "id")) = false.
Hypothesis Htext : containsb badgeClass (toString (prop reply "text")) = false.
Hypothesis Hfrom_id : containsb badgeClass (toString (prop reply "from_id")) = false.
Hypothesis Hfrom_name : containsb badgeClass (toString (prop reply "from_name")) = false.
Hypothesis Hfrom_avatar :
  containsb badgeClass (toString (prop reply "from_avatar")) = false.
Hypothesis HpeerId : containsb badgeClass (toString peerId) = false.

Lemma replyLinkOf_badgeFree :
  containsb badgeClass
    (replyLinkOf reply peerId (coalesce (prop reply "id") (VStr (str "—")))) = false.
Proof using Hid HpeerId.
  unfold replyLinkOf. destruct (truthy (and_ (prop reply "id") peerId)).
  - cut_literal "<a href='https://vk.com/im?sel="
      (html "<a href='https://vk.com/im?sel" ++ [61%N]).
    cut_literal "&msgid=" (38%N :: html "msgid" ++ [61%N]).
    cut_literal "' target='_blank' rel='noopener noreferrer'>#"
      (34%N :: html " target='_blank' rel='noopener noreferrer'>" ++ [35%N]).
    cut_literal "</a>" (60%N :: html "/a>").
    split_at_chars.
  - rewrite coalesce_dash. cut_string "#" [35%N].
    destruct (nullish (prop reply "id")); split_at_chars.
Qed.

Lemma replyAttachmentsLabelOf_badgeFree :
  containsb badgeClass (replyAttachmentsLabelOf reply) = false.
Proof using Type.
  unfold replyAttachmentsLabelOf.
  destruct (truthy _); [|evaluate]. cbn [toString].
  match goal with |- context [num_str ?z] => pose proof (num_str_badgeFree z) end.
  cut_string " влож." (32%N :: str "влож.").
  split_at_chars.
Qed.

Lemma textSegment_badgeFree : containsb badgeClass (textSegment reply) = false.
Proof using Htext.
  unfold textSegment. destruct (prop reply "text") as [| |b|z|s|xs|o]; try evaluate.
  destruct s as [|c s]; [evaluate|]. by apply containsb_take.
Qed.

Lemma replyAuthorName_badgeFree :
  containsb badgeClass
    (toString (or_ (prop reply "from_name") (VStr (str "Автор не указан")))) = false.
Proof using Hfrom_name.
  unfold or_. destruct (truthy (prop reply "from_name")); [assumption|evaluate].
Qed.

Lemma replyAuthorCell_badgeFree :
  containsb badgeClass
    (toString (buildAvatarLabel (replyAuthorLabelOf reply) (prop reply "from_avatar")))
  = false.
Proof using Hfrom_id Hfrom_name Hfrom_avatar.
  assert (containsb badgeClass (toString (replyAuthorLabelOf reply)) = false) as Hline.
  { rewrite replyAuthorLabelOf_eq. cbn [toString].
    destruct (truthy (prop reply "from_name")); [|destruct (truthy (prop reply "from_id"))].
    - cut_string " (ID: " (32%N :: str "(ID:" ++ [32%N]). cut_string ")" [41%N].
      destruct (nullish (prop reply "from_id")); split_at_chars.
    - cut_string "ID: " (str "ID:" ++ [32%N]). split_at_chars.
    - evaluate. }
  unfold buildAvatarLabel. rewrite (or_truthy _ _ (replyAuthorLabelOf_truthy reply)).
  destruct (truthy (prop reply "from_avatar")); [|exact Hline].
  cbn [toString]. unfold avatarSpan.
  cut_literal "<span class='d-inline-flex align-items-center gap-2'><img src='"
    (html "<span class='d-inline-flex align-items-center gap-2'><img src=" ++ [34%N]).
  cut_literal "' alt='Аватар' class='avatar-inline' loading='lazy' /> <span>"
    (34%N :: html " alt='Аватар' class='avatar-inline' loading='lazy' /> <span"
     ++ [62%N]).
  cut_literal "</span></span>" (60%N :: html "/span></span>").
  split_at_chars.
Qed.

End BadgeFree.

(** ** The claim *)

(** C6, as stated, fails on a reply whose text is itself the markup of the
    badge (the layer prints the text as it is): both previews of this reply,
    whose bot flag is absent, hold a bot badge. *)
Lemma reply_text_carries_badge :
  truthy (prop sampleBadgeTextReply "is_bot") = false
  ∧ buildReplyPreview sampleBadgeTextReply (detailedOptions VUndef) =
      Ok (html "<div class='d-flex flex-column gap-1'><div class='d-flex align-items-center gap-2'>#—<span class='text-secondary small'>Без вложений</span></div><div class='text-secondary small'><span class='sender-badge'>Бот</span></div><div class='text-secondary small'>Автор неизвестен</div></div>")
  ∧ containsb (html "<span class='sender-badge'>Бот</span>")
      (html "<div class='d-flex flex-column gap-1'><div class='d-flex align-items-center gap-2'>#—<span class='text-secondary small'>Без вложений</span></div><div class='text-secondary small'><span class='sender-badge'>Бот</span></div><div class='text-secondary small'>Автор неизвестен</div></div>")
    = true
  ∧ buildReplyPreview sampleBadgeTextReply compactOptions =
      Ok (html "<div class='d-flex flex-column gap-1'><div class='text-secondary small'>Ответ на предыдущее сообщение</div><div class='text-light small'><span class='sender-badge'>Бот</span></div><div class='d-flex align-items-center gap-2 text-secondary small'>Автор не указан</div></div>")
  ∧ containsb (html "<span class='sender-badge'>Бот</span>")
      (html "<div class='d-flex flex-column gap-1'><div class='text-secondary small'>Ответ на предыдущее сообщение</div><div class='text-light small'><span class='sender-badge'>Бот</span></div><div class='d-flex align-items-center gap-2 text-secondary small'>Автор не указан</div></div>")
    = true.
Proof. repeat split; evaluate. Qed.

(** C6, amended: for a reply with content whose printed data (id, text,
    author id, author name, avatar URL, and the peer id of the options) does
    not carry the class name of the badge, the detailed preview, written out
    below, holds no bot badge and is the same whatever the reply's bot flag
    is; the compact preview ends its author segment with the bot badge, and
    holds one, exactly when the reply's bot flag is truthy; no
    [showBotBadge] option changes either. *)
Theorem buildReplyPreview_bot_badge (r : obj) (options : obj) :
  textOk (VObj r) = true →
  previewEmpty (VObj r) options = false →
  forallb (λ name, badgeFree (field r name)) printedReplyFields = true →
  badgeFree (field options "peerId") = true →
  let badge := html "<span class='sender-badge'>Бот</span>" in
  let text :=
    match field r "text" with
    | VStr (c :: s) => take 120 (c :: s)
    | _ => str "Без текста"
    end in
  let detailedHtml :=
    html "<div class='d-flex flex-column gap-1'><div class='d-flex align-items-center gap-2'>"
    ++ replyLinkOf (VObj r) (field options "peerId")
         (coalesce (field r "id") (VStr (str "—")))
    ++ html "<span class='text-secondary small'>" ++ replyAttachmentsLabelOf (VObj r)
    ++ html "</span></div><div class='text-secondary small'>" ++ text
    ++ html "</div><div class='text-secondary small'>"
    ++ toString (buildAvatarLabel (replyAuthorLabelOf (VObj r)) (field r "from_avatar"))
    ++ html "</div></div>" in
  let compactHtml (flagged : bool) :=
    html "<div class='d-flex flex-column gap-1'><div class='text-secondary small'>Ответ на предыдущее сообщение</div><div class='text-light small'>"
    ++ text
    ++ html "</div><div class='d-flex align-items-center gap-2 text-secondary small'>"
    ++ toString (or_ (field r "from_name") (VStr (str "Автор не указан")))
    ++ (if flagged then badge else [])
    ++ html "</div></div>" in
  (detailedMode options = true →
     buildReplyPreview (VObj r) options = Ok detailedHtml
     ∧ containsb badge detailedHtml = false
     ∧ ∀ flag, buildReplyPreview (VObj (<["is_bot" := flag]> r)) options
               = Ok detailedHtml)
  ∧ (detailedMode options = false →
     buildReplyPreview (VObj r) options = Ok (compactHtml (truthy (field r "is_bot")))
     ∧ containsb badge (compactHtml true) = true
     ∧ containsb badge (compactHtml false) = false
     ∧ compactHtml true ≠ compactHtml false)
  ∧ (∀ showBotBadge,
       buildReplyPreview (VObj r) (<["showBotBadge" := showBotBadge]> options)
       = buildReplyPreview (VObj r) options).
Proof.
  intros Hok Hfull Hdata HpeerId badge text detailedHtml compactHtml.
  unfold badgeFree in HpeerId. apply negb_true_iff in HpeerId.
  cbn [forallb printedReplyFields] in Hdata. unfold badgeFree in Hdata.
  rewrite !andb_true_iff, !negb_true_iff in Hdata.
  destruct Hdata as (Hid & Htext & Hfrom_id & Hfrom_name & Hfrom_avatar & _).
  assert (detailedMode options = true →
          buildReplyPreview (VObj r) options = Ok detailedHtml) as Hdetailed.
  { intros Hmode. rewrite (buildReplyPreview_eq _ _ Hok). unfold previewOf.
    by rewrite Hfull, Hmode. }
  split; [|split].
  - intros Hmode. split; [by apply Hdetailed|]. split.
    + apply (detailedBlock_no_badge
               (replyLinkOf (VObj r) (field options "peerId")
                  (coalesce (field r "id") (VStr (str "—"))))
               (replyAttachmentsLabelOf (VObj r)) text
               (toString (buildAvatarLabel (replyAuthorLabelOf (VObj r))
                                           (field r "from_avatar")))).
      * by apply replyLinkOf_badgeFree.
      * apply replyAttachmentsLabelOf_badgeFree.
      * by apply (textSegment_badgeFree (VObj r)).
      * by apply (replyAuthorCell_badgeFree (VObj r)).
    + intros flag. rewrite <- (Hdetailed Hmode).
      unfold buildReplyPreview, replyTextOf, replyAuthorLabelOf, replyLinkOf,
        replyAttachmentsLabelOf.
      fold (detailedMode options). rewrite Hmode. cbn [prop truthy negb].
      by rewrite !field_insert_ne.
  - intros Hmode. split; [|split; [|split]].
    + rewrite (buildReplyPreview_eq _ _ Hok). unfold previewOf.
      rewrite Hfull, Hmode. unfold compactHtml, compactBlock. cbn [prop].
      destruct (truthy (field r "is_bot")); reflexivity.
    + apply (compactBlock_has_badge text
               (toString (or_ (field r "from_name") (VStr (str "Автор не указан"))))).
    + apply (compactBlock_no_badge text
               (toString (or_ (field r "from_name") (VStr (str "Автор не указан"))))).
      * by apply (textSegment_badgeFree (VObj r)).
      * by apply (replyAuthorName_badgeFree (VObj r)).
    + intros H. unfold compactHtml in H.
      do 4 apply app_inv_head in H. apply app_inv_tail in H.
      vm_compute in H. discriminate H.
  - intros showBotBadge. unfold buildReplyPreview.
    by rewrite !field_insert_ne.
Qed.

Lemma buildReplyPreview_bot_badge_witness :
  textOk (VObj sampleBotReply) = true
  ∧ previewEmpty (VObj sampleBotReply) compactOptions = false
  ∧ previewEmpty (VObj sampleBotReply) (detailedOptions (VNum 5)) = false
  ∧ forallb (λ name, badgeFree (field sampleBotReply name)) printedReplyFields = true
  ∧ badgeFree (field compactOptions "peerId") = true
  ∧ badgeFree (field (detailedOptions (VNum 5)) "peerId") = true
  ∧ buildReplyPreview (VObj sampleBotReply) compactOptions =
      Ok (html "<div class='d-flex flex-column gap-1'><div class='text-secondary small'>Ответ на предыдущее сообщение</div><div class='text-light small'>hi</div><div class='d-flex align-items-center gap-2 text-secondary small'>Автор не указан<span class='sender-badge'>Бот</span></div></div>")
  ∧ buildReplyPreview (VObj sampleBotReply) (detailedOptions (VNum 5)) =
      Ok (html "<div class='d-flex flex-column gap-1'><div class='d-flex align-items-center gap-2'>#—<span class='text-secondary small'>Без вложений</span></div><div class='text-secondary small'>hi</div><div class='text-secondary small'>Автор неизвестен</div></div>")
  ∧ containsb (html "<span class='sender-badge'>Бот</span>")
      (html "<div class='d-flex flex-column gap-1'><div class='d-flex align-items-center gap-2'>#—<span class='text-secondary small'>Без вложений</span></div><div class='text-secondary small'>hi</div><div class='text-secondary small'>Автор неизвестен</div></div>")
    = false.
Proof.
  split; [evaluate|]. split; [evaluate|]. split; [evaluate|].
  split; [evaluate|]. split; [evaluate|]. split; [evaluate|].
  destruct (buildReplyPreview_bot_badge sampleBotReply compactOptions)
    as (_ & Hcompact & _); [evaluate|evaluate|evaluate|evaluate|].
  destruct (buildReplyPreview_bot_badge sampleBotReply (detailedOptions (VNum 5)))
    as (Hdetailed & _ & _); [evaluate|evaluate|evaluate|evaluate|].
  destruct Hcompact as (Hrun & _); [evaluate|].
  destruct Hdetailed as (Hrun' & Hclean & _); [evaluate|].
  split; [rewrite Hrun; evaluate|].
  split; [rewrite Hrun'; evaluate|].
  etransitivity; [|exact Hclean]. evaluate.
Defined.

(** * Totality and defaults *)

(** ** Printing *)

(** On a printable value ToString returns, and returns what [toString]
    gives. *)
Lemma toStringJS_printable (v : value) :
  printable v = true → toStringJS v = Ok (toString v).
Proof.
  revert v. fix IH 1. intros [| |b|z|s|xs|o]; try reflexivity.
  - cbn [printable toStringJS toString].
    induction xs as [|x xs IHxs]; [reflexivity|].
    intros H. apply andb_true_iff in H as [Hx Hxs].
    specialize (IHxs Hxs). specialize (IH x Hx).
    destruct xs as [|y ys].
    + destruct x; first [exact IH | reflexivity].
    + rewrite IHxs. destruct x; first [by rewrite IH | reflexivity].
  - cbn [printable toStringJS toString]. by intros ->.
Qed.

(** A record with a property of its own named [toString] does not print. *)
Example own_toString_raises :
  toStringJS (VObj {[ "toString" := VNum 1 ]}) = TypeError
  ∧ toStringJS (VArr [VStr (str "a"); VObj {[ "toString" := VNull ]}]) = TypeError
  ∧ toStringJS (VObj {[ "valueOf" := VNum 1 ]}) = Ok (str "[object Object]").
Proof. repeat split; evaluate. Qed.

(** A text that is present with another type than its documented one makes
    the preview raise: numbers have no [slice]. *)
Example reply_text_number_throws :
  buildReplyPreview (VObj {[ "text" := VNum 5 ]}) ∅ = TypeError.
Proof. evaluate. Qed.

Lemma recordOk_messageOk (m : obj) : recordOk m = true → messageOk m = true.
Proof.
  unfold recordOk, replyOk, messageOk. rewrite !andb_true_iff. by intros (_ & ? & _).
Qed.

Lemma replyOk_textOk (reply : value) : replyOk reply = true → textOk reply = true.
Proof. unfold replyOk. rewrite andb_true_iff. by intros [? _]. Qed.

Lemma forallb_printable (f : string → value) (names : list string) :
  forallb (λ name, printable (f name)) names = true →
  Forall (λ v, toStringJS v = Ok (toString v)) (f <$> names).
Proof.
  induction names as [|name names IH]; cbn [forallb fmap list_fmap].
  - intros _. apply Forall_nil_2.
  - rewrite andb_true_iff. intros [Hname Hnames].
    apply Forall_cons. split; [by apply toStringJS_printable|by apply IH].
Qed.

(** ** Rendered forms *)

Lemma toString_or_ (v : value) (s : jsstring) :
  toString (or_ v (VStr s)) = if truthy v then toString v else s.
Proof. unfold or_. by destruct (truthy v). Qed.

Lemma toString_coalesce_empty (v : value) :
  toString (coalesce v (VStr [])) = if nullish v then [] else toString v.
Proof. by destruct v. Qed.

Lemma toString_buildAvatarLabel (label avatarUrl : value) :
  toString (buildAvatarLabel label avatarUrl) =
    if truthy avatarUrl
    then html "<span class='d-inline-flex align-items-center gap-2'><img src='"
         ++ toString avatarUrl
         ++ html "' alt='Аватар' class='avatar-inline' loading='lazy' /> <span>"
         ++ (if truthy label then toString label else str "—")
         ++ html "</span></span>"
    else if truthy label then toString label else str "—".
Proof.
  unfold buildAvatarLabel, avatarSpan.
  destruct (truthy avatarUrl); cbn [toString]; by rewrite toString_or_.
Qed.

Lemma replyLinkOf_rendered (reply peerId : value) :
  replyLinkOf reply peerId (coalesce (prop reply "id") (VStr (str "—"))) =
    if truthy (prop reply "id") && truthy peerId
    then html "<a href='https://vk.com/im?sel=" ++ toString peerId
         ++ html "&msgid=" ++ toString (prop reply "id")
         ++ html "' target='_blank' rel='noopener noreferrer'>#"
         ++ toString (prop reply "id") ++ html "</a>"
    else str "#" ++ (if nullish (prop reply "id") then str "—"
                     else toString (prop reply "id")).
Proof. unfold replyLinkOf. by rewrite truthy_and_, coalesce_dash. Qed.

Lemma replyAttachmentsLabelOf_rendered (reply : value) :
  replyAttachmentsLabelOf reply =
    match prop reply "attachments" with
    | VArr (x :: xs) => num_str (Z.of_nat (length (x :: xs))) ++ str " влож."
    | _ => str "Без вложений"
    end.
Proof.
  unfold replyAttachmentsLabelOf.
  destruct (prop reply "attachments") as [| |b|z|s|xs|o]; try reflexivity.
  destruct xs as [|x xs]; [reflexivity|].
  cbn [length truthy toString]. by destruct (Z.of_nat (S (length xs))) eqn:E.
Qed.

(** The card templates, line by line. *)
Lemma card_dashboardHtml_lines (avatar peerCell createdAt authorCell reply attachments
                                  body : jsstring) :
  Card.dashboardHtml avatar peerCell createdAt authorCell reply attachments body =
    joinWith nl
      [ [];
        html "      <div class='chat-avatar-col'>" ++ avatar ++ html "</div>";
        html "      <div class='chat-bubble'>";
        html "        <div class='chat-bubble-header'>";
        html "          <div class='chat-bubble-meta'>" ++ peerCell ++ html "</div>";
        html "          <div class='chat-bubble-time text-secondary'>" ++ createdAt
        ++ html "</div>";
        html "        </div>";
        html "        <div class='chat-bubble-author'>" ++ authorCell ++ html "</div>";
        html "        " ++ reply;
        html "        " ++ attachments;
        html "        <div class='chat-bubble-text'>" ++ body ++ html "</div>";
        html "      </div>";
        html "    " ].
Proof.
  unfold Card.dashboardHtml. cbn [joinWith]. rewrite <- !app_assoc, app_nil_l. reflexivity.
Qed.

Lemma card_logsHtml_lines (avatar peerCell createdAt authorCell botBadge reply attachments
                             body messageIdCell logIdCell deleteButton : jsstring) :
  Card.logsHtml avatar peerCell createdAt authorCell botBadge reply attachments body
    messageIdCell logIdCell deleteButton =
    joinWith nl
      [ [];
        html "      <div class='chat-avatar-col'>" ++ avatar ++ html "</div>";
        html "      <div class='chat-bubble'> ";
        html "        <div class='chat-bubble-header'>";
        html "          <div class='chat-bubble-meta'>" ++ peerCell ++ html "</div>";
        html "          <div class='chat-bubble-time text-secondary'>" ++ createdAt
        ++ html "</div>";
        html "        </div>";
        html "        <div class='chat-bubble-author'>" ++ authorCell ++ html "</div>";
        html "        <div class='chat-bubble-flags'>Бот: " ++ botBadge ++ html "</div>";
        html "        " ++ reply;
        html "        " ++ attachments;
        html "        <div class='chat-bubble-text'>" ++ body ++ html "</div>";
        html "        <div class='chat-bubble-footer'>";
        html "          <span class='badge bg-dark'>VK ID: " ++ messageIdCell
        ++ html "</span>";
        html "          <span class='badge bg-secondary'>Запись: " ++ logIdCell
        ++ html "</span> ";
        html "          " ++ deleteButton ++ html " ";
        html "        </div> ";
        html "      </div>";
        html "    " ].
Proof.
  unfold Card.logsHtml. cbn [joinWith]. rewrite <- !app_assoc, app_nil_l. reflexivity.
Qed.

Lemma card_entityHtml_lines (avatar header attachments textCell : jsstring) :
  Card.entityHtml avatar header attachments textCell =
    joinWith nl
      [ [];
        html "      <div class='chat-avatar-col'>" ++ avatar ++ html "</div>";
        html "      <div class='chat-bubble'>";
        html "        <div class='chat-bubble-header'>" ++ header ++ html "</div>";
        html "        " ++ attachments;
        html "        <div class='chat-bubble-text'>" ++ textCell ++ html "</div>";
        html "      </div>";
        html "    " ].
Proof.
  unfold Card.entityHtml. cbn [joinWith]. rewrite <- !app_assoc, app_nil_l. reflexivity.
Qed.

(** ** The claim *)

(** C1, as stated, fails on an absent record identifier: the Log row of the
    sample message, which has no [id], carries the text 'undefined' in its
    delete control, which is neither the placeholder nor a default label.
    In the same row the text, which is [null], is an empty cell. *)
Lemma absent_id_renders_undefined :
  sampleMessage !! "id" = None
  ∧ field sampleMessage "text" = VNull
  ∧ deleteButtonOf sampleMessage =
      html "<button type='button' class='btn btn-sm btn-outline-danger delete-log-btn' data-log-id='undefined'>Удалить</button>"
  ∧ ∃ el w',
      Table.buildLogsRow 1%positive None VUndef sampleOptions sampleWorld = Ok (el, w')
      ∧ innerHTML el =
          html "<td class='text-nowrap'>2024-01-01</td><td class='text-nowrap'><a href='/chat/5' target='_blank' class='text-decoration-none text-light d-inline-flex align-items-center gap-2'>Team</a></td><td class='text-nowrap'><div class='d-flex align-items-center gap-2 flex-wrap'><a href='/user/9' target='_blank' class='text-decoration-none text-light d-inline-flex align-items-center gap-2'>Bot1</a><span class='sender-badge'>Бот</span></div></td><td class='text-nowrap'>Да</td><td><span class='text-secondary'>—</span></td><td><span class='text-secondary'>—</span></td><td></td><td class='text-nowrap'>—</td><td class='text-nowrap'>—</td><td><button type='button' class='btn btn-sm btn-outline-danger delete-log-btn' data-log-id='undefined'>Удалить</button></td>".
Proof.
  split; [evaluate|]. split; [evaluate|]. split; [evaluate|]. eexists _, _.
  split; [apply (table_buildLogsRow_run _ _ _ _ _ sampleMessage);
          [exact sampleWorld_message|exact sampleMessage_ok]|].
  evaluate.
Qed.

(** C1, amended.  The record is one the layer can render: its reply text,
    when present, is a string, and no value that is printed has a property of
    its own named [toString]; the [formatDate] option, when given, and the
    content cell of the collaborator, when it builds one, return printable
    values.  Then every value the operations print prints without raising,
    every operation returns, and what it returns is written out below with
    each default in its place: the dash for an absent label, time (with the
    default formatter), reply id, author id, message id and record id;
    'Чат без названия', 'Неизвестный отправитель', 'Автор не указан' and
    'Автор неизвестен' for absent names; 'Без текста' and 'Без вложений' for
    an absent reply text and absent attachments; the placeholder for an
    absent reply and for an absent text in the card-layout Dashboard and Log
    rows, the dash in the Entity rows; no image, link or badge for an absent
    avatar, identifier or bot flag; no reply block and no attachment block in
    the card rows; an empty sequence and the layout's fallback cell for an
    absent collaborator operation.  Two fields do not degrade so: an absent
    text is an empty cell in the table-layout Dashboard and Log rows, and an
    absent record id is printed as it is in the delete control of the Log
    rows. *)
Theorem layer_total_with_defaults {G} (message : loc) (galleryApi : option (GalleryApi G))
    (galleryKey : value) (rowOptions : RowOptions) (options : obj)
    (reply label avatarUrl : value) (w : world G) (m : obj) :
  heap w !! message = Some m →
  recordOk m = true →
  replyOk reply = true →
  printable (field options "peerId") = true →
  printable label = true →
  printable avatarUrl = true →
  (∀ format v, formatDate rowOptions = Some format → printable (format v) = true) →
  (∀ build g attachments copyHistory,
     capability galleryApi buildContentCell = Some build →
     printable (build g attachments copyHistory galleryKey) = true) →
  let w' := afterRegistration galleryApi galleryKey m w in
  let dash := str "—" in
  let placeholderHtml := html "<span class='text-secondary'>—</span>" in
  let badgeHtml := html "<span class='sender-badge'>Бот</span>" in
  let shown (v : value) (default : jsstring) :=
    if truthy v then toString v else default in
  let orDash (v : value) := if nullish v then dash else toString v in
  let labelled (name : jsstring) (avatar : value) :=
    if truthy avatar
    then html "<span class='d-inline-flex align-items-center gap-2'><img src='"
         ++ toString avatar
         ++ html "' alt='Аватар' class='avatar-inline' loading='lazy' /> <span>"
         ++ name ++ html "</span></span>"
    else name in
  let peerHtml (allowLink : bool) :=
    let inner :=
      labelled (shown (field m "peer_title") (str "Чат без названия"))
               (field m "peer_avatar") in
    if allowLink && truthy (field m "peer_id")
    then html "<a href='/chat/" ++ toString (field m "peer_id")
         ++ html "' target='_blank' class='text-decoration-none text-light d-inline-flex align-items-center gap-2'>"
         ++ inner ++ html "</a>"
    else inner in
  let senderHtml (allowLink showBotBadge : bool) :=
    let inner :=
      labelled (shown (field m "from_name") (str "Неизвестный отправитель"))
               (field m "from_avatar") in
    html "<div class='d-flex align-items-center gap-2 flex-wrap'>"
    ++ (if allowLink && truthy (field m "from_id")
        then html "<a href='/user/" ++ toString (field m "from_id")
             ++ html "' target='_blank' class='text-decoration-none text-light d-inline-flex align-items-center gap-2'>"
             ++ inner ++ html "</a>"
        else inner)
    ++ (if truthy (field m "is_bot") && showBotBadge then badgeHtml else [])
    ++ html "</div>" in
  let previewHtml (r : value) (detailed : bool) (peerId : value) :=
    let segment :=
      match prop r "text" with
      | VStr (c :: s) => take 120 (c :: s)
      | _ => str "Без текста"
      end in
    let reference :=
      if truthy (prop r "id") && truthy peerId
      then html "<a href='https://vk.com/im?sel=" ++ toString peerId
           ++ html "&msgid=" ++ toString (prop r "id")
           ++ html "' target='_blank' rel='noopener noreferrer'>#"
           ++ toString (prop r "id") ++ html "</a>"
      else str "#" ++ orDash (prop r "id") in
    let count :=
      match prop r "attachments" with
      | VArr (x :: xs) => num_str (Z.of_nat (length (x :: xs))) ++ str " влож."
      | _ => str "Без вложений"
      end in
    let author :=
      if truthy (prop r "from_name")
      then toString (prop r "from_name") ++ str " (ID: " ++ orDash (prop r "from_id")
           ++ str ")"
      else if truthy (prop r "from_id") then str "ID: " ++ toString (prop r "from_id")
      else str "Автор неизвестен" in
    if negb (truthy r) then placeholderHtml
    else if detailed
    then if negb (truthy (prop r "id")) && negb (truthy (prop r "text"))
            && negb (truthy (prop r "from_id"))
         then placeholderHtml
         else html "<div class='d-flex flex-column gap-1'><div class='d-flex align-items-center gap-2'>"
              ++ reference ++ html "<span class='text-secondary small'>" ++ count
              ++ html "</span></div><div class='text-secondary small'>" ++ segment
              ++ html "</div><div class='text-secondary small'>"
              ++ labelled author (prop r "from_avatar") ++ html "</div></div>"
    else if negb (truthy (prop r "text")) && negb (truthy (prop r "from_name"))
         then placeholderHtml
         else html "<div class='d-flex flex-column gap-1'><div class='text-secondary small'>Ответ на предыдущее сообщение</div><div class='text-light small'>"
              ++ segment
              ++ html "</div><div class='d-flex align-items-center gap-2 text-secondary small'>"
              ++ shown (prop r "from_name") (str "Автор не указан")
              ++ (if truthy (prop r "is_bot") then badgeHtml else [])
              ++ html "</div></div>" in
  let time :=
    match formatDate rowOptions with
    | Some format => toString (format (field m "created_at"))
    | None => shown (field m "created_at") dash
    end in
  let avatarCol :=
    labelled (if truthy (field m "from_name") then toString (field m "from_name")
              else shown (field m "peer_title") dash)
             (if truthy (field m "from_avatar") then field m "from_avatar"
              else field m "peer_avatar") in
  let attachments :=
    match capability galleryApi extractAttachments with
    | Some extract => extract m
    | None => []
    end in
  let copyHistory :=
    match capability galleryApi extractCopyHistory with
    | Some extract => extract m
    | None => []
    end in
  let content (fallback : value) :=
    match capability galleryApi buildContentCell with
    | Some build => build (gallery w') attachments copyHistory galleryKey
    | None => fallback
    end in
  let hasReply :=
    truthy (field m "reply")
    && (truthy (prop (field m "reply") "text")
        || truthy (prop (field m "reply") "from_name")
        || truthy (prop (field m "reply") "from_id")) in
  let replySlot (preview : jsstring) :=
    if hasReply then html "<div class='chat-bubble-reply'>" ++ preview ++ html "</div>"
    else [] in
  let attachmentsSlot :=
    if (0 <? length attachments) || (0 <? length copyHistory)
    then html "<div class='chat-bubble-attachments'>" ++ toString (content (VStr []))
         ++ html "</div>"
    else [] in
  let compact := previewHtml (field m "reply") false VUndef in
  let detailed := previewHtml (field m "reply") true (field m "peer_id") in
  let cardBody := shown (field m "text") placeholderHtml in
  let tableBody := if nullish (field m "text") then [] else toString (field m "text") in
  let entityBody := orDash (field m "text") in
  let tableContent := toString (content (VStr placeholderHtml)) in
  let flag := if truthy (field m "is_bot") then str "Да" else str "Нет" in
  let vkId := orDash (field m "message_id") in
  let recordId := orDash (field m "id") in
  let control :=
    html "<button type='button' class='btn btn-sm btn-outline-danger delete-log-btn' data-log-id='"
    ++ toString (field m "id") ++ html "'>Удалить</button>" in
  let chat := truthy (showChatColumn rowOptions) in
  let sender := truthy (showSenderColumn rowOptions) in
  Forall (λ v, toStringJS v = Ok (toString v))
    ([label; avatarUrl; field options "peerId"]
     ++ (field m <$> printedFields)
     ++ (prop (field m "reply") <$> printedReplyFields)
     ++ (prop reply <$> printedReplyFields)
     ++ [formatDateOf rowOptions (field m "created_at");
         content (VStr []); content (VStr placeholderHtml)])
  ∧ toString (buildAvatarLabel label avatarUrl) = labelled (shown label dash) avatarUrl
  ∧ (∀ cellOptions,
       toString (buildPeerCell m cellOptions)
       = peerHtml (not_false (field cellOptions "allowLink")))
  ∧ (∀ cellOptions,
       buildSenderCell m cellOptions
       = senderHtml (not_false (field cellOptions "allowLink"))
                    (not_false (field cellOptions "showBotBadge")))
  ∧ buildReplyPreview reply options
    = Ok (previewHtml reply (detailedMode options) (field options "peerId"))
  ∧ Card.prepareGalleryContent message galleryApi galleryKey w
    = Ok ((content (VStr []), attachments, copyHistory), w')
  ∧ Table.prepareGalleryContent message galleryApi galleryKey w
    = Ok ((content (VStr placeholderHtml), attachments, copyHistory), w')
  ∧ (galleryApi = None → attachments = [] ∧ copyHistory = [] ∧ w' = w
                         ∧ ∀ fallback, content fallback = fallback)
  ∧ (∃ el, Card.buildDashboardRow message galleryApi galleryKey rowOptions w = Ok (el, w')
           ∧ innerHTML el =
               joinWith nl
                 [ [];
                   html "      <div class='chat-avatar-col'>" ++ avatarCol ++ html "</div>";
                   html "      <div class='chat-bubble'>";
                   html "        <div class='chat-bubble-header'>";
                   html "          <div class='chat-bubble-meta'>" ++ peerHtml true
                   ++ html "</div>";
                   html "          <div class='chat-bubble-time text-secondary'>" ++ time
                   ++ html "</div>";
                   html "        </div>";
                   html "        <div class='chat-bubble-author'>" ++ senderHtml true true
                   ++ html "</div>";
                   html "        " ++ replySlot compact;
                   html "        " ++ attachmentsSlot;
                   html "        <div class='chat-bubble-text'>" ++ cardBody
                   ++ html "</div>";
                   html "      </div>";
                   html "    " ])
  ∧ (∃ el, Card.buildLogsRow message galleryApi galleryKey rowOptions w = Ok (el, w')
           ∧ innerHTML el =
               joinWith nl
                 [ [];
                   html "      <div class='chat-avatar-col'>" ++ avatarCol ++ html "</div>";
                   html "      <div class='chat-bubble'> ";
                   html "        <div class='chat-bubble-header'>";
                   html "          <div class='chat-bubble-meta'>" ++ peerHtml true
                   ++ html "</div>";
                   html "          <div class='chat-bubble-time text-secondary'>" ++ time
                   ++ html "</div>";
                   html "        </div>";
                   html "        <div class='chat-bubble-author'>" ++ senderHtml true true
                   ++ html "</div>";
                   html "        <div class='chat-bubble-flags'>Бот: " ++ flag
                   ++ html "</div>";
                   html "        " ++ replySlot detailed;
                   html "        " ++ attachmentsSlot;
                   html "        <div class='chat-bubble-text'>" ++ cardBody
                   ++ html "</div>";
                   html "        <div class='chat-bubble-footer'>";
                   html "          <span class='badge bg-dark'>VK ID: " ++ vkId
                   ++ html "</span>";
                   html "          <span class='badge bg-secondary'>Запись: " ++ recordId
                   ++ html "</span> ";
                   html "          " ++ control ++ html " ";
                   html "        </div> ";
                   html "      </div>";
                   html "    " ])
  ∧ (∃ el, Card.buildEntityRow message galleryApi galleryKey rowOptions w = Ok (el, w')
           ∧ innerHTML el =
               joinWith nl
                 [ [];
                   html "      <div class='chat-avatar-col'>" ++ avatarCol ++ html "</div>";
                   html "      <div class='chat-bubble'>";
                   html "        <div class='chat-bubble-header'>"
                   ++ (html "<span class='chat-bubble-time text-secondary'>" ++ time
                       ++ html "</span>"
                       ++ (if chat
                           then str " · " ++ html "<span class='chat-bubble-meta'>"
                                ++ peerHtml true ++ html "</span>"
                           else [])
                       ++ (if sender
                           then str " · " ++ html "<span class='chat-bubble-author'>"
                                ++ senderHtml true true ++ html "</span>"
                           else []))
                   ++ html "</div>";
                   html "        " ++ attachmentsSlot;
                   html "        <div class='chat-bubble-text'>" ++ entityBody
                   ++ html "</div>";
                   html "      </div>";
                   html "    " ])
  ∧ (∃ el, Table.buildDashboardRow message galleryApi galleryKey rowOptions w = Ok (el, w')
           ∧ innerHTML el =
               html "<td class='text-secondary small text-nowrap'>" ++ time
               ++ html "</td><td class='text-nowrap'>" ++ peerHtml true
               ++ html "</td><td class='text-nowrap'>" ++ senderHtml true true
               ++ html "</td><td>" ++ compact
               ++ html "</td><td>" ++ tableContent
               ++ html "</td><td>" ++ tableBody ++ html "</td>")
  ∧ (∃ el, Table.buildLogsRow message galleryApi galleryKey rowOptions w = Ok (el, w')
           ∧ innerHTML el =
               html "<td class='text-nowrap'>" ++ time
               ++ html "</td><td class='text-nowrap'>" ++ peerHtml true
               ++ html "</td><td class='text-nowrap'>" ++ senderHtml true true
               ++ html "</td><td class='text-nowrap'>" ++ flag
               ++ html "</td><td>" ++ detailed
               ++ html "</td><td>" ++ tableContent
               ++ html "</td><td>" ++ tableBody
               ++ html "</td><td class='text-nowrap'>" ++ vkId
               ++ html "</td><td class='text-nowrap'>" ++ recordId
               ++ html "</td><td>" ++ control ++ html "</td>")
  ∧ (∃ el, Table.buildEntityRow message galleryApi galleryKey rowOptions w = Ok (el, w')
           ∧ innerHTML el =
               html "<td class='text-nowrap'>" ++ time ++ html "</td>"
               ++ (if chat
                   then html "<td class='text-nowrap'>" ++ peerHtml true ++ html "</td>"
                   else [])
               ++ (if sender
                   then html "<td class='text-nowrap'>" ++ senderHtml true true
                        ++ html "</td>"
                   else [])
               ++ html "<td>" ++ tableContent ++ html "</td>"
               ++ html "<td>" ++ entityBody ++ html "</td>").
Proof.
  intros Hm Hrecord Hreply HpeerId Hlabel Havatar Hformat Hcontent.
  intros w' dash placeholderHtml badgeHtml shown orDash labelled peerHtml senderHtml
    previewHtml time avatarCol attachments copyHistory content hasReply replySlot
    attachmentsSlot compact detailed cardBody tableBody entityBody tableContent flag
    vkId recordId control chat sender.
  pose proof (recordOk_messageOk _ Hrecord) as Hok.
  assert (∀ l a, toString (buildAvatarLabel l a) = labelled (shown l dash) a) as Hlabelled.
  { intros l a. apply toString_buildAvatarLabel. }
  assert (∀ cellOptions,
            toString (buildPeerCell m cellOptions)
            = peerHtml (not_false (field cellOptions "allowLink"))) as Hpeer.
  { intros cellOptions. unfold buildPeerCell, peerHtml, peerLink.
    destruct (not_false (field cellOptions "allowLink") && truthy (field m "peer_id"));
      cbn [toString]; rewrite Hlabelled; unfold shown;
      rewrite truthy_or_, toString_or_;
      by destruct (truthy (field m "peer_title")). }
  assert (∀ cellOptions,
            buildSenderCell m cellOptions
            = senderHtml (not_false (field cellOptions "allowLink"))
                         (not_false (field cellOptions "showBotBadge"))) as Hsender.
  { intros cellOptions. unfold buildSenderCell, senderHtml, senderDiv, senderLink.
    rewrite truthy_and_. cbn [truthy].
    destruct (not_false (field cellOptions "allowLink") && truthy (field m "from_id"));
      rewrite Hlabelled; unfold shown; rewrite truthy_or_, toString_or_;
      by destruct (truthy (field m "from_name")). }
  assert (∀ r o, textOk r = true →
            previewOf r o = previewHtml r (detailedMode o) (field o "peerId"))
    as Hpreview.
  { intros r o Hr. unfold previewOf, previewEmpty, previewHtml, detailedBlock,
      compactBlock, textSegment.
    rewrite replyLinkOf_rendered, replyAttachmentsLabelOf_rendered, Hlabelled,
      replyAuthorLabelOf_eq, toString_or_.
    unfold shown. rewrite (nonempty_truthy _ (replyAuthorLine_nonempty r)).
    cbn [toString].
    destruct (truthy r); [|reflexivity]. cbn [negb orb].
    by destruct (detailedMode o), (truthy (prop r "id")), (truthy (prop r "text")),
      (truthy (prop r "from_id")), (truthy (prop r "from_name")). }
  assert (toString (formatDateOf rowOptions (field m "created_at")) = time) as Htime.
  { unfold formatDateOf, time. destruct (formatDate rowOptions); [reflexivity|].
    apply toString_or_. }
  assert (avatarColOf m = avatarCol) as Hcol.
  { unfold avatarColOf, avatarCol. rewrite Hlabelled.
    assert (shown (or_ (field m "from_name") (field m "peer_title")) dash
            = if truthy (field m "from_name") then toString (field m "from_name")
              else shown (field m "peer_title") dash) as ->.
    { unfold shown, or_. destruct (truthy (field m "from_name")) eqn:Hname; [|done].
      by rewrite Hname. }
    reflexivity. }
  assert (toString (or_ (coalesce (field m "text") (VStr [])) (VStr placeholder))
          = cardBody) as Hcard.
  { unfold cardBody, shown. rewrite toString_or_.
    destruct (field m "text") as [| |b|z|s|xs|o]; reflexivity. }
  assert (not_false (field allowLinkOptions "allowLink") = true) as Hallow by evaluate.
  assert (not_false (field senderOptions "allowLink") = true) as Hallow' by evaluate.
  assert (not_false (field senderOptions "showBotBadge") = true) as Hbadge by evaluate.
  assert (previewOf (field m "reply") compactOptions = compact) as Hcompact.
  { rewrite (Hpreview _ _ Hok). by rewrite detailedMode_compactOptions. }
  assert (previewOf (field m "reply") (detailedOptions (field m "peer_id")) = detailed)
    as Hdetailed.
  { rewrite (Hpreview _ _ Hok). rewrite detailedMode_detailedOptions.
    unfold detailedOptions. by rewrite field_insert_eq. }
  assert (∀ preview, Card.replyBlock (hasReplyOf (field m "reply")) preview
                     = replySlot preview) as Hslot.
  { intros preview. unfold Card.replyBlock, replySlot, hasReply.
    by rewrite hasReplyOf_eq. }
  split.
  { repeat (apply Forall_app; split).
    - repeat (apply Forall_cons; split; [by apply toStringJS_printable|]).
      apply Forall_nil_2.
    - apply forallb_printable. unfold recordOk in Hrecord.
      by apply andb_true_iff in Hrecord as [? _].
    - apply forallb_printable. unfold recordOk, replyOk in Hrecord.
      rewrite !andb_true_iff in Hrecord. by destruct Hrecord as (_ & _ & ?).
    - apply forallb_printable. unfold replyOk in Hreply.
      by apply andb_true_iff in Hreply as [_ ?].
    - assert (printable (field m "created_at") = true) as Hcreated.
      { unfold recordOk in Hrecord. apply andb_true_iff in Hrecord as [Hfields _].
        cbn [forallb printedFields] in Hfields. rewrite !andb_true_iff in Hfields.
        by destruct Hfields as (_ & _ & _ & _ & _ & _ & ? & _). }
      assert (∀ fallback, printable (VStr fallback) = true →
                toStringJS (content (VStr fallback))
                = Ok (toString (content (VStr fallback)))) as Hcell.
      { intros fallback _. apply toStringJS_printable. unfold content.
        destruct (capability galleryApi buildContentCell) eqn:Hbuild; [|reflexivity].
        by apply Hcontent. }
      repeat (apply Forall_cons; split); [|by apply Hcell|by apply Hcell|apply Forall_nil_2].
      apply toStringJS_printable. unfold formatDateOf.
      destruct (formatDate rowOptions) as [format|]; [by apply Hformat|].
      unfold or_. by destruct (truthy (field m "created_at")). }
  split; [apply Hlabelled|]. split; [exact Hpeer|]. split; [exact Hsender|].
  split; [by rewrite (buildReplyPreview_eq _ _ (replyOk_textOk _ Hreply)),
             (Hpreview _ _ (replyOk_textOk _ Hreply))|].
  split; [by apply prepare_run|]. split; [by apply prepare_run|].
  split.
  { intros ->. unfold attachments, copyHistory, content. by repeat split. }
  split.
  { eexists. split; [by apply card_buildDashboardRow_run|].
    cbn [innerHTML]. by rewrite card_dashboardHtml_lines, Hcol, Hpeer, Hallow, Htime,
                          Hsender, Hallow', Hbadge, Hcompact, Hslot, Hcard. }
  split.
  { eexists. split; [by apply card_buildLogsRow_run|].
    cbn [innerHTML]. rewrite card_logsHtml_lines, Hcol, Hpeer, Hallow, Htime, Hsender,
                       Hallow', Hbadge, Hdetailed, Hslot, Hcard, !coalesce_dash.
    reflexivity. }
  split.
  { eexists. split; [by apply card_buildEntityRow_run|].
    cbn [innerHTML]. rewrite card_entityHtml_lines, joinWith_chunks, Hcol, Hpeer,
                       Hallow, Htime, Hsender, Hallow', Hbadge, coalesce_dash.
    by rewrite <- !app_assoc. }
  split.
  { eexists. split; [by apply table_buildDashboardRow_run|].
    cbn [innerHTML]. by rewrite Hpeer, Hallow, Htime, Hsender, Hallow', Hbadge,
                          Hcompact, toString_coalesce_empty. }
  split.
  { eexists. split; [by apply table_buildLogsRow_run|].
    cbn [innerHTML]. rewrite Hpeer, Hallow, Htime, Hsender, Hallow', Hbadge,
                       Hdetailed, toString_coalesce_empty, !coalesce_dash.
    reflexivity. }
  eexists. split; [by apply table_buildEntityRow_run|].
  cbn [innerHTML]. rewrite joinWith_cells, Hpeer, Hallow, Htime, Hsender, Hallow',
                     Hbadge, coalesce_dash.
  by rewrite <- !app_assoc.
Qed.

Lemma layer_total_with_defaults_witness :
  heap bareWorld !! 1%positive = Some ∅
  ∧ recordOk ∅ = true
  ∧ replyOk (VObj {[ "from_id" := VNum 9 ]}) = true
  ∧ printable (field (detailedOptions VUndef) "peerId") = true
  ∧ printable VUndef = true
  ∧ (∀ format v, formatDate sampleOptions = Some format → printable (format v) = true)
  ∧ (∀ build (g : unit) attachments copyHistory,
       capability None buildContentCell = Some build →
       printable (build g attachments copyHistory VUndef) = true)
  ∧ toString (buildAvatarLabel VUndef VUndef) = str "—"
  ∧ toString (buildPeerCell ∅ ∅) = str "Чат без названия"
  ∧ buildSenderCell ∅ ∅ =
      html "<div class='d-flex align-items-center gap-2 flex-wrap'>Неизвестный отправитель</div>"
  ∧ buildReplyPreview (VObj {[ "from_id" := VNum 9 ]}) (detailedOptions VUndef) =
      Ok (html "<div class='d-flex flex-column gap-1'><div class='d-flex align-items-center gap-2'>#—<span class='text-secondary small'>Без вложений</span></div><div class='text-secondary small'>Без текста</div><div class='text-secondary small'>ID: 9</div></div>")
  ∧ Card.prepareGalleryContent 1%positive None VUndef bareWorld
    = Ok ((VStr [], [], []), bareWorld)
  ∧ Table.prepareGalleryContent 1%positive None VUndef bareWorld
    = Ok ((VStr (html "<span class='text-secondary'>—</span>"), [], []), bareWorld)
  ∧ (∃ el, Card.buildDashboardRow 1%positive None VUndef sampleOptions bareWorld
             = Ok (el, bareWorld)
           ∧ innerHTML el =
               joinWith nl
                 [ [];
                   html "      <div class='chat-avatar-col'>—</div>";
                   html "      <div class='chat-bubble'>";
                   html "        <div class='chat-bubble-header'>";
                   html "          <div class='chat-bubble-meta'>Чат без названия</div>";
                   html "          <div class='chat-bubble-time text-secondary'>—</div>";
                   html "        </div>";
                   html "        <div class='chat-bubble-author'><div class='d-flex align-items-center gap-2 flex-wrap'>Неизвестный отправитель</div></div>";
                   html "        ";
                   html "        ";
                   html "        <div class='chat-bubble-text'><span class='text-secondary'>—</span></div>";
                   html "      </div>";
                   html "    " ])
  ∧ (∃ el, Card.buildLogsRow 1%positive None VUndef sampleOptions bareWorld
             = Ok (el, bareWorld)
           ∧ innerHTML el =
               joinWith nl
                 [ [];
                   html "      <div class='chat-avatar-col'>—</div>";
                   html "      <div class='chat-bubble'> ";
                   html "        <div class='chat-bubble-header'>";
                   html "          <div class='chat-bubble-meta'>Чат без названия</div>";
                   html "          <div class='chat-bubble-time text-secondary'>—</div>";
                   html "        </div>";
                   html "        <div class='chat-bubble-author'><div class='d-flex align-items-center gap-2 flex-wrap'>Неизвестный отправитель</div></div>";
                   html "        <div class='chat-bubble-flags'>Бот: Нет</div>";
                   html "        ";
                   html "        ";
                   html "        <div class='chat-bubble-text'><span class='text-secondary'>—</span></div>";
                   html "        <div class='chat-bubble-footer'>";
                   html "          <span class='badge bg-dark'>VK ID: —</span>";
                   html "          <span class='badge bg-secondary'>Запись: —</span> ";
                   html "          <button type='button' class='btn btn-sm btn-outline-danger delete-log-btn' data-log-id='undefined'>Удалить</button> ";
                   html "        </div> ";
                   html "      </div>";
                   html "    " ])
  ∧ (∃ el, Card.buildEntityRow 1%positive None VUndef sampleOptions bareWorld
             = Ok (el, bareWorld)
           ∧ innerHTML el =
               joinWith nl
                 [ [];
                   html "      <div class='chat-avatar-col'>—</div>";
                   html "      <div class='chat-bubble'>";
                   html "        <div class='chat-bubble-header'><span class='chat-bubble-time text-secondary'>—</span></div>";
                   html "        ";
                   html "        <div class='chat-bubble-text'>—</div>";
                   html "      </div>";
                   html "    " ])
  ∧ (∃ el, Table.buildDashboardRow 1%positive None VUndef sampleOptions bareWorld
             = Ok (el, bareWorld)
           ∧ innerHTML el =
               html "<td class='text-secondary small text-nowrap'>—</td><td class='text-nowrap'>Чат без названия</td><td class='text-nowrap'><div class='d-flex align-items-center gap-2 flex-wrap'>Неизвестный отправитель</div></td><td><span class='text-secondary'>—</span></td><td><span class='text-secondary'>—</span></td><td></td>")
  ∧ (∃ el, Table.buildLogsRow 1%positive None VUndef sampleOptions bareWorld
             = Ok (el, bareWorld)
           ∧ innerHTML el =
               html "<td class='text-nowrap'>—</td><td class='text-nowrap'>Чат без названия</td><td class='text-nowrap'><div class='d-flex align-items-center gap-2 flex-wrap'>Неизвестный отправитель</div></td><td class='text-nowrap'>Нет</td><td><span class='text-secondary'>—</span></td><td><span class='text-secondary'>—</span></td><td></td><td class='text-nowrap'>—</td><td class='text-nowrap'>—</td><td><button type='button' class='btn btn-sm btn-outline-danger delete-log-btn' data-log-id='undefined'>Удалить</button></td>")
  ∧ (∃ el, Table.buildEntityRow 1%positive None VUndef sampleOptions bareWorld
             = Ok (el, bareWorld)
           ∧ innerHTML el =
               html "<td class='text-nowrap'>—</td><td><span class='text-secondary'>—</span></td><td>—</td>").
Proof.
  assert (∀ format v, formatDate sampleOptions = Some format →
            printable (format v) = true) as Hformat.
  { intros format v H. discriminate H. }
  assert (∀ build (g : unit) attachments copyHistory,
            capability None buildContentCell = Some build →
            printable (build g attachments copyHistory VUndef) = true) as Hcontent.
  { intros build g attachments copyHistory H. discriminate H. }
  split; [apply lookup_singleton_eq|]. split; [evaluate|]. split; [evaluate|].
  split; [evaluate|]. split; [reflexivity|]. split; [exact Hformat|].
  split; [exact Hcontent|].
  pose proof (layer_total_with_defaults 1%positive None VUndef sampleOptions
                (detailedOptions VUndef) (VObj {[ "from_id" := VNum 9 ]}) VUndef VUndef
                bareWorld ∅ (lookup_singleton_eq _ _) eq_refl eq_refl eq_refl eq_refl
                eq_refl Hformat Hcontent) as H.
  cbv zeta in H.
  destruct H as (_ & Hlabel & Hpeer & Hsender & Hpreview & Hcard & Htable & _
                 & (el1 & Hrun1 & Hhtml1) & (el2 & Hrun2 & Hhtml2)
                 & (el3 & Hrun3 & Hhtml3) & (el4 & Hrun4 & Hhtml4)
                 & (el5 & Hrun5 & Hhtml5) & (el6 & Hrun6 & Hhtml6)).
  split; [rewrite Hlabel; evaluate|].
  split; [rewrite (Hpeer ∅); evaluate|].
  split; [rewrite (Hsender ∅); evaluate|].
  split; [rewrite Hpreview; evaluate|].
  split; [rewrite Hcard; evaluate|].
  split; [rewrite Htable; evaluate|].
  split; [exists el1; split; [exact Hrun1|rewrite Hhtml1; evaluate]|].
  split; [exists el2; split; [exact Hrun2|rewrite Hhtml2; evaluate]|].
  split; [exists el3; split; [exact Hrun3|rewrite Hhtml3; evaluate]|].
  split; [exists el4; split; [exact Hrun4|rewrite Hhtml4; evaluate]|].
  split; [exists el5; split; [exact Hrun5|rewrite Hhtml5; evaluate]|].
  exists el6; split; [exact Hrun6|rewrite Hhtml6; evaluate].
Defined.
